(** * MQTT client API and static-memory allocator of the AWS IoT device SDK

    A shallow embedding of [lib/source/mqtt/iot_mqtt_api.c] and of
    [lib/source/common/static_memory/iot_static_memory_common.c].

    Conventions of the embedding.
    - C integers are [Z]; a store into a fixed-width unsigned object writes
      the value modulo its width.  Reference counts are [int32_t] in the
      source and are kept as unbounded [Z]: signed overflow is undefined in C.
    - The library runs against collaborators that are not part of these two
      files: the network interface, the task pool, the platform layer, the
      serializers and the validators.  Their answers are the fields of an
      environment [Env]; every call to a stateful collaborator is recorded in
      the [trace] of the world and its answer may depend on the whole history.
    - [IotMqtt_Assert] is compiled in or out by [IOT_MQTT_ENABLE_ASSERTS].  A
      violated assertion is recorded as [EvAssertFailed] and execution goes
      on, as it does in a build without assertions; a build with assertions
      stops at the first such event.
    - Mutex lock/unlock pairs delimit critical sections and have no effect on
      a sequential execution; they are left out. *)

From Stdlib Require Import ZArith Lia.
From Stdlib.Strings Require Import Byte.
From stdpp Require Import base list gmap strings.

Local Open Scope Z_scope.

(** ** Static memory: [iot_static_memory_common.c] *)

(** The body of the [for] loop of [IotStaticMemory_FindFree], with [n] the
    number of iterations left and [i] the loop index.  Reading [pInUse[i]]
    outside the array is undefined in C: the result is then [None]. *)
Fixpoint FindFree_loop (n : nat) (i : Z) (pInUse : list bool) : option (Z * list bool) :=
  match n with
  | O => Some (-1, pInUse)
  | S n' =>
      match pInUse !! Z.to_nat i with
      | None => None
      | Some false => Some (i, <[Z.to_nat i := true]> pInUse)
      | Some true => FindFree_loop n' (i + 1) pInUse
      end
  end.

(** [int IotStaticMemory_FindFree( bool * const pInUse, int limit )]: the
    returned index together with the array after the call. *)
Definition IotStaticMemory_FindFree (pInUse : list bool) (limit : Z) : option (Z * list bool) :=
  FindFree_loop (Z.to_nat limit) 0 pInUse.

(** Addresses are integers, and the memory that holds the buffers of a pool
    is a map from addresses to bytes.  The in-use flags are an object of
    their own, which no buffer pointer reaches.  Pointer arithmetic does not
    wrap: a pool lies inside the address space. *)
Definition Memory : Type := Z -> byte.

(** [memset( ptr, c, n )]. *)
Definition memset (m : Memory) (ptr : Z) (c : byte) (n : Z) : Memory :=
  fun a => if (ptr <=? a) && (a <? ptr + n) then c else m a.

(** The [for] loop of [IotStaticMemory_ReturnInUse], with [n] the number of
    iterations left and [i] the loop index.  [&&] does not read [pInUse[i]]
    unless the address matches; reading it outside the array is undefined:
    the result is then [None]. *)
Fixpoint ReturnInUse_loop (n : nat) (i : Z) (ptr pPool : Z) (pInUse : list bool)
    (elementSize : Z) : option (list bool) :=
  match n with
  | O => Some pInUse
  | S n' =>
      let element := pPool + elementSize * i in
      if element =? ptr then
        match pInUse !! Z.to_nat i with
        | None => None
        | Some true => Some (<[Z.to_nat i := false]> pInUse)
        | Some false => ReturnInUse_loop n' (i + 1) ptr pPool pInUse elementSize
        end
      else ReturnInUse_loop n' (i + 1) ptr pPool pInUse elementSize
  end.

(** [void IotStaticMemory_ReturnInUse( void * ptr, void * const pPool,
    bool * const pInUse, int limit, size_t elementSize )]: the flags and the
    memory after the call. *)
Definition IotStaticMemory_ReturnInUse (ptr pPool : Z) (pInUse : list bool)
    (limit elementSize : Z) (m : Memory) : option (list bool * Memory) :=
  let m' := memset m ptr x00 elementSize in
  match ReturnInUse_loop (Z.to_nat limit) 0 ptr pPool pInUse elementSize with
  | None => None
  | Some pInUse' => Some (pInUse', m')
  end.

(** The configuration constants of the message buffers (both are checked to
    be above 0 when the file is compiled) and the address of the static
    array [_pMessageBuffers]. *)
Record MessageBufferConfig := {
  IOT_MESSAGE_BUFFERS : Z;
  IOT_MESSAGE_BUFFER_SIZE : Z;
  _pMessageBuffers : Z
}.

(** The static objects of the file: the in-use flags and the memory of the
    message buffers. *)
Record MessageBuffers := {
  _pInUseMessageBuffers : list bool;
  messageMemory : Memory
}.

(** [size_t Iot_MessageBufferSize( void )]. *)
Definition Iot_MessageBufferSize (cfg : MessageBufferConfig) : Z :=
  IOT_MESSAGE_BUFFER_SIZE cfg.

(** [void * Iot_MallocMessageBuffer( size_t size )]: the returned pointer
    ([None] is [NULL]) and the static objects after the call. *)
Definition Iot_MallocMessageBuffer (cfg : MessageBufferConfig) (size : Z)
    (s : MessageBuffers) : option (option Z * MessageBuffers) :=
  if size <=? IOT_MESSAGE_BUFFER_SIZE cfg then
    match IotStaticMemory_FindFree (_pInUseMessageBuffers s) (IOT_MESSAGE_BUFFERS cfg) with
    | None => None
    | Some (freeIndex, pInUse') =>
        let s' := {| _pInUseMessageBuffers := pInUse'; messageMemory := messageMemory s |} in
        if freeIndex =? -1 then Some (None, s')
        else Some (Some (_pMessageBuffers cfg + freeIndex * IOT_MESSAGE_BUFFER_SIZE cfg), s')
    end
  else Some (None, s).

(** [void Iot_FreeMessageBuffer( void * ptr )]. *)
Definition Iot_FreeMessageBuffer (cfg : MessageBufferConfig) (ptr : Z)
    (s : MessageBuffers) : option MessageBuffers :=
  match IotStaticMemory_ReturnInUse ptr (_pMessageBuffers cfg) (_pInUseMessageBuffers s)
          (IOT_MESSAGE_BUFFERS cfg) (IOT_MESSAGE_BUFFER_SIZE cfg) (messageMemory s) with
  | None => None
  | Some (pInUse', m') => Some {| _pInUseMessageBuffers := pInUse'; messageMemory := m' |}
  end.

(** ** MQTT types *)

(** Status codes, as enumerated by [IotMqtt_strerror]. *)
Inductive IotMqttError_t : Set :=
| IOT_MQTT_SUCCESS
| IOT_MQTT_STATUS_PENDING
| IOT_MQTT_INIT_FAILED
| IOT_MQTT_BAD_PARAMETER
| IOT_MQTT_NO_MEMORY
| IOT_MQTT_NETWORK_ERROR
| IOT_MQTT_SCHEDULING_ERROR
| IOT_MQTT_BAD_RESPONSE
| IOT_MQTT_TIMEOUT
| IOT_MQTT_SERVER_REFUSED
| IOT_MQTT_RETRY_NO_RESPONSE.

(** Operation kinds, as enumerated by [IotMqtt_OperationType]. *)
Inductive IotMqttOperationType_t : Set :=
| IOT_MQTT_CONNECT
| IOT_MQTT_PUBLISH_TO_SERVER
| IOT_MQTT_PUBACK
| IOT_MQTT_SUBSCRIBE
| IOT_MQTT_UNSUBSCRIBE
| IOT_MQTT_PINGREQ
| IOT_MQTT_DISCONNECT.

(** The source only ever compares these two against their success value. *)
Inductive IotNetworkError_t : Set := IOT_NETWORK_SUCCESS | IOT_NETWORK_FAILURE.
Inductive IotTaskPoolError_t : Set := IOT_TASKPOOL_SUCCESS | IOT_TASKPOOL_FAILURE.

#[global] Instance IotMqttError_eq_dec : EqDecision IotMqttError_t.
Proof. solve_decision. Defined.
#[global] Instance IotMqttOperationType_eq_dec : EqDecision IotMqttOperationType_t.
Proof. solve_decision. Defined.
#[global] Instance IotNetworkError_eq_dec : EqDecision IotNetworkError_t.
Proof. solve_decision. Defined.
#[global] Instance IotTaskPoolError_eq_dec : EqDecision IotTaskPoolError_t.
Proof. solve_decision. Defined.

(** Modelled from the spec: the public flags are single bits ("WAITABLE bit,
    CLEANUP-ONLY bit"); their header is not part of the two files. *)
Definition IOT_MQTT_FLAG_WAITABLE : Z := 1.
Definition IOT_MQTT_FLAG_CLEANUP_ONLY : Z := 2.

(** [IotMqttQos_t] is a C enumeration; the source compares it with [==],
    [!=] and [>]. *)
Definition IOT_MQTT_QOS_0 : Z := 0.
Definition IOT_MQTT_QOS_1 : Z := 1.

Definition UINT16_MAX : Z := 65535.

(** A serialized packet: the buffer pointer ([None] is [NULL]); its size is
    the length of the buffer. *)
Definition Packet : Type := option (list byte).

Definition packetSize (p : Packet) : Z :=
  match p with Some b => Z.of_nat (length b) | None => 0 end.

(** [IotMqttCallbackInfo_t]: a function pointer and its context, both opaque. *)
Record IotMqttCallbackInfo_t : Set := {
  param1 : nat;
  function : nat
}.

#[global] Instance IotMqttCallbackInfo_eq_dec : EqDecision IotMqttCallbackInfo_t.
Proof. solve_decision. Defined.

(** [IotMqttPublishInfo_t], the members this file reads. *)
Record IotMqttPublishInfo_t : Set := {
  qos : Z;
  payloadLength : Z;
  retryLimit : Z;
  retryMs : Z
}.

(** [IotMqttSubscription_t]: one element of a subscription list. *)
Record IotMqttSubscription_t : Set := {
  sub_qos : Z;
  pTopicFilter : string;
  callback : IotMqttCallbackInfo_t
}.

(** [IotMqttConnectInfo_t], the members this file reads. *)
Record IotMqttConnectInfo_t : Set := {
  awsIotMqttMode : bool;
  cleanSession : bool;
  pPreviousSubscriptions : option (list IotMqttSubscription_t);
  previousSubscriptionCount : nat;
  pWillInfo : option IotMqttPublishInfo_t;
  keepAliveSeconds : Z
}.

(** A reference to an operation is its address; [None] is
    [IOT_MQTT_REFERENCE_INITIALIZER]. *)
Definition IotMqttReference_t : Set := option nat.
Definition IOT_MQTT_REFERENCE_INITIALIZER : IotMqttReference_t := None.

(** Calls to collaborators, in the order they are made. *)
Inductive Event : Set :=
| EvMallocConnection
| EvFreeConnection
| EvMutexCreate (recursive : bool)
| EvMutexDestroy (recursive : bool)
| EvNetworkCreate
| EvNetworkSetReceiveCallback
| EvNetworkClose
| EvNetworkDestroy
| EvSerialize (operation : IotMqttOperationType_t)
| EvFreePacket
| EvTaskPoolCreateJob
| EvTaskPoolScheduleDeferred (delayMs : Z)
| EvTaskPoolTryCancelKeepAlive
| EvTaskPoolTryCancel (pOperation : nat)
| EvSemaphoreTimedWait (pOperation : nat) (timeoutMs : Z)
| EvCreateOperation
| EvScheduleOperation (pOperation : nat)
| EvDestroyOperation (pOperation : nat)
| EvAddSubscriptions (packetIdentifier : Z)
| EvRemoveSubscriptionByTopicFilter
| EvRemoveSubscriptionByPacket (packetIdentifier : Z) (order : Z)
| EvAssertFailed.

#[global] Instance Event_eq_dec : EqDecision Event.
Proof. solve_decision. Defined.

(** The serializer functions a connection may override
    ([pNetworkInfo->pMqttSerializer->serialize]); [None] is a [NULL] member.
    Each takes the history of calls before it. *)
Record IotMqttSerializer_t : Type := {
  serialize_connect : option (list Event -> IotMqttConnectInfo_t -> IotMqttError_t * Packet);
  serialize_publish :
    option (list Event -> IotMqttPublishInfo_t -> bool -> IotMqttError_t * Packet * Z);
  serialize_subscribe :
    option (list Event -> list IotMqttSubscription_t -> nat -> IotMqttError_t * Packet * Z);
  serialize_unsubscribe :
    option (list Event -> list IotMqttSubscription_t -> nat -> IotMqttError_t * Packet * Z);
  serialize_pingreq : option (list Event -> IotMqttError_t * Packet);
  serialize_disconnect : option (list Event -> IotMqttError_t * Packet)
}.

(** [IotMqttNetworkInfo_t].  The functions of [pNetworkInterface] are
    collaborators and live in [Env]. *)
Record IotMqttNetworkInfo_t : Type := {
  createNetworkConnection : bool;
  pNetworkConnection : nat;
  pMqttSerializer : option IotMqttSerializer_t
}.

(** ** Connection, operations and subscriptions *)

(** [_mqttSubscription_t]: an element of a connection's subscription list. *)
Record _mqttSubscription_t : Set := {
  s_references : Z;
  unsubscribed : bool;
  s_packetIdentifier : Z;
  s_order : Z;
  s_callback : IotMqttCallbackInfo_t;
  s_qos : Z;
  s_topicFilter : string
}.

#[global] Instance _mqttSubscription_eq_dec : EqDecision _mqttSubscription_t.
Proof. solve_decision. Defined.

(** [_mqttOperation_t].  [notify] is the union of the wait semaphore and the
    completion callback; which one is live follows from the waitable flag. *)
Record _mqttOperation_t : Type := {
  o_operation : IotMqttOperationType_t;
  o_flags : Z;
  o_references : Z;
  o_status : IotMqttError_t;
  o_packetIdentifier : Z;
  pMqttPacket : Packet;
  pPacketIdentifierHigh : bool;
  retry_limit : Z;
  retry_nextPeriod : Z;
  notify_callback : option IotMqttCallbackInfo_t
}.

(** [_mqttConnection_t]. *)
Record _mqttConnection_t : Type := {
  c_awsIotMqttMode : bool;
  ownNetworkConnection : bool;
  c_pNetworkConnection : nat;
  disconnected : bool;
  references : Z;
  subscriptionList : list _mqttSubscription_t;
  pendingProcessing : list nat;
  pendingResponse : list nat;
  keepAliveMs : Z;
  nextKeepAliveMs : Z;
  pPingreqPacket : Packet;
  pingreqPacketSize : Z;
  pSerializer : option IotMqttSerializer_t
}.

(** The memory the library works on: one connection object, the operations
    allocated for it (by address), the variable a caller passes as reference
    output, the history of collaborator calls, and the messages given to
    [IotLogWarn] (the other log levels are not kept). *)
Record World : Type := {
  connection : _mqttConnection_t;
  connectionAllocated : bool;
  operations : gmap nat _mqttOperation_t;
  callerReference : IotMqttReference_t;
  trace : list Event;
  warnings : list string
}.

(** ** The environment: configuration and collaborators *)

Record Env : Type := {
  (* configuration constants of headers outside the two files *)
  IOT_MQTT_ENABLE_SERIALIZER_OVERRIDES : bool;
  _AWS_IOT_MQTT_SERVER_MIN_KEEPALIVE : Z;
  _AWS_IOT_MQTT_SERVER_MAX_KEEPALIVE : Z;
  IOT_MQTT_RESPONSE_WAIT_MS : Z;
  (* validators (iot_mqtt_validate.c) *)
  _IotMqtt_ValidateConnect : IotMqttConnectInfo_t -> bool;
  _IotMqtt_ValidatePublish : bool -> IotMqttPublishInfo_t -> bool;
  _IotMqtt_ValidateSubscriptionList :
    IotMqttOperationType_t -> bool -> list IotMqttSubscription_t -> nat -> bool;
  _IotMqtt_ValidateReference : _mqttOperation_t -> bool;
  (* default serializers (iot_mqtt_serialize.c) *)
  _IotMqtt_SerializeConnect : list Event -> IotMqttConnectInfo_t -> IotMqttError_t * Packet;
  _IotMqtt_SerializePublish :
    list Event -> IotMqttPublishInfo_t -> bool -> IotMqttError_t * Packet * Z;
  _IotMqtt_SerializeSubscribe :
    list Event -> list IotMqttSubscription_t -> nat -> IotMqttError_t * Packet * Z;
  _IotMqtt_SerializeUnsubscribe :
    list Event -> list IotMqttSubscription_t -> nat -> IotMqttError_t * Packet * Z;
  _IotMqtt_SerializePingreq : list Event -> IotMqttError_t * Packet;
  _IotMqtt_SerializeDisconnect : list Event -> IotMqttError_t * Packet;
  (* network interface *)
  network_create : list Event -> IotNetworkError_t * nat;
  network_setReceiveCallback : list Event -> IotNetworkError_t;
  network_close : list Event -> IotNetworkError_t;
  network_destroy : list Event -> IotNetworkError_t;
  (* task pool *)
  IotTaskPool_CreateJob : list Event -> IotTaskPoolError_t;
  IotTaskPool_ScheduleDeferred : list Event -> IotTaskPoolError_t;
  IotTaskPool_TryCancel : list Event -> IotTaskPoolError_t;
  (* platform layer *)
  IotMqtt_MallocConnection : list Event -> bool;
  IotMutex_Create : list Event -> bool;
  IotSemaphore_TimedWait : list Event -> bool;
  (* what the task-pool threads do to an operation while a caller is
     suspended on its semaphore *)
  taskPool_progress : list Event -> _mqttOperation_t -> _mqttOperation_t;
  (* outcomes of the operation engine and of the subscription table that
     depend on the allocator and on the task pool *)
  createOperation_status : list Event -> IotMqttError_t;
  scheduleOperation_status : list Event -> IotMqttError_t;
  addSubscriptions_status : list Event -> IotMqttError_t
}.

(** ** State monad over the world *)

Definition M (A : Type) : Type := World -> A * World.

Definition ret {A : Type} (a : A) : M A := fun w => (a, w).

Definition bind {A B : Type} (m : M A) (k : A -> M B) : M B :=
  fun w => let (a, w') := m w in k a w'.

Notation "x <- m ;; k" := (bind m (fun x => k))
  (at level 100, m at next level, right associativity).
Notation "m ;; k" := (bind m (fun _ => k))
  (at level 100, right associativity).

Definition when (b : bool) (m : M unit) : M unit := if b then m else ret tt.

Definition setConnection (c : _mqttConnection_t) (w : World) : World :=
  {| connection := c; connectionAllocated := connectionAllocated w;
     operations := operations w; callerReference := callerReference w;
     trace := trace w; warnings := warnings w |}.

Definition setConnectionAllocated (b : bool) (w : World) : World :=
  {| connection := connection w; connectionAllocated := b;
     operations := operations w; callerReference := callerReference w;
     trace := trace w; warnings := warnings w |}.

Definition setOperations (o : gmap nat _mqttOperation_t) (w : World) : World :=
  {| connection := connection w; connectionAllocated := connectionAllocated w;
     operations := o; callerReference := callerReference w;
     trace := trace w; warnings := warnings w |}.

Definition setCallerReference (r : IotMqttReference_t) (w : World) : World :=
  {| connection := connection w; connectionAllocated := connectionAllocated w;
     operations := operations w; callerReference := r;
     trace := trace w; warnings := warnings w |}.

Definition emit (e : Event) (w : World) : World :=
  {| connection := connection w; connectionAllocated := connectionAllocated w;
     operations := operations w; callerReference := callerReference w;
     trace := trace w ++ [e]; warnings := warnings w |}.

Definition IotLogWarn (message : string) : M unit :=
  fun w =>
    (tt, {| connection := connection w; connectionAllocated := connectionAllocated w;
            operations := operations w; callerReference := callerReference w;
            trace := trace w; warnings := warnings w ++ [message] |}).

(** A call to a collaborator: the answer is a function of the history before
    the call, and the call is appended to the history. *)
Definition call {A : Type} (e : Event) (answer : list Event -> A) : M A :=
  fun w => (answer (trace w), emit e w).

Definition getConnection : M _mqttConnection_t := fun w => (connection w, w).

Definition modifyConnection (f : _mqttConnection_t -> _mqttConnection_t) : M unit :=
  fun w => (tt, setConnection (f (connection w)) w).

Definition IotMqtt_Assert (b : bool) : M unit :=
  fun w => (tt, if b then w else emit EvAssertFailed w).

(** ** Member stores *)

(** [set_m v x] is the object [x] after the store [x.m = v]. *)
Definition set_c_awsIotMqttMode (v : bool) (c : _mqttConnection_t) : _mqttConnection_t :=
  {| c_awsIotMqttMode := v; ownNetworkConnection := ownNetworkConnection c;
     c_pNetworkConnection := c_pNetworkConnection c; disconnected := disconnected c;
     references := references c; subscriptionList := subscriptionList c;
     pendingProcessing := pendingProcessing c; pendingResponse := pendingResponse c;
     keepAliveMs := keepAliveMs c; nextKeepAliveMs := nextKeepAliveMs c;
     pPingreqPacket := pPingreqPacket c; pingreqPacketSize := pingreqPacketSize c;
     pSerializer := pSerializer c |}.

Definition set_ownNetworkConnection (v : bool) (c : _mqttConnection_t) : _mqttConnection_t :=
  {| c_awsIotMqttMode := c_awsIotMqttMode c; ownNetworkConnection := v;
     c_pNetworkConnection := c_pNetworkConnection c; disconnected := disconnected c;
     references := references c; subscriptionList := subscriptionList c;
     pendingProcessing := pendingProcessing c; pendingResponse := pendingResponse c;
     keepAliveMs := keepAliveMs c; nextKeepAliveMs := nextKeepAliveMs c;
     pPingreqPacket := pPingreqPacket c; pingreqPacketSize := pingreqPacketSize c;
     pSerializer := pSerializer c |}.

Definition set_c_pNetworkConnection (v : nat) (c : _mqttConnection_t) : _mqttConnection_t :=
  {| c_awsIotMqttMode := c_awsIotMqttMode c; ownNetworkConnection :=
     ownNetworkConnection c; c_pNetworkConnection := v; disconnected := disconnected
     c; references := references c; subscriptionList := subscriptionList c;
     pendingProcessing := pendingProcessing c; pendingResponse := pendingResponse c;
     keepAliveMs := keepAliveMs c; nextKeepAliveMs := nextKeepAliveMs c;
     pPingreqPacket := pPingreqPacket c; pingreqPacketSize := pingreqPacketSize c;
     pSerializer := pSerializer c |}.

Definition set_disconnected (v : bool) (c : _mqttConnection_t) : _mqttConnection_t :=
  {| c_awsIotMqttMode := c_awsIotMqttMode c; ownNetworkConnection :=
     ownNetworkConnection c; c_pNetworkConnection := c_pNetworkConnection c;
     disconnected := v; references := references c; subscriptionList :=
     subscriptionList c; pendingProcessing := pendingProcessing c; pendingResponse
     := pendingResponse c; keepAliveMs := keepAliveMs c; nextKeepAliveMs :=
     nextKeepAliveMs c; pPingreqPacket := pPingreqPacket c; pingreqPacketSize :=
     pingreqPacketSize c; pSerializer := pSerializer c |}.

Definition set_references (v : Z) (c : _mqttConnection_t) : _mqttConnection_t :=
  {| c_awsIotMqttMode := c_awsIotMqttMode c; ownNetworkConnection :=
     ownNetworkConnection c; c_pNetworkConnection := c_pNetworkConnection c;
     disconnected := disconnected c; references := v; subscriptionList :=
     subscriptionList c; pendingProcessing := pendingProcessing c; pendingResponse
     := pendingResponse c; keepAliveMs := keepAliveMs c; nextKeepAliveMs :=
     nextKeepAliveMs c; pPingreqPacket := pPingreqPacket c; pingreqPacketSize :=
     pingreqPacketSize c; pSerializer := pSerializer c |}.

Definition set_subscriptionList (v : list _mqttSubscription_t) (c : _mqttConnection_t) : _mqttConnection_t :=
  {| c_awsIotMqttMode := c_awsIotMqttMode c; ownNetworkConnection :=
     ownNetworkConnection c; c_pNetworkConnection := c_pNetworkConnection c;
     disconnected := disconnected c; references := references c; subscriptionList :=
     v; pendingProcessing := pendingProcessing c; pendingResponse := pendingResponse
     c; keepAliveMs := keepAliveMs c; nextKeepAliveMs := nextKeepAliveMs c;
     pPingreqPacket := pPingreqPacket c; pingreqPacketSize := pingreqPacketSize c;
     pSerializer := pSerializer c |}.

Definition set_pendingProcessing (v : list nat) (c : _mqttConnection_t) : _mqttConnection_t :=
  {| c_awsIotMqttMode := c_awsIotMqttMode c; ownNetworkConnection :=
     ownNetworkConnection c; c_pNetworkConnection := c_pNetworkConnection c;
     disconnected := disconnected c; references := references c; subscriptionList :=
     subscriptionList c; pendingProcessing := v; pendingResponse := pendingResponse
     c; keepAliveMs := keepAliveMs c; nextKeepAliveMs := nextKeepAliveMs c;
     pPingreqPacket := pPingreqPacket c; pingreqPacketSize := pingreqPacketSize c;
     pSerializer := pSerializer c |}.

Definition set_pendingResponse (v : list nat) (c : _mqttConnection_t) : _mqttConnection_t :=
  {| c_awsIotMqttMode := c_awsIotMqttMode c; ownNetworkConnection :=
     ownNetworkConnection c; c_pNetworkConnection := c_pNetworkConnection c;
     disconnected := disconnected c; references := references c; subscriptionList :=
     subscriptionList c; pendingProcessing := pendingProcessing c; pendingResponse
     := v; keepAliveMs := keepAliveMs c; nextKeepAliveMs := nextKeepAliveMs c;
     pPingreqPacket := pPingreqPacket c; pingreqPacketSize := pingreqPacketSize c;
     pSerializer := pSerializer c |}.

Definition set_keepAliveMs (v : Z) (c : _mqttConnection_t) : _mqttConnection_t :=
  {| c_awsIotMqttMode := c_awsIotMqttMode c; ownNetworkConnection :=
     ownNetworkConnection c; c_pNetworkConnection := c_pNetworkConnection c;
     disconnected := disconnected c; references := references c; subscriptionList :=
     subscriptionList c; pendingProcessing := pendingProcessing c; pendingResponse
     := pendingResponse c; keepAliveMs := v; nextKeepAliveMs := nextKeepAliveMs c;
     pPingreqPacket := pPingreqPacket c; pingreqPacketSize := pingreqPacketSize c;
     pSerializer := pSerializer c |}.

Definition set_nextKeepAliveMs (v : Z) (c : _mqttConnection_t) : _mqttConnection_t :=
  {| c_awsIotMqttMode := c_awsIotMqttMode c; ownNetworkConnection :=
     ownNetworkConnection c; c_pNetworkConnection := c_pNetworkConnection c;
     disconnected := disconnected c; references := references c; subscriptionList :=
     subscriptionList c; pendingProcessing := pendingProcessing c; pendingResponse
     := pendingResponse c; keepAliveMs := keepAliveMs c; nextKeepAliveMs := v;
     pPingreqPacket := pPingreqPacket c; pingreqPacketSize := pingreqPacketSize c;
     pSerializer := pSerializer c |}.

Definition set_pPingreqPacket (v : Packet) (c : _mqttConnection_t) : _mqttConnection_t :=
  {| c_awsIotMqttMode := c_awsIotMqttMode c; ownNetworkConnection :=
     ownNetworkConnection c; c_pNetworkConnection := c_pNetworkConnection c;
     disconnected := disconnected c; references := references c; subscriptionList :=
     subscriptionList c; pendingProcessing := pendingProcessing c; pendingResponse
     := pendingResponse c; keepAliveMs := keepAliveMs c; nextKeepAliveMs :=
     nextKeepAliveMs c; pPingreqPacket := v; pingreqPacketSize := pingreqPacketSize
     c; pSerializer := pSerializer c |}.

Definition set_pingreqPacketSize (v : Z) (c : _mqttConnection_t) : _mqttConnection_t :=
  {| c_awsIotMqttMode := c_awsIotMqttMode c; ownNetworkConnection :=
     ownNetworkConnection c; c_pNetworkConnection := c_pNetworkConnection c;
     disconnected := disconnected c; references := references c; subscriptionList :=
     subscriptionList c; pendingProcessing := pendingProcessing c; pendingResponse
     := pendingResponse c; keepAliveMs := keepAliveMs c; nextKeepAliveMs :=
     nextKeepAliveMs c; pPingreqPacket := pPingreqPacket c; pingreqPacketSize := v;
     pSerializer := pSerializer c |}.

Definition set_pSerializer (v : option IotMqttSerializer_t) (c : _mqttConnection_t) : _mqttConnection_t :=
  {| c_awsIotMqttMode := c_awsIotMqttMode c; ownNetworkConnection :=
     ownNetworkConnection c; c_pNetworkConnection := c_pNetworkConnection c;
     disconnected := disconnected c; references := references c; subscriptionList :=
     subscriptionList c; pendingProcessing := pendingProcessing c; pendingResponse
     := pendingResponse c; keepAliveMs := keepAliveMs c; nextKeepAliveMs :=
     nextKeepAliveMs c; pPingreqPacket := pPingreqPacket c; pingreqPacketSize :=
     pingreqPacketSize c; pSerializer := v |}.

Definition set_o_operation (v : IotMqttOperationType_t) (o : _mqttOperation_t) : _mqttOperation_t :=
  {| o_operation := v; o_flags := o_flags o; o_references := o_references o;
     o_status := o_status o; o_packetIdentifier := o_packetIdentifier o; pMqttPacket
     := pMqttPacket o; pPacketIdentifierHigh := pPacketIdentifierHigh o; retry_limit
     := retry_limit o; retry_nextPeriod := retry_nextPeriod o; notify_callback :=
     notify_callback o |}.

Definition set_o_references (v : Z) (o : _mqttOperation_t) : _mqttOperation_t :=
  {| o_operation := o_operation o; o_flags := o_flags o; o_references := v; o_status
     := o_status o; o_packetIdentifier := o_packetIdentifier o; pMqttPacket :=
     pMqttPacket o; pPacketIdentifierHigh := pPacketIdentifierHigh o; retry_limit :=
     retry_limit o; retry_nextPeriod := retry_nextPeriod o; notify_callback :=
     notify_callback o |}.

Definition set_o_status (v : IotMqttError_t) (o : _mqttOperation_t) : _mqttOperation_t :=
  {| o_operation := o_operation o; o_flags := o_flags o; o_references :=
     o_references o; o_status := v; o_packetIdentifier := o_packetIdentifier o;
     pMqttPacket := pMqttPacket o; pPacketIdentifierHigh := pPacketIdentifierHigh o;
     retry_limit := retry_limit o; retry_nextPeriod := retry_nextPeriod o;
     notify_callback := notify_callback o |}.

Definition set_o_packetIdentifier (v : Z) (o : _mqttOperation_t) : _mqttOperation_t :=
  {| o_operation := o_operation o; o_flags := o_flags o; o_references :=
     o_references o; o_status := o_status o; o_packetIdentifier := v; pMqttPacket :=
     pMqttPacket o; pPacketIdentifierHigh := pPacketIdentifierHigh o; retry_limit :=
     retry_limit o; retry_nextPeriod := retry_nextPeriod o; notify_callback :=
     notify_callback o |}.

Definition set_pMqttPacket (v : Packet) (o : _mqttOperation_t) : _mqttOperation_t :=
  {| o_operation := o_operation o; o_flags := o_flags o; o_references :=
     o_references o; o_status := o_status o; o_packetIdentifier :=
     o_packetIdentifier o; pMqttPacket := v; pPacketIdentifierHigh :=
     pPacketIdentifierHigh o; retry_limit := retry_limit o; retry_nextPeriod :=
     retry_nextPeriod o; notify_callback := notify_callback o |}.

Definition set_pPacketIdentifierHigh (v : bool) (o : _mqttOperation_t) : _mqttOperation_t :=
  {| o_operation := o_operation o; o_flags := o_flags o; o_references :=
     o_references o; o_status := o_status o; o_packetIdentifier :=
     o_packetIdentifier o; pMqttPacket := pMqttPacket o; pPacketIdentifierHigh := v;
     retry_limit := retry_limit o; retry_nextPeriod := retry_nextPeriod o;
     notify_callback := notify_callback o |}.

Definition set_retry_limit (v : Z) (o : _mqttOperation_t) : _mqttOperation_t :=
  {| o_operation := o_operation o; o_flags := o_flags o; o_references :=
     o_references o; o_status := o_status o; o_packetIdentifier :=
     o_packetIdentifier o; pMqttPacket := pMqttPacket o; pPacketIdentifierHigh :=
     pPacketIdentifierHigh o; retry_limit := v; retry_nextPeriod := retry_nextPeriod
     o; notify_callback := notify_callback o |}.

Definition set_retry_nextPeriod (v : Z) (o : _mqttOperation_t) : _mqttOperation_t :=
  {| o_operation := o_operation o; o_flags := o_flags o; o_references :=
     o_references o; o_status := o_status o; o_packetIdentifier :=
     o_packetIdentifier o; pMqttPacket := pMqttPacket o; pPacketIdentifierHigh :=
     pPacketIdentifierHigh o; retry_limit := retry_limit o; retry_nextPeriod := v;
     notify_callback := notify_callback o |}.

Definition set_unsubscribed (v : bool) (s : _mqttSubscription_t) : _mqttSubscription_t :=
  {| s_references := s_references s; unsubscribed := v; s_packetIdentifier :=
     s_packetIdentifier s; s_order := s_order s; s_callback := s_callback s; s_qos
     := s_qos s; s_topicFilter := s_topicFilter s |}.

Definition set_s_qos (v : Z) (s : _mqttSubscription_t) : _mqttSubscription_t :=
  {| s_references := s_references s; unsubscribed := unsubscribed s;
     s_packetIdentifier := s_packetIdentifier s; s_order := s_order s; s_callback :=
     s_callback s; s_qos := v; s_topicFilter := s_topicFilter s |}.

(** The object [memset] leaves behind. *)
Definition zeroConnection : _mqttConnection_t :=
  {| c_awsIotMqttMode := false; ownNetworkConnection := false; c_pNetworkConnection := 0%nat;
     disconnected := false; references := 0; subscriptionList := [];
     pendingProcessing := []; pendingResponse := []; keepAliveMs := 0;
     nextKeepAliveMs := 0; pPingreqPacket := None; pingreqPacketSize := 0;
     pSerializer := None |}.

Definition zeroOperation : _mqttOperation_t :=
  {| o_operation := IOT_MQTT_CONNECT; o_flags := 0; o_references := 0;
     o_status := IOT_MQTT_SUCCESS; o_packetIdentifier := 0; pMqttPacket := None;
     pPacketIdentifierHigh := false; retry_limit := 0; retry_nextPeriod := 0;
     notify_callback := None |}.

(** Reading through an operation pointer.  A pointer that addresses no live
    operation is undefined in C; the model then reads a zeroed object, and
    the theorems below state that the pointers they follow are live. *)
Definition readOperation (p : nat) : M _mqttOperation_t :=
  fun w => (default zeroOperation (operations w !! p), w).

Definition modifyOperation (p : nat) (f : _mqttOperation_t -> _mqttOperation_t) : M unit :=
  fun w => (tt, setOperations (alter f p (operations w)) w).

Definition isWaitable (flags : Z) : bool :=
  Z.land flags IOT_MQTT_FLAG_WAITABLE =? IOT_MQTT_FLAG_WAITABLE.

(** ** Linear containers ([iot_linear_containers.h]) *)

(** [IotListDouble_RemoveAllMatches]: every element for which [isMatch]
    answers [true] is unlinked and handed to [freeElement]; [isMatch] may
    write to the element it inspects.  The result is the list that remains.
    [freeElement] releases memory only and leaves no mark on the list. *)
Fixpoint IotListDouble_RemoveAllMatches {A : Type} (isMatch : A -> A * bool)
    (freeElement : A -> bool) (l : list A) : list A :=
  match l with
  | [] => []
  | x :: l' =>
      let (x', m) := isMatch x in
      if m then IotListDouble_RemoveAllMatches isMatch freeElement l'
      else x' :: IotListDouble_RemoveAllMatches isMatch freeElement l'
  end.

(** The two operation lists of a connection. *)
Inductive OperationList : Set := PendingProcessing | PendingResponse.

Definition getList (q : OperationList) (c : _mqttConnection_t) : list nat :=
  match q with
  | PendingProcessing => pendingProcessing c
  | PendingResponse => pendingResponse c
  end.

Definition setList (q : OperationList) (l : list nat) (c : _mqttConnection_t) : _mqttConnection_t :=
  match q with
  | PendingProcessing => set_pendingProcessing l c
  | PendingResponse => set_pendingResponse l c
  end.

Definition unlink (p : nat) (l : list nat) : list nat :=
  filter (fun x => x <> p) l.

(** The loop of [IotListDouble_RemoveAll] over the elements [l] of list [q]:
    each element is unlinked, then handed to [freeElement]. *)
Fixpoint IotListDouble_RemoveAll_loop (q : OperationList) (freeElement : nat -> M unit)
    (l : list nat) : M unit :=
  match l with
  | [] => ret tt
  | p :: l' =>
      modifyConnection (fun c => setList q (unlink p (getList q c)) c) ;;
      freeElement p ;;
      IotListDouble_RemoveAll_loop q freeElement l'
  end.

Definition IotListDouble_RemoveAll (q : OperationList) (freeElement : nat -> M unit) : M unit :=
  c <- getConnection ;;
  IotListDouble_RemoveAll_loop q freeElement (getList q c).

(** ** Subscription table (§4.4 of the specification) *)

(** Tombstone the elements selected by [sel]: an element with no references
    is removed at once, any other is kept with [unsubscribed] set. *)
Definition tombstone (sel : _mqttSubscription_t -> bool) (l : list _mqttSubscription_t)
  : list _mqttSubscription_t :=
  IotListDouble_RemoveAllMatches
    (fun s => if sel s
              then (if s_references s =? 0 then (s, true) else (set_unsubscribed true s, false))
              else (s, false))
    (fun _ => true) l.

Definition sameSubscription (n : IotMqttSubscription_t) (s : _mqttSubscription_t) : bool :=
  bool_decide (s_topicFilter s = pTopicFilter n) && bool_decide (s_callback s = callback n).

(** One element of a SUBSCRIBE list entering the table. *)
Fixpoint addSubscription (packetId order : Z) (n : IotMqttSubscription_t)
    (l : list _mqttSubscription_t) : list _mqttSubscription_t :=
  match l with
  | [] => [ {| s_references := 0; unsubscribed := false; s_packetIdentifier := packetId;
               s_order := order; s_callback := callback n; s_qos := sub_qos n;
               s_topicFilter := pTopicFilter n |} ]
  | s :: l' =>
      if sameSubscription n s then set_s_qos (sub_qos n) s :: l'
      else s :: addSubscription packetId order n l'
  end.

Fixpoint addSubscriptions (packetId order : Z) (ns : list IotMqttSubscription_t)
    (l : list _mqttSubscription_t) : list _mqttSubscription_t :=
  match ns with
  | [] => l
  | n :: ns' => addSubscriptions packetId (order + 1) ns' (addSubscription packetId order n l)
  end.

Section Library.

Context (E : Env).

(** Modelled from the spec: [_IotMqtt_AddSubscriptions] is in
    iot_mqtt_subscription.c, which is not part of the two files.  "For each
    entry: if an existing subscription has the same topic filter and
    callback, update its QoS; otherwise append a new subscription tagged
    with packetIdentifier."  A failed allocation leaves the table as it was
    ("resource-creation errors roll back all partially-constructed state"). *)
Definition _IotMqtt_AddSubscriptions (subscribePacketIdentifier : Z)
    (pSubscriptionList : list IotMqttSubscription_t) (subscriptionCount : nat)
  : M IotMqttError_t :=
  st <- call (EvAddSubscriptions subscribePacketIdentifier) (addSubscriptions_status E) ;;
  if bool_decide (st = IOT_MQTT_SUCCESS)
  then
    modifyConnection (fun c =>
      set_subscriptionList
        (addSubscriptions subscribePacketIdentifier 0
           (take subscriptionCount pSubscriptionList) (subscriptionList c)) c) ;;
    ret IOT_MQTT_SUCCESS
  else ret st.

(** Modelled from the spec: [_IotMqtt_RemoveSubscriptionByTopicFilter] is in
    iot_mqtt_subscription.c.  "Tombstone entries whose topic filter matches
    any in the given list; remove those with refcount=0 immediately." *)
Definition _IotMqtt_RemoveSubscriptionByTopicFilter
    (pSubscriptionList : list IotMqttSubscription_t) (subscriptionCount : nat) : M unit :=
  call EvRemoveSubscriptionByTopicFilter (fun _ => tt) ;;
  modifyConnection (fun c =>
    set_subscriptionList
      (tombstone
         (fun s => bool_decide
            (Exists (fun n => pTopicFilter n = s_topicFilter s)
                    (take subscriptionCount pSubscriptionList)))
         (subscriptionList c)) c).

(** Modelled from the spec: [_IotMqtt_RemoveSubscriptionByPacket] is in
    iot_mqtt_subscription.c.  "Tombstone entries carrying that identifier;
    order=-1 means match all with this id"; a tombstoned entry is freed when
    its reference count is zero. *)
Definition _IotMqtt_RemoveSubscriptionByPacket (packetIdentifier : Z) (order : Z) : M unit :=
  call (EvRemoveSubscriptionByPacket packetIdentifier order) (fun _ => tt) ;;
  modifyConnection (fun c =>
    set_subscriptionList
      (tombstone
         (fun s => (s_packetIdentifier s =? packetIdentifier)
                   && ((order =? -1) || (s_order s =? order)))
         (subscriptionList c)) c).

(** ** Connection lifetime: [iot_mqtt_api.c] *)

(** [_mqttSubscription_setUnsubscribe]: sets the flag, always matches. *)
Definition _mqttSubscription_setUnsubscribe (s : _mqttSubscription_t)
  : _mqttSubscription_t * bool :=
  (set_unsubscribed true s, true).

(** [_mqttSubscription_tryDestroy]: whether the subscription is freed.  Its
    two assertions are on the subscription alone and are not recorded. *)
Definition _mqttSubscription_tryDestroy (s : _mqttSubscription_t) : bool :=
  s_references s =? 0.

(** [_destroyMqttConnection]. *)
Definition _destroyMqttConnection : M unit :=
  c <- getConnection ;;
  when (negb (keepAliveMs c =? 0))
    (call EvFreePacket (fun _ => tt) ;;
     modifyConnection (fun c =>
       set_references (references c - 1)
         (set_pingreqPacketSize 0 (set_pPingreqPacket None (set_keepAliveMs 0 c))))) ;;
  c <- getConnection ;;
  IotMqtt_Assert (references c <=? 1) ;;
  IotMqtt_Assert (keepAliveMs c =? 0) ;;
  IotMqtt_Assert (bool_decide (pPingreqPacket c = None)) ;;
  IotMqtt_Assert (pingreqPacketSize c =? 0) ;;
  modifyConnection (fun c =>
    set_subscriptionList
      (IotListDouble_RemoveAllMatches _mqttSubscription_setUnsubscribe
         _mqttSubscription_tryDestroy (subscriptionList c)) c) ;;
  call (EvMutexDestroy true) (fun _ => tt) ;;
  call (EvMutexDestroy false) (fun _ => tt) ;;
  when (ownNetworkConnection c)
    (networkStatus <- call EvNetworkDestroy (network_destroy E) ;;
     when (bool_decide (networkStatus <> IOT_NETWORK_SUCCESS))
       (IotLogWarn "Failed to destroy network connection.")) ;;
  call EvFreeConnection (fun _ => tt) ;;
  fun w => (tt, setConnectionAllocated false w).

(** [_IotMqtt_IncrementConnectionReferences]. *)
Definition _IotMqtt_IncrementConnectionReferences : M bool :=
  c <- getConnection ;;
  IotMqtt_Assert (0 <=? references c) ;;
  let disconnected := disconnected c in
  (if negb disconnected
   then modifyConnection (fun c => set_references (references c + 1) c)
   else IotLogWarn "Attempt to use closed connection.") ;;
  ret (negb disconnected).

(** [_IotMqtt_DecrementConnectionReferences]. *)
Definition _IotMqtt_DecrementConnectionReferences : M unit :=
  modifyConnection (fun c => set_references (references c - 1) c) ;;
  c <- getConnection ;;
  IotMqtt_Assert (0 <=? references c) ;;
  let destroyConnection := references c =? 0 in
  when destroyConnection _destroyMqttConnection.

(** ** Operation engine (§4.2 and §5 of the specification) *)

(** Modelled from the spec: [_IotMqtt_CreateOperation] is in
    iot_mqtt_operation.c, which is not part of the two files.  "Creation
    allocates an operation, installs it into the owning connection's list
    (initially pendingProcessing), creates the completion semaphore iff
    WAITABLE, increments the connection's refcount by 1, and sets status =
    PENDING, refcount = 1 + (WAITABLE ? 1 : 0)."  A failure allocates
    nothing.  The new operation gets the first address that is not live. *)
Definition _IotMqtt_CreateOperation (flags : Z) (pCallbackInfo : option IotMqttCallbackInfo_t)
  : M (IotMqttError_t * option nat) :=
  st <- call EvCreateOperation (createOperation_status E) ;;
  if bool_decide (st = IOT_MQTT_SUCCESS)
  then
    fun w =>
      let p := fresh (dom (operations w)) in
      let o := {| o_operation := IOT_MQTT_CONNECT; o_flags := flags;
                  o_references := 1 + (if isWaitable flags then 1 else 0);
                  o_status := IOT_MQTT_STATUS_PENDING; o_packetIdentifier := 0;
                  pMqttPacket := None; pPacketIdentifierHigh := false;
                  retry_limit := 0; retry_nextPeriod := 0;
                  notify_callback := if isWaitable flags then None else pCallbackInfo |} in
      let c := connection w in
      ((IOT_MQTT_SUCCESS, Some p),
       setConnection
         (set_references (references c + 1)
            (set_pendingProcessing (pendingProcessing c ++ [p]) c))
         (setOperations (<[p := o]> (operations w)) w))
  else ret (st, None).

(** Modelled from the spec: [_IotMqtt_ScheduleOperation] is in
    iot_mqtt_operation.c.  It submits the job of the operation to the task
    pool and reports whether that worked; the job itself runs on a task-pool
    thread and is not part of the call. *)
Definition _IotMqtt_ScheduleOperation (pOperation : nat) : M IotMqttError_t :=
  call (EvScheduleOperation pOperation) (scheduleOperation_status E).

(** Modelled from the spec: [_IotMqtt_DecrementOperationReferences] is in
    iot_mqtt_operation.c.  It "optionally asks the task pool to cancel the
    pending job (which, on success, represents one reference); then ...
    decrements op.refcount and returns true iff it reached zero"; a job that
    cannot be cancelled keeps its reference ("success frees the task pool's
    reference"). *)
Definition _IotMqtt_DecrementOperationReferences (pOperation : nat) (cancelJob : bool)
  : M bool :=
  taskPoolStatus <-
    (if cancelJob
     then call (EvTaskPoolTryCancel pOperation) (IotTaskPool_TryCancel E)
     else ret IOT_TASKPOOL_SUCCESS) ;;
  if bool_decide (taskPoolStatus = IOT_TASKPOOL_SUCCESS)
  then
    modifyOperation pOperation (fun o => set_o_references (o_references o - 1) o) ;;
    o <- readOperation pOperation ;;
    ret (o_references o =? 0)
  else ret false.

(** Modelled from the spec: [_IotMqtt_DestroyOperation] is in
    iot_mqtt_operation.c.  It "removes the operation from whatever list it's
    in, frees its packet bytes via the allocator hook, destroys its
    semaphore if any, and decrements the connection's reference count". *)
Definition _IotMqtt_DestroyOperation (pOperation : nat) : M unit :=
  modifyConnection (fun c =>
    set_pendingResponse (unlink pOperation (pendingResponse c))
      (set_pendingProcessing (unlink pOperation (pendingProcessing c)) c)) ;;
  call (EvDestroyOperation pOperation) (fun _ => tt) ;;
  (fun w => (tt, setOperations (delete pOperation (operations w)) w)) ;;
  _IotMqtt_DecrementConnectionReferences.

(** Modelled from the spec: [_IotMqtt_CloseNetworkConnection] is in
    iot_mqtt_network.c.  Disconnect uses it to "close the transport (which
    also terminates keep-alive), set disconnected=true"; "on
    CloseNetworkConnection: cancel the keep-alive job; free the
    pre-serialized PINGREQ; zero keep-alive fields; drop the keep-alive
    reference".  Keep-alive is present iff [keepAliveMs] is not 0.  A
    transport-close error is "ignorable with warning". *)
Definition _IotMqtt_CloseNetworkConnection : M unit :=
  modifyConnection (set_disconnected true) ;;
  c <- getConnection ;;
  when (negb (keepAliveMs c =? 0))
    (taskPoolStatus <- call EvTaskPoolTryCancelKeepAlive (IotTaskPool_TryCancel E) ;;
     call EvFreePacket (fun _ => tt) ;;
     modifyConnection (fun c =>
       set_references (references c - 1)
         (set_pingreqPacketSize 0 (set_pPingreqPacket None (set_keepAliveMs 0 c))))) ;;
  closeStatus <- call EvNetworkClose (network_close E) ;;
  when (bool_decide (closeStatus <> IOT_NETWORK_SUCCESS))
    (IotLogWarn "Failed to close network connection.").

(** [_mqttOperation_tryDestroy]. *)
Definition _mqttOperation_tryDestroy (pOperation : nat) : M unit :=
  destroy <- _IotMqtt_DecrementOperationReferences pOperation true ;;
  when destroy (_IotMqtt_DestroyOperation pOperation).

(** The serializer a call site ends up with: the default, or the override of
    the connection when overrides are compiled in and the member is set. *)
Definition chooseSerializer {A : Type} (default : A) (pSerializer : option IotMqttSerializer_t)
    (member : IotMqttSerializer_t -> option A) : A :=
  if IOT_MQTT_ENABLE_SERIALIZER_OVERRIDES E
  then match pSerializer with
       | Some s => match member s with Some f => f | None => default end
       | None => default
       end
  else default.

(** [_createKeepAliveJob], on the connection of the world. *)
Definition _createKeepAliveJob (pNetworkInfo : IotMqttNetworkInfo_t) (keepAliveSeconds : Z)
  : M bool :=
  modifyConnection (set_keepAliveMs ((keepAliveSeconds * 1000) mod 2 ^ 32)) ;;
  modifyConnection (fun c => set_nextKeepAliveMs (keepAliveMs c) c) ;;
  let serializePingreq :=
    chooseSerializer (_IotMqtt_SerializePingreq E) (pMqttSerializer pNetworkInfo)
      serialize_pingreq in
  r <- call (EvSerialize IOT_MQTT_PINGREQ) serializePingreq ;;
  let (serializeStatus, packet) := r in
  modifyConnection (fun c => set_pingreqPacketSize (packetSize packet) (set_pPingreqPacket packet c)) ;;
  if bool_decide (serializeStatus <> IOT_MQTT_SUCCESS)
  then ret false
  else
    jobStatus <- call EvTaskPoolCreateJob (IotTaskPool_CreateJob E) ;;
    IotMqtt_Assert (bool_decide (jobStatus = IOT_TASKPOOL_SUCCESS)) ;;
    modifyConnection (fun c => set_references (references c + 1) c) ;;
    ret true.

(** Lines 350-374 of [_createMqttConnection]: the keep-alive interval the
    connection is given.  [keepAliveSeconds] is a [uint16_t]; the
    comparisons are made on [int]. *)
Definition adjustKeepAlive (awsIotMqttMode : bool) (keepAliveSeconds : Z) : Z :=
  if awsIotMqttMode
  then
    if keepAliveSeconds <? _AWS_IOT_MQTT_SERVER_MIN_KEEPALIVE E
    then _AWS_IOT_MQTT_SERVER_MIN_KEEPALIVE E mod 2 ^ 16
    else if keepAliveSeconds >? _AWS_IOT_MQTT_SERVER_MAX_KEEPALIVE E
    then _AWS_IOT_MQTT_SERVER_MAX_KEEPALIVE E mod 2 ^ 16
    else if keepAliveSeconds =? 0
    then _AWS_IOT_MQTT_SERVER_MAX_KEEPALIVE E mod 2 ^ 16
    else keepAliveSeconds
  else keepAliveSeconds.

(** The cleanup block of [_createMqttConnection] when [status] is false and
    the connection was allocated. *)
Definition _createMqttConnection_cleanup (referencesMutexCreated subscriptionMutexCreated : bool)
  : M bool :=
  when subscriptionMutexCreated (call (EvMutexDestroy false) (fun _ => tt)) ;;
  when referencesMutexCreated (call (EvMutexDestroy true) (fun _ => tt)) ;;
  call EvFreeConnection (fun _ => tt) ;;
  (fun w => (tt, setConnectionAllocated false w)) ;;
  ret false.

(** [_createMqttConnection]: the answer is whether the returned pointer is
    not [NULL]; the new object is the connection of the world. *)
Definition _createMqttConnection (awsIotMqttMode : bool) (pNetworkInfo : IotMqttNetworkInfo_t)
    (keepAliveSeconds : Z) : M bool :=
  allocated <- call EvMallocConnection (IotMqtt_MallocConnection E) ;;
  if negb allocated then ret false
  else
    (fun w => (tt, setConnectionAllocated true
                     (setConnection
                        (set_references 1 (set_c_awsIotMqttMode awsIotMqttMode zeroConnection)) w))) ;;
    referencesMutexCreated <- call (EvMutexCreate true) (IotMutex_Create E) ;;
    if negb referencesMutexCreated then _createMqttConnection_cleanup false false
    else
      subscriptionMutexCreated <- call (EvMutexCreate false) (IotMutex_Create E) ;;
      if negb subscriptionMutexCreated then _createMqttConnection_cleanup true false
      else
        modifyConnection (fun c =>
          set_pendingResponse [] (set_pendingProcessing [] (set_subscriptionList [] c))) ;;
        let keepAliveSeconds := adjustKeepAlive awsIotMqttMode keepAliveSeconds in
        if negb (keepAliveSeconds =? 0)
        then
          created <- _createKeepAliveJob pNetworkInfo keepAliveSeconds ;;
          if negb created then _createMqttConnection_cleanup true true
          else ret true
        else ret true.

(** ** Subscribe and unsubscribe *)

(** The cleanup block of [_subscriptionCommon]. *)
Definition _subscriptionCommon_cleanup (status : IotMqttError_t)
    (pSubscriptionOperation : option nat) : M IotMqttError_t :=
  if bool_decide (status <> IOT_MQTT_SUCCESS)
  then
    match pSubscriptionOperation with
    | Some p => _IotMqtt_DestroyOperation p
    | None => ret tt
    end ;;
    ret status
  else ret IOT_MQTT_STATUS_PENDING.

(** [_subscriptionCommon] up to its cleanup label: the answer is [status]
    and [pSubscriptionOperation] there.  [pSubscriptionRef] tells whether
    the pointer is not [NULL]; it then addresses [callerReference]. *)
Definition _subscriptionCommon_body (operation : IotMqttOperationType_t)
    (pSubscriptionList : list IotMqttSubscription_t) (subscriptionCount : nat)
    (flags : Z) (pCallbackInfo : option IotMqttCallbackInfo_t) (pSubscriptionRef : bool)
  : M (IotMqttError_t * option nat) :=
  IotMqtt_Assert (bool_decide (operation = IOT_MQTT_SUBSCRIBE)
                  || bool_decide (operation = IOT_MQTT_UNSUBSCRIBE)) ;;
  c <- getConnection ;;
  if negb (_IotMqtt_ValidateSubscriptionList E operation (c_awsIotMqttMode c)
             pSubscriptionList subscriptionCount)
  then ret (IOT_MQTT_BAD_PARAMETER, None)
  else if isWaitable flags && negb pSubscriptionRef
  then ret (IOT_MQTT_BAD_PARAMETER, None)
  else
    let serializeSubscription :=
      if bool_decide (operation = IOT_MQTT_SUBSCRIBE)
      then chooseSerializer (_IotMqtt_SerializeSubscribe E) (pSerializer c) serialize_subscribe
      else chooseSerializer (_IotMqtt_SerializeUnsubscribe E) (pSerializer c)
             serialize_unsubscribe in
    when (bool_decide (operation = IOT_MQTT_UNSUBSCRIBE))
      (_IotMqtt_RemoveSubscriptionByTopicFilter pSubscriptionList subscriptionCount) ;;
    created <- _IotMqtt_CreateOperation flags pCallbackInfo ;;
    match created with
    | (status, None) => ret (status, None)
    | (status, Some p) =>
        if bool_decide (status <> IOT_MQTT_SUCCESS)
        then ret (status, Some p)
        else
          o <- readOperation p ;;
          IotMqtt_Assert (bool_decide (o_status o = IOT_MQTT_STATUS_PENDING)) ;;
          IotMqtt_Assert (retry_limit o =? 0) ;;
          modifyOperation p (set_o_operation operation) ;;
          serialized <- call (EvSerialize operation)
                          (fun h => serializeSubscription h pSubscriptionList subscriptionCount) ;;
          let '(status, packet, identifier) := serialized in
          modifyOperation p (fun o =>
            set_o_packetIdentifier (identifier mod 2 ^ 16) (set_pMqttPacket packet o)) ;;
          if bool_decide (status <> IOT_MQTT_SUCCESS)
          then ret (status, Some p)
          else
            o <- readOperation p ;;
            IotMqtt_Assert (bool_decide (pMqttPacket o <> None)) ;;
            IotMqtt_Assert (0 <? packetSize (pMqttPacket o)) ;;
            status <-
              (if bool_decide (operation = IOT_MQTT_SUBSCRIBE)
               then _IotMqtt_AddSubscriptions (o_packetIdentifier o) pSubscriptionList
                      subscriptionCount
               else ret status) ;;
            if bool_decide (status <> IOT_MQTT_SUCCESS)
            then ret (status, Some p)
            else
              when pSubscriptionRef (fun w => (tt, setCallerReference (Some p) w)) ;;
              status <- _IotMqtt_ScheduleOperation p ;;
              if bool_decide (status <> IOT_MQTT_SUCCESS)
              then
                when (bool_decide (operation = IOT_MQTT_SUBSCRIBE))
                  (_IotMqtt_RemoveSubscriptionByPacket (o_packetIdentifier o) (-1)) ;;
                when pSubscriptionRef
                  (fun w => (tt, setCallerReference IOT_MQTT_REFERENCE_INITIALIZER w)) ;;
                ret (status, Some p)
              else ret (status, Some p)
    end.

(** [_subscriptionCommon]. *)
Definition _subscriptionCommon (operation : IotMqttOperationType_t)
    (pSubscriptionList : list IotMqttSubscription_t) (subscriptionCount : nat)
    (flags : Z) (pCallbackInfo : option IotMqttCallbackInfo_t) (pSubscriptionRef : bool)
  : M IotMqttError_t :=
  r <- _subscriptionCommon_body operation pSubscriptionList subscriptionCount flags
         pCallbackInfo pSubscriptionRef ;;
  _subscriptionCommon_cleanup (fst r) (snd r).

(** [IotMqtt_Subscribe] and [IotMqtt_Unsubscribe]. *)
Definition IotMqtt_Subscribe := _subscriptionCommon IOT_MQTT_SUBSCRIBE.
Definition IotMqtt_Unsubscribe := _subscriptionCommon IOT_MQTT_UNSUBSCRIBE.

(** ** Wait *)

(** [IotSemaphore_TimedWait] on the semaphore of an operation.  The caller is
    suspended; what the task-pool threads do to the operation meanwhile
    (write its status, release their reference: §4.2, Completion) is the
    collaborator [taskPool_progress]. *)
Definition IotSemaphore_TimedWait_on (pOperation : nat) (timeoutMs : Z) : M bool :=
  fun w =>
    (IotSemaphore_TimedWait E (trace w),
     emit (EvSemaphoreTimedWait pOperation timeoutMs)
       (setOperations (alter (taskPool_progress E (trace w)) pOperation (operations w)) w)).

(** [IotMqtt_Wait], for a reference that is not [NULL] (the source reads
    [pOperation->pMqttConnection] before it validates the reference). *)
Definition IotMqtt_Wait (reference : nat) (timeoutMs : Z) : M IotMqttError_t :=
  let pOperation := reference in
  o <- readOperation pOperation ;;
  if negb (_IotMqtt_ValidateReference E o)
  then ret IOT_MQTT_BAD_PARAMETER
  else
    c <- getConnection ;;
    status <-
      (if disconnected c
       then ret IOT_MQTT_NETWORK_ERROR
       else
         signalled <- IotSemaphore_TimedWait_on pOperation timeoutMs ;;
         if negb signalled
         then
           _IotMqtt_DecrementOperationReferences pOperation true ;;
           o <- readOperation pOperation ;;
           when (bool_decide (o_operation o = IOT_MQTT_SUBSCRIBE))
             (_IotMqtt_RemoveSubscriptionByPacket (o_packetIdentifier o) (-1)) ;;
           ret IOT_MQTT_TIMEOUT
         else
           o <- readOperation pOperation ;;
           ret (o_status o)) ;;
    destroy <- _IotMqtt_DecrementOperationReferences pOperation false ;;
    when destroy (_IotMqtt_DestroyOperation pOperation) ;;
    ret status.

(** ** Connect and disconnect *)

(** The cleanup block of [IotMqtt_Connect].  The answer carries whether the
    output parameter [*pMqttConnection] was set. *)
Definition IotMqtt_Connect_cleanup (status : IotMqttError_t) (networkCreated : bool)
    (pConnectOperation : option nat) (pNewMqttConnection : bool)
  : M (IotMqttError_t * bool) :=
  if bool_decide (status <> IOT_MQTT_SUCCESS)
  then
    when networkCreated
      (networkStatus <- call EvNetworkClose (network_close E) ;;
       when (bool_decide (networkStatus <> IOT_NETWORK_SUCCESS))
         (IotLogWarn "Failed to close network connection.")) ;;
    match pConnectOperation with
    | Some p => _IotMqtt_DestroyOperation p
    | None => ret tt
    end ;;
    when pNewMqttConnection _destroyMqttConnection ;;
    ret (status, false)
  else ret (status, true).

(** The locals of [IotMqtt_Connect] that its cleanup block reads. *)
Record ConnectLocals : Set := {
  l_status : IotMqttError_t;
  l_networkCreated : bool;
  l_pConnectOperation : option nat;
  l_pNewMqttConnection : bool
}.

(** A jump to the cleanup label of [IotMqtt_Connect]. *)
Definition IotMqtt_Connect_goto (status : IotMqttError_t) (networkCreated : bool)
    (pConnectOperation : option nat) (pNewMqttConnection : bool) : M ConnectLocals :=
  ret {| l_status := status; l_networkCreated := networkCreated;
         l_pConnectOperation := pConnectOperation;
         l_pNewMqttConnection := pNewMqttConnection |}.

(** [IotMqtt_Connect], from the creation of the connection object to the
    cleanup label. *)
Definition IotMqtt_Connect_establish (pNetworkInfo : IotMqttNetworkInfo_t)
    (pConnectInfo : IotMqttConnectInfo_t) (timeoutMs : Z)
    (networkCreated ownNetworkConnection : bool) (pNetworkConnection : nat)
  : M ConnectLocals :=
  created <- _createMqttConnection (awsIotMqttMode pConnectInfo) pNetworkInfo
               (keepAliveSeconds pConnectInfo) ;;
  if negb created
  then IotMqtt_Connect_goto IOT_MQTT_NO_MEMORY networkCreated None false
  else
    modifyConnection (fun c =>
      set_ownNetworkConnection ownNetworkConnection
        (set_c_pNetworkConnection pNetworkConnection c)) ;;
    when (IOT_MQTT_ENABLE_SERIALIZER_OVERRIDES E)
      (modifyConnection (set_pSerializer (pMqttSerializer pNetworkInfo))) ;;
    networkStatus <- call EvNetworkSetReceiveCallback (network_setReceiveCallback E) ;;
    if bool_decide (networkStatus <> IOT_NETWORK_SUCCESS)
    then IotMqtt_Connect_goto IOT_MQTT_NETWORK_ERROR networkCreated None true
    else
      operationCreated <- _IotMqtt_CreateOperation IOT_MQTT_FLAG_WAITABLE None ;;
      match operationCreated with
      | (status, None) => IotMqtt_Connect_goto status networkCreated None true
      | (status, Some p) =>
          if bool_decide (status <> IOT_MQTT_SUCCESS)
          then IotMqtt_Connect_goto status networkCreated (Some p) true
          else
            o <- readOperation p ;;
            IotMqtt_Assert (bool_decide (o_status o = IOT_MQTT_STATUS_PENDING)) ;;
            IotMqtt_Assert (isWaitable (o_flags o)) ;;
            IotMqtt_Assert (retry_limit o =? 0) ;;
            modifyOperation p (set_o_operation IOT_MQTT_CONNECT) ;;
            status <-
              match pPreviousSubscriptions pConnectInfo with
              | Some previous =>
                  IotMqtt_Assert (bool_decide (0 < previousSubscriptionCount pConnectInfo)%nat) ;;
                  _IotMqtt_AddSubscriptions 2 previous (previousSubscriptionCount pConnectInfo)
              | None => ret status
              end ;;
            if bool_decide (status <> IOT_MQTT_SUCCESS)
            then IotMqtt_Connect_goto status networkCreated (Some p) true
            else
              c <- getConnection ;;
              let serializeConnect :=
                chooseSerializer (_IotMqtt_SerializeConnect E) (pSerializer c)
                  serialize_connect in
              serialized <- call (EvSerialize IOT_MQTT_CONNECT)
                              (fun h => serializeConnect h pConnectInfo) ;;
              let (status, packet) := serialized in
              modifyOperation p (set_pMqttPacket packet) ;;
              if bool_decide (status <> IOT_MQTT_SUCCESS)
              then IotMqtt_Connect_goto status networkCreated (Some p) true
              else
                IotMqtt_Assert (bool_decide (packet <> None)) ;;
                IotMqtt_Assert (0 <? packetSize packet) ;;
                status <- _IotMqtt_ScheduleOperation p ;;
                waited <-
                  (if bool_decide (status <> IOT_MQTT_SUCCESS)
                   then ret (status, Some p)
                   else
                     status <- IotMqtt_Wait p timeoutMs ;;
                     ret (status, None)) ;;
                let (status, pConnectOperation) := waited : IotMqttError_t * option nat in
                if bool_decide (status = IOT_MQTT_SUCCESS)
                then
                  c <- getConnection ;;
                  if negb (keepAliveMs c =? 0)
                  then
                    taskPoolStatus <- call (EvTaskPoolScheduleDeferred (nextKeepAliveMs c))
                                        (IotTaskPool_ScheduleDeferred E) ;;
                    if bool_decide (taskPoolStatus <> IOT_TASKPOOL_SUCCESS)
                    then IotMqtt_Connect_goto IOT_MQTT_SCHEDULING_ERROR networkCreated
                           pConnectOperation true
                    else IotMqtt_Connect_goto status networkCreated pConnectOperation true
                  else IotMqtt_Connect_goto status networkCreated pConnectOperation true
                else IotMqtt_Connect_goto status networkCreated pConnectOperation true
      end.

(** [IotMqtt_Connect] up to its cleanup label.  [pNetworkInfo] may be
    [NULL]; [pConnectInfo] is the object the validator is given. *)
Definition IotMqtt_Connect_body (pNetworkInfo : option IotMqttNetworkInfo_t)
    (pConnectInfo : IotMqttConnectInfo_t) (timeoutMs : Z) : M ConnectLocals :=
  match pNetworkInfo with
  | None => IotMqtt_Connect_goto IOT_MQTT_BAD_PARAMETER false None false
  | Some pNetworkInfo =>
      if negb (_IotMqtt_ValidateConnect E pConnectInfo)
      then IotMqtt_Connect_goto IOT_MQTT_BAD_PARAMETER false None false
      else if match pWillInfo pConnectInfo with
              | Some will =>
                  if negb (_IotMqtt_ValidatePublish E (awsIotMqttMode pConnectInfo) will)
                  then true
                  else payloadLength will >? UINT16_MAX
              | None => false
              end
      then IotMqtt_Connect_goto IOT_MQTT_BAD_PARAMETER false None false
      else if negb (cleanSession pConnectInfo)
              && match pPreviousSubscriptions pConnectInfo with
                 | Some previous =>
                     negb (_IotMqtt_ValidateSubscriptionList E IOT_MQTT_SUBSCRIBE
                             (awsIotMqttMode pConnectInfo) previous
                             (previousSubscriptionCount pConnectInfo))
                 | None => false
                 end
      then IotMqtt_Connect_goto IOT_MQTT_BAD_PARAMETER false None false
      else if createNetworkConnection pNetworkInfo
      then
        networkCreate <- call EvNetworkCreate (network_create E) ;;
        let (networkStatus, pNetworkConnection) := networkCreate : IotNetworkError_t * nat in
        if bool_decide (networkStatus = IOT_NETWORK_SUCCESS)
        then IotMqtt_Connect_establish pNetworkInfo pConnectInfo timeoutMs true true
               pNetworkConnection
        else IotMqtt_Connect_goto IOT_MQTT_NETWORK_ERROR false None false
      else IotMqtt_Connect_establish pNetworkInfo pConnectInfo timeoutMs true false
             (pNetworkConnection pNetworkInfo)
  end.

(** [IotMqtt_Connect]: the status, and whether [*pMqttConnection] was set. *)
Definition IotMqtt_Connect (pNetworkInfo : option IotMqttNetworkInfo_t)
    (pConnectInfo : IotMqttConnectInfo_t) (timeoutMs : Z) : M (IotMqttError_t * bool) :=
  l <- IotMqtt_Connect_body pNetworkInfo pConnectInfo timeoutMs ;;
  IotMqtt_Connect_cleanup (l_status l) (l_networkCreated l) (l_pConnectOperation l)
    (l_pNewMqttConnection l).

(** [IotMqtt_Disconnect], on the connection of the world. *)
Definition IotMqtt_Disconnect (flags : Z) : M unit :=
  c <- getConnection ;;
  when (negb (disconnected c))
    (when (Z.land flags IOT_MQTT_FLAG_CLEANUP_ONLY =? 0)
       (created <- _IotMqtt_CreateOperation IOT_MQTT_FLAG_WAITABLE None ;;
        match created with
        | (status, None) => ret tt
        | (status, Some p) =>
            status <-
              (if bool_decide (status = IOT_MQTT_SUCCESS)
               then
                 o <- readOperation p ;;
                 IotMqtt_Assert (bool_decide (o_status o = IOT_MQTT_STATUS_PENDING)) ;;
                 IotMqtt_Assert (isWaitable (o_flags o)) ;;
                 IotMqtt_Assert (retry_limit o =? 0) ;;
                 modifyOperation p (set_o_operation IOT_MQTT_DISCONNECT) ;;
                 let serializeDisconnect :=
                   chooseSerializer (_IotMqtt_SerializeDisconnect E) (pSerializer c)
                     serialize_disconnect in
                 serialized <- call (EvSerialize IOT_MQTT_DISCONNECT) serializeDisconnect ;;
                 let (status, packet) := serialized in
                 modifyOperation p (set_pMqttPacket packet) ;;
                 ret status
               else ret status) ;;
            when (bool_decide (status = IOT_MQTT_SUCCESS))
              (o <- readOperation p ;;
               IotMqtt_Assert (bool_decide (pMqttPacket o <> None)) ;;
               IotMqtt_Assert (0 <? packetSize (pMqttPacket o)) ;;
               scheduled <- _IotMqtt_ScheduleOperation p ;;
               if bool_decide (scheduled <> IOT_MQTT_SUCCESS)
               then
                 IotLogWarn "Failed to schedule DISCONNECT for sending." ;;
                 _IotMqtt_DestroyOperation p
               else
                 status <- IotMqtt_Wait p (IOT_MQTT_RESPONSE_WAIT_MS E) ;;
                 when (bool_decide (status <> IOT_MQTT_SUCCESS))
                   (IotMqtt_Assert (bool_decide (status = IOT_MQTT_TIMEOUT)
                                    || bool_decide (status = IOT_MQTT_NETWORK_ERROR)) ;;
                    IotLogWarn "DISCONNECT not sent."))
        end)) ;;
  _IotMqtt_CloseNetworkConnection ;;
  c <- getConnection ;;
  IotMqtt_Assert (bool_decide (disconnected c = true)) ;;
  IotListDouble_RemoveAll PendingProcessing _mqttOperation_tryDestroy ;;
  IotListDouble_RemoveAll PendingResponse _mqttOperation_tryDestroy ;;
  _IotMqtt_DecrementConnectionReferences.

(** ** Publish *)

(** The cleanup block of [IotMqtt_Publish]. *)
Definition IotMqtt_Publish_cleanup (pPublishInfo : IotMqttPublishInfo_t)
    (status : IotMqttError_t) (pPublishOperation : option nat) : M IotMqttError_t :=
  if bool_decide (status <> IOT_MQTT_SUCCESS)
  then
    match pPublishOperation with
    | Some p => _IotMqtt_DestroyOperation p
    | None => ret tt
    end ;;
    ret status
  else
    if qos pPublishInfo >? IOT_MQTT_QOS_0
    then ret IOT_MQTT_STATUS_PENDING
    else ret status.

(** [IotMqtt_Publish] up to its cleanup label: the answer is [status] and
    [pPublishOperation] there.  [pPublishRef] tells whether the pointer is
    not [NULL]; it then addresses [callerReference]. *)
Definition IotMqtt_Publish_body (pPublishInfo : IotMqttPublishInfo_t) (flags : Z)
    (pCallbackInfo : option IotMqttCallbackInfo_t) (pPublishRef : bool)
  : M (IotMqttError_t * option nat) :=
  c <- getConnection ;;
  if negb (_IotMqtt_ValidatePublish E (c_awsIotMqttMode c) pPublishInfo)
  then ret (IOT_MQTT_BAD_PARAMETER, None)
  else if (qos pPublishInfo =? IOT_MQTT_QOS_0)
          && (bool_decide (pCallbackInfo <> None)
              || negb (Z.land flags IOT_MQTT_FLAG_WAITABLE =? 0))
  then ret (IOT_MQTT_BAD_PARAMETER, None)
  else
    when ((qos pPublishInfo =? IOT_MQTT_QOS_0) && pPublishRef)
      (IotLogWarn "Ignoring reference parameter for QoS 0 publish.") ;;
    if isWaitable flags && negb pPublishRef
    then ret (IOT_MQTT_BAD_PARAMETER, None)
    else
      created <- _IotMqtt_CreateOperation flags pCallbackInfo ;;
      match created with
      | (status, None) => ret (status, None)
      | (status, Some p) =>
          if bool_decide (status <> IOT_MQTT_SUCCESS)
          then ret (status, Some p)
          else
            o <- readOperation p ;;
            IotMqtt_Assert (bool_decide (o_status o = IOT_MQTT_STATUS_PENDING)) ;;
            modifyOperation p (set_o_operation IOT_MQTT_PUBLISH_TO_SERVER) ;;
            let serializePublish :=
              chooseSerializer (_IotMqtt_SerializePublish E) (pSerializer c)
                serialize_publish in
            let pPacketIdentifierHigh := c_awsIotMqttMode c in
            serialized <- call (EvSerialize IOT_MQTT_PUBLISH_TO_SERVER)
                            (fun h => serializePublish h pPublishInfo pPacketIdentifierHigh) ;;
            let '(status, packet, identifier) := serialized in
            modifyOperation p (fun o =>
              set_pPacketIdentifierHigh pPacketIdentifierHigh
                (set_o_packetIdentifier (identifier mod 2 ^ 16) (set_pMqttPacket packet o))) ;;
            if bool_decide (status <> IOT_MQTT_SUCCESS)
            then ret (status, Some p)
            else
              IotMqtt_Assert (bool_decide (packet <> None)) ;;
              IotMqtt_Assert (0 <? packetSize packet) ;;
              when ((0 <? retryLimit pPublishInfo)
                    && negb (qos pPublishInfo =? IOT_MQTT_QOS_0))
                (modifyOperation p (fun o =>
                   set_retry_nextPeriod (retryMs pPublishInfo)
                     (set_retry_limit (retryLimit pPublishInfo) o))) ;;
              when (negb (qos pPublishInfo =? IOT_MQTT_QOS_0) && pPublishRef)
                (fun w => (tt, setCallerReference (Some p) w)) ;;
              status <- _IotMqtt_ScheduleOperation p ;;
              if bool_decide (status <> IOT_MQTT_SUCCESS)
              then
                when (negb (qos pPublishInfo =? IOT_MQTT_QOS_0) && pPublishRef)
                  (fun w => (tt, setCallerReference IOT_MQTT_REFERENCE_INITIALIZER w)) ;;
                ret (status, Some p)
              else ret (status, Some p)
      end.

(** [IotMqtt_Publish]. *)
Definition IotMqtt_Publish (pPublishInfo : IotMqttPublishInfo_t) (flags : Z)
    (pCallbackInfo : option IotMqttCallbackInfo_t) (pPublishRef : bool) : M IotMqttError_t :=
  r <- IotMqtt_Publish_body pPublishInfo flags pCallbackInfo pPublishRef ;;
  IotMqtt_Publish_cleanup pPublishInfo (fst r) (snd r).

(** ** Blocking variants *)

(** The reference variable that a blocking call declares ([subscribeRef],
    [unsubscribeRef], [publishRef]) takes the place of the variable of the
    caller: it is [callerReference], set to the initializer on entry. *)
Definition declareReference : M unit :=
  fun w => (tt, setCallerReference IOT_MQTT_REFERENCE_INITIALIZER w).

Definition readReference : M IotMqttReference_t := fun w => (callerReference w, w).

(** [IotMqtt_Wait] on the value of a reference variable.  [IotMqtt_Wait]
    dereferences its argument: on the initializer, which is [NULL], the
    behaviour is undefined and the answer is [None]. *)
Definition IotMqtt_Wait_on (reference : IotMqttReference_t) (timeoutMs : Z)
  : M (option IotMqttError_t) :=
  match reference with
  | None => ret None
  | Some pOperation =>
      status <- IotMqtt_Wait pOperation timeoutMs ;;
      ret (Some status)
  end.

(** The common shape of [IotMqtt_TimedSubscribe] and
    [IotMqtt_TimedUnsubscribe], which differ in the call they make. *)
Definition timedSubscriptionCommon
    (asynchronous : list IotMqttSubscription_t -> nat -> Z ->
                    option IotMqttCallbackInfo_t -> bool -> M IotMqttError_t)
    (pSubscriptionList : list IotMqttSubscription_t) (subscriptionCount : nat)
    (flags : Z) (timeoutMs : Z) : M (option IotMqttError_t) :=
  declareReference ;;
  status <- asynchronous pSubscriptionList subscriptionCount IOT_MQTT_FLAG_WAITABLE None true ;;
  waited <-
    (if bool_decide (status = IOT_MQTT_STATUS_PENDING)
     then
       subscribeRef <- readReference ;;
       IotMqtt_Wait_on subscribeRef timeoutMs
     else ret (Some status)) ;;
  match waited with
  | None => ret None
  | Some status =>
      IotMqtt_Assert (bool_decide (status <> IOT_MQTT_STATUS_PENDING)) ;;
      ret (Some status)
  end.

(** [IotMqtt_TimedSubscribe]; [flags] is not used. *)
Definition IotMqtt_TimedSubscribe := timedSubscriptionCommon IotMqtt_Subscribe.

(** [IotMqtt_TimedUnsubscribe]; [flags] is not used. *)
Definition IotMqtt_TimedUnsubscribe := timedSubscriptionCommon IotMqtt_Unsubscribe.

(** [IotMqtt_TimedPublish]; [flags] is overwritten on entry. *)
Definition IotMqtt_TimedPublish (pPublishInfo : IotMqttPublishInfo_t) (flags : Z)
    (timeoutMs : Z) : M (option IotMqttError_t) :=
  declareReference ;;
  let flags := 0 in
  let '(flags, pPublishRef) :=
    if qos pPublishInfo =? IOT_MQTT_QOS_1
    then (IOT_MQTT_FLAG_WAITABLE, true)
    else (flags, false) in
  status <- IotMqtt_Publish pPublishInfo flags None pPublishRef ;;
  if qos pPublishInfo =? IOT_MQTT_QOS_1
  then
    if bool_decide (status = IOT_MQTT_STATUS_PENDING)
    then
      publishRef <- readReference ;;
      IotMqtt_Wait_on publishRef timeoutMs
    else ret (Some status)
  else ret (Some status).

End Library.

(** ** Descriptions *)

(** [IotMqtt_strerror].  The [default] label of the [switch] is for values
    outside the enumeration, which the type of [status] leaves out. *)
Definition IotMqtt_strerror (status : IotMqttError_t) : string :=
  match status with
  | IOT_MQTT_SUCCESS => "SUCCESS"
  | IOT_MQTT_STATUS_PENDING => "PENDING"
  | IOT_MQTT_INIT_FAILED => "INITIALIZATION FAILED"
  | IOT_MQTT_BAD_PARAMETER => "BAD PARAMETER"
  | IOT_MQTT_NO_MEMORY => "NO MEMORY"
  | IOT_MQTT_NETWORK_ERROR => "NETWORK ERROR"
  | IOT_MQTT_SCHEDULING_ERROR => "SCHEDULING ERROR"
  | IOT_MQTT_BAD_RESPONSE => "BAD RESPONSE RECEIVED"
  | IOT_MQTT_TIMEOUT => "TIMEOUT"
  | IOT_MQTT_SERVER_REFUSED => "SERVER REFUSED"
  | IOT_MQTT_RETRY_NO_RESPONSE => "NO RESPONSE"
  end.

(** [IotMqtt_OperationType], with the same remark on its [default] label. *)
Definition IotMqtt_OperationType (operation : IotMqttOperationType_t) : string :=
  match operation with
  | IOT_MQTT_CONNECT => "CONNECT"
  | IOT_MQTT_PUBLISH_TO_SERVER => "PUBLISH"
  | IOT_MQTT_PUBACK => "PUBACK"
  | IOT_MQTT_SUBSCRIBE => "SUBSCRIBE"
  | IOT_MQTT_UNSUBSCRIBE => "UNSUBSCRIBE"
  | IOT_MQTT_PINGREQ => "PINGREQ"
  | IOT_MQTT_DISCONNECT => "DISCONNECT"
  end.

(** * Vocabulary of the properties *)

(** ** Histories only grow *)

Definition emits {A : Type} (P : Event -> Prop) (m : M A) : Prop :=
  forall w, exists evs, trace (snd (m w)) = trace w ++ evs /\ Forall P evs.

(** The events of tearing down operations and the connection. *)
Definition teardownEvent (e : Event) : Prop :=
  match e with
  | EvTaskPoolTryCancelKeepAlive | EvFreePacket | EvNetworkClose | EvTaskPoolTryCancel _
  | EvDestroyOperation _ | EvAssertFailed | EvMutexDestroy _ | EvNetworkDestroy
  | EvFreeConnection => True
  | _ => False
  end.

(** ** Teardown never adds to the connection *)

Definition declines {A : Type} (m : M A) : Prop :=
  forall w,
    (references (connection (snd (m w))) <= references (connection w)) /\
    forall q x, x ∈ getList q (connection (snd (m w))) -> x ∈ getList q (connection w).

Definition sendEvent (e : Event) : Prop :=
  match e with
  | EvCreateOperation | EvSerialize _ | EvScheduleOperation _ | EvSemaphoreTimedWait _ _ => True
  | _ => False
  end.

Definition Disconnect_teardown (E : Env) : M unit :=
  _IotMqtt_CloseNetworkConnection E ;;
  c <- getConnection ;;
  IotMqtt_Assert (bool_decide (disconnected c = true)) ;;
  IotListDouble_RemoveAll PendingProcessing (_mqttOperation_tryDestroy E) ;;
  IotListDouble_RemoveAll PendingResponse (_mqttOperation_tryDestroy E) ;;
  _IotMqtt_DecrementConnectionReferences E.

(** An environment in which every collaborator succeeds: AWS IoT limits of
    30 s and 1200 s, a reference is valid when its operation is waitable,
    and a task-pool thread completes the operation a caller waits on. *)
Definition examplePacket : Packet := Some [Byte.xc0; Byte.x00].

Definition exampleEnv : Env :=
  {| IOT_MQTT_ENABLE_SERIALIZER_OVERRIDES := true;
     _AWS_IOT_MQTT_SERVER_MIN_KEEPALIVE := 30;
     _AWS_IOT_MQTT_SERVER_MAX_KEEPALIVE := 1200;
     IOT_MQTT_RESPONSE_WAIT_MS := 1000;
     _IotMqtt_ValidateConnect := fun _ => true;
     _IotMqtt_ValidatePublish := fun _ _ => true;
     _IotMqtt_ValidateSubscriptionList := fun _ _ _ _ => true;
     _IotMqtt_ValidateReference := fun o => isWaitable (o_flags o);
     _IotMqtt_SerializeConnect := fun _ _ => (IOT_MQTT_SUCCESS, examplePacket);
     _IotMqtt_SerializePublish := fun _ _ _ => (IOT_MQTT_SUCCESS, examplePacket, 1);
     _IotMqtt_SerializeSubscribe := fun _ _ _ => (IOT_MQTT_SUCCESS, examplePacket, 7);
     _IotMqtt_SerializeUnsubscribe := fun _ _ _ => (IOT_MQTT_SUCCESS, examplePacket, 9);
     _IotMqtt_SerializePingreq := fun _ => (IOT_MQTT_SUCCESS, examplePacket);
     _IotMqtt_SerializeDisconnect := fun _ => (IOT_MQTT_SUCCESS, examplePacket);
     network_create := fun _ => (IOT_NETWORK_SUCCESS, 5%nat);
     network_setReceiveCallback := fun _ => IOT_NETWORK_SUCCESS;
     network_close := fun _ => IOT_NETWORK_SUCCESS;
     network_destroy := fun _ => IOT_NETWORK_SUCCESS;
     IotTaskPool_CreateJob := fun _ => IOT_TASKPOOL_SUCCESS;
     IotTaskPool_ScheduleDeferred := fun _ => IOT_TASKPOOL_SUCCESS;
     IotTaskPool_TryCancel := fun _ => IOT_TASKPOOL_SUCCESS;
     IotMqtt_MallocConnection := fun _ => true;
     IotMutex_Create := fun _ => true;
     IotSemaphore_TimedWait := fun _ => true;
     taskPool_progress := fun _ o =>
       set_o_references (o_references o - 1) (set_o_status IOT_MQTT_SUCCESS o);
     createOperation_status := fun _ => IOT_MQTT_SUCCESS;
     scheduleOperation_status := fun _ => IOT_MQTT_SUCCESS;
     addSubscriptions_status := fun _ => IOT_MQTT_SUCCESS |}.

(** The same environment with a task pool that refuses every job. *)
Definition noScheduleEnv : Env :=
  {| IOT_MQTT_ENABLE_SERIALIZER_OVERRIDES := true;
     _AWS_IOT_MQTT_SERVER_MIN_KEEPALIVE := 30;
     _AWS_IOT_MQTT_SERVER_MAX_KEEPALIVE := 1200;
     IOT_MQTT_RESPONSE_WAIT_MS := 1000;
     _IotMqtt_ValidateConnect := fun _ => true;
     _IotMqtt_ValidatePublish := fun _ _ => true;
     _IotMqtt_ValidateSubscriptionList := fun _ _ _ _ => true;
     _IotMqtt_ValidateReference := fun o => isWaitable (o_flags o);
     _IotMqtt_SerializeConnect := fun _ _ => (IOT_MQTT_SUCCESS, examplePacket);
     _IotMqtt_SerializePublish := fun _ _ _ => (IOT_MQTT_SUCCESS, examplePacket, 1);
     _IotMqtt_SerializeSubscribe := fun _ _ _ => (IOT_MQTT_SUCCESS, examplePacket, 7);
     _IotMqtt_SerializeUnsubscribe := fun _ _ _ => (IOT_MQTT_SUCCESS, examplePacket, 9);
     _IotMqtt_SerializePingreq := fun _ => (IOT_MQTT_SUCCESS, examplePacket);
     _IotMqtt_SerializeDisconnect := fun _ => (IOT_MQTT_SUCCESS, examplePacket);
     network_create := fun _ => (IOT_NETWORK_SUCCESS, 5%nat);
     network_setReceiveCallback := fun _ => IOT_NETWORK_SUCCESS;
     network_close := fun _ => IOT_NETWORK_SUCCESS;
     network_destroy := fun _ => IOT_NETWORK_SUCCESS;
     IotTaskPool_CreateJob := fun _ => IOT_TASKPOOL_SUCCESS;
     IotTaskPool_ScheduleDeferred := fun _ => IOT_TASKPOOL_SUCCESS;
     IotTaskPool_TryCancel := fun _ => IOT_TASKPOOL_SUCCESS;
     IotMqtt_MallocConnection := fun _ => true;
     IotMutex_Create := fun _ => true;
     IotSemaphore_TimedWait := fun _ => true;
     taskPool_progress := fun _ o => o;
     createOperation_status := fun _ => IOT_MQTT_SUCCESS;
     scheduleOperation_status := fun _ => IOT_MQTT_SCHEDULING_ERROR;
     addSubscriptions_status := fun _ => IOT_MQTT_SUCCESS |}.

Definition exampleOperation (flags references : Z) : _mqttOperation_t :=
  {| o_operation := IOT_MQTT_PUBLISH_TO_SERVER; o_flags := flags; o_references := references;
     o_status := IOT_MQTT_STATUS_PENDING; o_packetIdentifier := 1;
     pMqttPacket := examplePacket; pPacketIdentifierHigh := false; retry_limit := 0;
     retry_nextPeriod := 0; notify_callback := None |}.

(** A live connection with nothing pending: one reference, the user's. *)
Definition idleConnection : _mqttConnection_t :=
  set_references 1 zeroConnection.

Definition idleWorld : World :=
  {| connection := idleConnection; connectionAllocated := true; operations := ∅;
     callerReference := None; trace := []; warnings := [] |}.

(** A connection that the network already closed, with one PUBLISH still
    queued: the user's reference and the one of the operation. *)
Definition closedWorld : World :=
  {| connection :=
       set_pendingProcessing [0%nat] (set_references 2 (set_disconnected true zeroConnection));
     connectionAllocated := true;
     operations := {[ 0%nat := exampleOperation 0 1 ]};
     callerReference := None; trace := []; warnings := [] |}.

(** Claim C2 as it is written: a second disconnect does nothing. *)
Definition Disconnect_is_noop (E : Env) (flags : Z) (w : World) : Prop :=
  let w' := snd (IotMqtt_Disconnect E flags w) in
  (forall e, e ∈ drop (length (trace w)) (trace w') -> ~ sendEvent e /\ e <> EvNetworkClose) /\
  pendingProcessing (connection w') = pendingProcessing (connection w) /\
  pendingResponse (connection w') = pendingResponse (connection w) /\
  references (connection w') = references (connection w).

(** ** Parts of the world a computation leaves alone *)

Definition keeps {X A : Type} (f : World -> X) (m : M A) : Prop :=
  forall w, f (snd (m w)) = f w.

(** The last statements of [IotMqtt_Wait]: the caller's reference goes. *)
Definition Wait_release (E : Env) (pOperation : nat) : M unit :=
  destroy <- _IotMqtt_DecrementOperationReferences E pOperation false ;;
  when destroy (_IotMqtt_DestroyOperation E pOperation).

(** The statements of [IotMqtt_Wait] between the validation of the reference
    and the release of the caller's reference. *)
Definition Wait_pending (E : Env) (pOperation : nat) (timeoutMs : Z) : M IotMqttError_t :=
  c <- getConnection ;;
  if disconnected c
  then ret IOT_MQTT_NETWORK_ERROR
  else
    signalled <- IotSemaphore_TimedWait_on E pOperation timeoutMs ;;
    if negb signalled
    then
      _IotMqtt_DecrementOperationReferences E pOperation true ;;
      o <- readOperation pOperation ;;
      when (bool_decide (o_operation o = IOT_MQTT_SUBSCRIBE))
        (_IotMqtt_RemoveSubscriptionByPacket (o_packetIdentifier o) (-1)) ;;
      ret IOT_MQTT_TIMEOUT
    else
      o <- readOperation pOperation ;;
      ret (o_status o).

(** The status [IotMqtt_Wait] answers for a valid reference to [o]. *)
Definition Wait_status (E : Env) (w : World) (o : _mqttOperation_t) : IotMqttError_t :=
  if disconnected (connection w) then IOT_MQTT_NETWORK_ERROR
  else if IotSemaphore_TimedWait E (trace w) then o_status (taskPool_progress E (trace w) o)
  else IOT_MQTT_TIMEOUT.

(** The reference count of [o] at the moment the caller's reference is
    released: what the task pool left, less the reference of a job that the
    timeout path cancelled. *)
Definition Wait_heldReferences (E : Env) (p : nat) (t : Z) (w : World) (o : _mqttOperation_t)
  : Z :=
  if disconnected (connection w) then o_references o
  else
    let o1 := taskPool_progress E (trace w) o in
    if IotSemaphore_TimedWait E (trace w) then o_references o1
    else if bool_decide (IotTaskPool_TryCancel E (trace w ++ [EvSemaphoreTimedWait p t])
                         = IOT_TASKPOOL_SUCCESS)
    then o_references o1 - 1
    else o_references o1.

(** A connection with one operation that was not created waitable. *)
Definition callbackWorld : World :=
  {| connection := set_pendingResponse [0%nat] (set_references 2 zeroConnection);
     connectionAllocated := true;
     operations := {[ 0%nat := exampleOperation 0 1 ]};
     callerReference := None; trace := []; warnings := [] |}.

(** A connection with one waitable operation that the task pool completes
    while the caller waits. *)
Definition waitingWorld : World :=
  {| connection := set_pendingResponse [0%nat] (set_references 2 zeroConnection);
     connectionAllocated := true;
     operations := {[ 0%nat := exampleOperation IOT_MQTT_FLAG_WAITABLE 2 ]};
     callerReference := None; trace := []; warnings := [] |}.

(** ** Every call only appends to the history *)

Definition anyEvent (e : Event) : Prop := True.

Definition previousSubscriptionsValid (E : Env) (ci : IotMqttConnectInfo_t) : Prop :=
  cleanSession ci = false ->
  forall previous, pPreviousSubscriptions ci = Some previous ->
    _IotMqtt_ValidateSubscriptionList E IOT_MQTT_SUBSCRIBE (awsIotMqttMode ci) previous
      (previousSubscriptionCount ci) = true.

Definition qos0ReferenceWarning : string := "Ignoring reference parameter for QoS 0 publish.".

(** A status that is neither success nor pending. *)
Definition isError (st : IotMqttError_t) : Prop :=
  st <> IOT_MQTT_SUCCESS /\ st <> IOT_MQTT_STATUS_PENDING.

(** The last call of a computation started in [w] and ended in [w'] handed
    operation [p] to the task pool, which took it. *)
Definition scheduledLast (E : Env) (w w' : World) : Prop :=
  exists p h pre,
    trace w' = h ++ [EvScheduleOperation p] /\ h = trace w ++ pre /\
    scheduleOperation_status E h = IOT_MQTT_SUCCESS.

(** No collaborator of [IotMqtt_Publish] answers "pending". *)
Definition neverPending (E : Env) (info : IotMqttPublishInfo_t) (w : World) : Prop :=
  (forall h, createOperation_status E h <> IOT_MQTT_STATUS_PENDING) /\
  (forall h b, fst (fst (chooseSerializer E (_IotMqtt_SerializePublish E)
                           (pSerializer (connection w)) serialize_publish h info b))
               <> IOT_MQTT_STATUS_PENDING) /\
  (forall h, scheduleOperation_status E h <> IOT_MQTT_STATUS_PENDING).

(** The selection [_IotMqtt_RemoveSubscriptionByPacket] makes with order -1. *)
Definition carries (packetId : Z) (s : _mqttSubscription_t) : bool :=
  (s_packetIdentifier s =? packetId) && ((-1 =? -1) || (s_order s =? -1)).

(** An entry that a SUBSCRIBE with identifier [packetId] has just added. *)
Definition added (packetId : Z) (s : _mqttSubscription_t) : Prop :=
  s_packetIdentifier s = packetId /\ s_references s = 0.

(** No element of the list [ns] meets an entry of the table [l]. *)
Definition disjointFrom (ns : list IotMqttSubscription_t) (l : list _mqttSubscription_t) : Prop :=
  Forall (fun s => Forall (fun n => sameSubscription n s = false) ns) l.

(** The events of an assertion. *)
Definition asserted (b : bool) : list Event := if b then [] else [EvAssertFailed].

Definition exampleCallback : IotMqttCallbackInfo_t := {| param1 := 1; function := 2 |}.

Definition exampleSubscription (topic : string) (q : Z) : IotMqttSubscription_t :=
  {| sub_qos := q; pTopicFilter := topic; callback := exampleCallback |}.

Definition exampleEntry (topic : string) (q packetId : Z) : _mqttSubscription_t :=
  {| s_references := 0; unsubscribed := false; s_packetIdentifier := packetId; s_order := 0;
     s_callback := exampleCallback; s_qos := q; s_topicFilter := topic |}.

(** A live connection whose table holds one subscription. *)
Definition subscribedWorld (s : _mqttSubscription_t) : World :=
  {| connection := set_subscriptionList [s] idleConnection; connectionAllocated := true;
     operations := ∅; callerReference := None; trace := []; warnings := [] |}.

(** Claim C7 as it is written: a SUBSCRIBE that could not be scheduled leaves
    the table as it was. *)
Definition Subscribe_restores_table (E : Env) (l : list IotMqttSubscription_t) (w : World)
  : Prop :=
  subscriptionList (connection (snd (IotMqtt_Subscribe E l (length l) 0 None false w)))
  = subscriptionList (connection w).

(** A connection object that was not allocated yet. *)
Definition freshWorld : World :=
  {| connection := zeroConnection; connectionAllocated := false; operations := ∅;
     callerReference := None; trace := []; warnings := [] |}.

Definition exampleNetworkInfo : IotMqttNetworkInfo_t :=
  {| createNetworkConnection := true; pNetworkConnection := 0%nat; pMqttSerializer := None |}.

Definition examplePublish (q payload : Z) : IotMqttPublishInfo_t :=
  {| qos := q; payloadLength := payload; retryLimit := 0; retryMs := 0 |}.

Definition exampleConnect (will : option IotMqttPublishInfo_t) : IotMqttConnectInfo_t :=
  {| awsIotMqttMode := true; cleanSession := true; pPreviousSubscriptions := None;
     previousSubscriptionCount := 0; pWillInfo := will; keepAliveSeconds := 60 |}.

(** What the compile-time checks and the declarations of the static arrays
    give: both constants above 0 and one flag for each buffer. *)
Definition messageBuffersDeclared (cfg : MessageBufferConfig) (s : MessageBuffers) : Prop :=
  0 < IOT_MESSAGE_BUFFERS cfg /\ 0 < IOT_MESSAGE_BUFFER_SIZE cfg /\
  length (_pInUseMessageBuffers s) = Z.to_nat (IOT_MESSAGE_BUFFERS cfg).

(** The address of message buffer [i]. *)
Definition messageBuffer (cfg : MessageBufferConfig) (i : Z) : Z :=
  _pMessageBuffers cfg + i * IOT_MESSAGE_BUFFER_SIZE cfg.

Definition exampleBuffers : MessageBufferConfig :=
  {| IOT_MESSAGE_BUFFERS := 3; IOT_MESSAGE_BUFFER_SIZE := 1024; _pMessageBuffers := 4096 |}.

Definition exampleBuffersState (pInUse : list bool) : MessageBuffers :=
  {| _pInUseMessageBuffers := pInUse; messageMemory := fun _ => x01 |}.

(** The calls of [_destroyMqttConnection] before it frees the connection. *)
Definition destroyMqttConnection_events (c : _mqttConnection_t) : list Event :=
  let keepAlive := negb (keepAliveMs c =? 0) in
  (if keepAlive then [EvFreePacket] else [])
  ++ asserted (references c - (if keepAlive then 1 else 0) <=? 1)
  ++ asserted (bool_decide ((if keepAlive then None else pPingreqPacket c) = None))
  ++ asserted ((if keepAlive then 0 else pingreqPacketSize c) =? 0)
  ++ [EvMutexDestroy true; EvMutexDestroy false]
  ++ (if ownNetworkConnection c then [EvNetworkDestroy] else []).

(** The serializer that [_subscriptionCommon] chooses. *)
Definition subscriptionSerializer (E : Env) (operation : IotMqttOperationType_t) (w : World) :=
  if bool_decide (operation = IOT_MQTT_SUBSCRIBE)
  then chooseSerializer E (_IotMqtt_SerializeSubscribe E) (pSerializer (connection w))
         serialize_subscribe
  else chooseSerializer E (_IotMqtt_SerializeUnsubscribe E) (pSerializer (connection w))
         serialize_unsubscribe.

(** No collaborator of [_subscriptionCommon] answers "pending". *)
Definition neverPendingSubscription (E : Env) (operation : IotMqttOperationType_t)
    (l : list IotMqttSubscription_t) (n : nat) (w : World) : Prop :=
  (forall h, createOperation_status E h <> IOT_MQTT_STATUS_PENDING) /\
  (forall h, fst (fst (subscriptionSerializer E operation w h l n))
             <> IOT_MQTT_STATUS_PENDING) /\
  (forall h, addSubscriptions_status E h <> IOT_MQTT_STATUS_PENDING) /\
  (forall h, scheduleOperation_status E h <> IOT_MQTT_STATUS_PENDING).

(** The operation behind a reference that was just handed out: it is live,
    queued for processing, of the kind and with the flags of the call, and
    holds the references its creation gave it. *)
Definition handedOut (operation : IotMqttOperationType_t) (flags : Z) (p : nat) (w : World)
  : Prop :=
  callerReference w = Some p /\
  p ∈ pendingProcessing (connection w) /\
  exists o, operations w !! p = Some o /\
    o_operation o = operation /\ o_flags o = flags /\
    o_references o = 1 + (if isWaitable flags then 1 else 0) /\
    o_status o = IOT_MQTT_STATUS_PENDING.

(** A waitable SUBSCRIBE or UNSUBSCRIBE without a callback, followed, when
    it is pending, by a wait for the operation it created. *)
Definition subscribeThenWait (E : Env) (operation : IotMqttOperationType_t)
    (l : list IotMqttSubscription_t) (n : nat) (timeoutMs : Z) (w : World)
  : option IotMqttError_t * World :=
  let a := _subscriptionCommon E operation l n IOT_MQTT_FLAG_WAITABLE None true
             (setCallerReference IOT_MQTT_REFERENCE_INITIALIZER w) in
  if bool_decide (fst a = IOT_MQTT_STATUS_PENDING)
  then
    let waited := IotMqtt_Wait E (fresh (dom (operations w))) timeoutMs (snd a) in
    (Some (fst waited),
     snd (IotMqtt_Assert (bool_decide (fst waited <> IOT_MQTT_STATUS_PENDING)) (snd waited)))
  else (Some (fst a), snd a).

(** A PUBLISH without a callback: waitable and followed by a wait for the
    operation it created when the QoS is 1 and it is pending, and with no
    flag and no wait for any other QoS. *)
Definition publishThenWait (E : Env) (info : IotMqttPublishInfo_t) (timeoutMs : Z) (w : World)
  : option IotMqttError_t * World :=
  let w0 := setCallerReference IOT_MQTT_REFERENCE_INITIALIZER w in
  if qos info =? IOT_MQTT_QOS_1
  then
    let a := IotMqtt_Publish E info IOT_MQTT_FLAG_WAITABLE None true w0 in
    if bool_decide (fst a = IOT_MQTT_STATUS_PENDING)
    then
      let waited := IotMqtt_Wait E (fresh (dom (operations w))) timeoutMs (snd a) in
      (Some (fst waited), snd waited)
    else (Some (fst a), snd a)
  else
    let a := IotMqtt_Publish E info 0 None false w0 in
    (Some (fst a), snd a).

(** Every run of a computation answers a value in [P]. *)
Definition returns {A : Type} (P : A -> Prop) (m : M A) : Prop :=
  forall w, P (fst (m w)).

(** The flag that [_IotMqtt_CloseNetworkConnection] sets. *)
Definition isDisconnected (w : World) : bool := disconnected (connection w).

(** The state at the cleanup label of a call that started in [w]: either no
    operation was created, or the operation [p] is the only new one and holds
    one more reference to the connection. *)
Definition operationUndone (w : World) (op : option nat) (w1 : World) : Prop :=
  match op with
  | None =>
      operations w1 = operations w /\
      references (connection w1) = references (connection w)
  | Some p =>
      delete p (operations w1) = operations w /\
      references (connection w1) = references (connection w) + 1
  end.

(** The variable of the caller after a call that started in [w]: untouched,
    or reset to the initializer. *)
Definition noDanglingReference (w w1 : World) : Prop :=
  callerReference w1 = callerReference w
  \/ callerReference w1 = IOT_MQTT_REFERENCE_INITIALIZER.

(** The parameter checks of [IotMqtt_Connect] pass. *)
Definition connectParametersValid (E : Env) (ci : IotMqttConnectInfo_t) : Prop :=
  _IotMqtt_ValidateConnect E ci = true /\
  (forall will, pWillInfo ci = Some will ->
     _IotMqtt_ValidatePublish E (awsIotMqttMode ci) will = true /\
     payloadLength will <= UINT16_MAX) /\
  previousSubscriptionsValid E ci.

(** The example environment out of memory: no connection object can be
    allocated. *)
Definition noMemoryEnv : Env :=
  {| IOT_MQTT_ENABLE_SERIALIZER_OVERRIDES := true;
     _AWS_IOT_MQTT_SERVER_MIN_KEEPALIVE := 30;
     _AWS_IOT_MQTT_SERVER_MAX_KEEPALIVE := 1200;
     IOT_MQTT_RESPONSE_WAIT_MS := 1000;
     _IotMqtt_ValidateConnect := fun _ => true;
     _IotMqtt_ValidatePublish := fun _ _ => true;
     _IotMqtt_ValidateSubscriptionList := fun _ _ _ _ => true;
     _IotMqtt_ValidateReference := fun o => isWaitable (o_flags o);
     _IotMqtt_SerializeConnect := fun _ _ => (IOT_MQTT_SUCCESS, examplePacket);
     _IotMqtt_SerializePublish := fun _ _ _ => (IOT_MQTT_SUCCESS, examplePacket, 1);
     _IotMqtt_SerializeSubscribe := fun _ _ _ => (IOT_MQTT_SUCCESS, examplePacket, 7);
     _IotMqtt_SerializeUnsubscribe := fun _ _ _ => (IOT_MQTT_SUCCESS, examplePacket, 9);
     _IotMqtt_SerializePingreq := fun _ => (IOT_MQTT_SUCCESS, examplePacket);
     _IotMqtt_SerializeDisconnect := fun _ => (IOT_MQTT_SUCCESS, examplePacket);
     network_create := fun _ => (IOT_NETWORK_SUCCESS, 5%nat);
     network_setReceiveCallback := fun _ => IOT_NETWORK_SUCCESS;
     network_close := fun _ => IOT_NETWORK_SUCCESS;
     network_destroy := fun _ => IOT_NETWORK_SUCCESS;
     IotTaskPool_CreateJob := fun _ => IOT_TASKPOOL_SUCCESS;
     IotTaskPool_ScheduleDeferred := fun _ => IOT_TASKPOOL_SUCCESS;
     IotTaskPool_TryCancel := fun _ => IOT_TASKPOOL_SUCCESS;
     IotMqtt_MallocConnection := fun _ => false;
     IotMutex_Create := fun _ => true;
     IotSemaphore_TimedWait := fun _ => true;
     taskPool_progress := fun _ o => o;
     createOperation_status := fun _ => IOT_MQTT_SUCCESS;
     scheduleOperation_status := fun _ => IOT_MQTT_SUCCESS;
     addSubscriptions_status := fun _ => IOT_MQTT_SUCCESS |}.

(** * Properties *)

Lemma createKeepAliveJob_effect (E : Env) (ni : IotMqttNetworkInfo_t) (ks : Z) (w : World) :
  fst (_createKeepAliveJob E ni ks w) = true ->
  references (connection (snd (_createKeepAliveJob E ni ks w))) = references (connection w) + 1 /\
  keepAliveMs (connection (snd (_createKeepAliveJob E ni ks w))) = (ks * 1000) mod 2 ^ 32.
Proof.
  unfold _createKeepAliveJob, bind, call, modifyConnection, ret. simpl.
  destruct (chooseSerializer _ _ _ _ _) as [serializeStatus packet]. simpl.
  destruct (bool_decide _); simpl.
  - discriminate.
  - intros _. unfold IotMqtt_Assert. destruct (bool_decide _); simpl; auto.
Qed.

Lemma createMqttConnection_keepAlive (E : Env) (aws : bool) (ni : IotMqttNetworkInfo_t) (ks : Z) (w : World) :
  fst (_createMqttConnection E aws ni ks w) = true ->
  keepAliveMs (connection (snd (_createMqttConnection E aws ni ks w)))
  = (adjustKeepAlive E aws ks * 1000) mod 2 ^ 32 /\
  references (connection (snd (_createMqttConnection E aws ni ks w)))
  = if adjustKeepAlive E aws ks =? 0 then 1 else 2.
Proof.
  unfold _createMqttConnection, bind, call. simpl.
  destruct (IotMqtt_MallocConnection E (trace w)); simpl; [|discriminate].
  destruct (IotMutex_Create E _); simpl; [|discriminate].
  destruct (IotMutex_Create E _); simpl; [|discriminate].
  destruct (adjustKeepAlive E aws ks =? 0) eqn:Hk; simpl.
  - intros _. apply Z.eqb_eq in Hk. rewrite Hk. split; reflexivity.
  - match goal with |- context [_createKeepAliveJob E ni ?k ?w0] =>
      pose proof (createKeepAliveJob_effect E ni k w0) as Hj;
      destruct (_createKeepAliveJob E ni k w0) as [created w1] end.
    simpl in *. destruct created; simpl; [|discriminate].
    intros _. destruct (Hj eq_refl) as [Hr Hm]. rewrite Hr, Hm. split; reflexivity.
Qed.

Lemma emits_ret {A : Type} (P : Event -> Prop) (a : A) : emits P (ret a).
Proof. intros w. exists []. simpl. rewrite app_nil_r. auto. Qed.

Lemma emits_bind {A B : Type} (P : Event -> Prop) (m : M A) (k : A -> M B) :
  emits P m -> (forall a, emits P (k a)) -> emits P (bind m k).
Proof.
  intros Hm Hk w. unfold bind. destruct (Hm w) as (e1 & H1 & F1).
  destruct (m w) as [a w1]. simpl in *.
  destruct (Hk a w1) as (e2 & H2 & F2).
  exists (e1 ++ e2). rewrite H2, H1, app_assoc. split; [reflexivity|].
  apply Forall_app; auto.
Qed.

Lemma emits_silent {A : Type} (P : Event -> Prop) (m : M A) :
  (forall w, trace (snd (m w)) = trace w) -> emits P m.
Proof. intros H w. exists []. rewrite H, app_nil_r. auto. Qed.

Lemma emits_call {A : Type} (P : Event -> Prop) (e : Event) (answer : list Event -> A) :
  P e -> emits P (call e answer).
Proof. intros He w. exists [e]. simpl. auto. Qed.

Lemma emits_Assert (P : Event -> Prop) (b : bool) :
  P EvAssertFailed -> emits P (IotMqtt_Assert b).
Proof.
  intros He w. unfold IotMqtt_Assert. destruct b; simpl.
  - exists []. rewrite app_nil_r. auto.
  - exists [EvAssertFailed]. auto.
Qed.

Lemma emits_when (P : Event -> Prop) (b : bool) (m : M unit) :
  emits P m -> emits P (when b m).
Proof. intros H. destruct b; simpl; [assumption|apply emits_ret]. Qed.

Lemma emits_weaken {A : Type} (P Q : Event -> Prop) (m : M A) :
  (forall e, P e -> Q e) -> emits P m -> emits Q m.
Proof.
  intros HPQ H w. destruct (H w) as (evs & Ht & F). exists evs. split; [assumption|].
  eapply Forall_impl; eauto.
Qed.

Ltac emits_step :=
  lazymatch goal with
  | |- emits _ (bind _ _) => apply emits_bind; [|intros ?]
  | |- emits _ (ret _) => apply emits_ret
  | |- emits _ (when _ _) => apply emits_when
  | |- emits _ (call _ _) => apply emits_call
  | |- emits _ (IotMqtt_Assert _) => apply emits_Assert
  | |- emits _ (if ?b then _ else _) => destruct b
  | |- emits _ (match ?x with _ => _ end) => destruct x
  | |- emits _ _ => first [ solve [apply emits_silent; intros ?; reflexivity]
                         | solve [eauto with emits] ]
  end.

Ltac emits_tac := repeat emits_step; try (simpl; tauto).

Create HintDb emits.

Lemma emits_destroyMqttConnection (E : Env) : emits teardownEvent (_destroyMqttConnection E).
Proof. unfold _destroyMqttConnection. emits_tac. Qed.

#[local] Hint Resolve emits_destroyMqttConnection : emits.

Lemma emits_DecrementConnectionReferences (E : Env) :
  emits teardownEvent (_IotMqtt_DecrementConnectionReferences E).
Proof. unfold _IotMqtt_DecrementConnectionReferences. emits_tac. Qed.

#[local] Hint Resolve emits_DecrementConnectionReferences : emits.

Lemma emits_DestroyOperation (E : Env) (p : nat) :
  emits teardownEvent (_IotMqtt_DestroyOperation E p).
Proof. unfold _IotMqtt_DestroyOperation. emits_tac. Qed.

#[local] Hint Resolve emits_DestroyOperation : emits.

Lemma emits_DecrementOperationReferences (E : Env) (p : nat) (cancelJob : bool) :
  emits teardownEvent (_IotMqtt_DecrementOperationReferences E p cancelJob).
Proof. unfold _IotMqtt_DecrementOperationReferences. emits_tac. Qed.

#[local] Hint Resolve emits_DecrementOperationReferences : emits.

Lemma emits_tryDestroy (E : Env) (p : nat) : emits teardownEvent (_mqttOperation_tryDestroy E p).
Proof. unfold _mqttOperation_tryDestroy. emits_tac. Qed.

#[local] Hint Resolve emits_tryDestroy : emits.

Lemma emits_RemoveAll_loop (E : Env) (q : OperationList) (l : list nat) :
  emits teardownEvent (IotListDouble_RemoveAll_loop q (_mqttOperation_tryDestroy E) l).
Proof. induction l as [|x l IH]; simpl; emits_tac. Qed.

#[local] Hint Resolve emits_RemoveAll_loop : emits.

Lemma emits_RemoveAll (E : Env) (q : OperationList) :
  emits teardownEvent (IotListDouble_RemoveAll q (_mqttOperation_tryDestroy E)).
Proof. unfold IotListDouble_RemoveAll. emits_tac. Qed.

#[local] Hint Resolve emits_RemoveAll : emits.

Lemma emits_CloseNetworkConnection (E : Env) :
  emits teardownEvent (_IotMqtt_CloseNetworkConnection E).
Proof. unfold _IotMqtt_CloseNetworkConnection. emits_tac. Qed.

#[local] Hint Resolve emits_CloseNetworkConnection : emits.

Lemma declines_ret {A : Type} (a : A) : declines (ret a).
Proof. intros w. simpl. split; [lia|auto]. Qed.

Lemma declines_bind {A B : Type} (m : M A) (k : A -> M B) :
  declines m -> (forall a, declines (k a)) -> declines (bind m k).
Proof.
  intros Hm Hk w. unfold bind. destruct (Hm w) as [R1 L1].
  destruct (m w) as [a w1]. simpl in *.
  destruct (Hk a w1) as [R2 L2]. split; [lia|]. intros q x Hx. auto.
Qed.

Lemma declines_same {A : Type} (m : M A) :
  (forall w, connection (snd (m w)) = connection w) -> declines m.
Proof. intros H w. rewrite H. split; [lia|auto]. Qed.

Lemma declines_when (b : bool) (m : M unit) : declines m -> declines (when b m).
Proof. intros H. destruct b; simpl; [assumption|apply declines_ret]. Qed.

Lemma declines_modifyConnection (f : _mqttConnection_t -> _mqttConnection_t) :
  (forall c, (references (f c) <= references c) /\
             forall q x, x ∈ getList q (f c) -> x ∈ getList q c) ->
  declines (modifyConnection f).
Proof. intros H w. simpl. apply H. Qed.

Lemma elem_of_unlink (p x : nat) (l : list nat) : x ∈ unlink p l -> x <> p /\ x ∈ l.
Proof. unfold unlink. intros H. apply list_elem_of_filter in H. exact H. Qed.

Create HintDb declines.

Ltac declines_step :=
  lazymatch goal with
  | |- declines (bind _ _) => apply declines_bind; [|intros ?]
  | |- declines (ret _) => apply declines_ret
  | |- declines (when _ _) => apply declines_when
  | |- declines (if ?b then _ else _) => destruct b
  | |- declines (match ?x with _ => _ end) => destruct x
  | |- declines _ => first [ solve [apply declines_same; intros ?; unfold IotMqtt_Assert;
                                    repeat case_match; reflexivity]
                           | solve [eauto with declines] ]
  end.

Ltac declines_tac := repeat declines_step.

Ltac declines_store :=
  apply declines_modifyConnection; intros c; simpl; split; [lia|];
  intros [] x Hx; simpl in *; try assumption;
  try (apply elem_of_unlink in Hx; tauto).

Lemma declines_destroyMqttConnection (E : Env) : declines (_destroyMqttConnection E).
Proof. unfold _destroyMqttConnection. declines_tac; declines_store. Qed.

#[local] Hint Resolve declines_destroyMqttConnection : declines.

Lemma declines_DecrementConnectionReferences (E : Env) :
  declines (_IotMqtt_DecrementConnectionReferences E).
Proof. unfold _IotMqtt_DecrementConnectionReferences. declines_tac; declines_store. Qed.

#[local] Hint Resolve declines_DecrementConnectionReferences : declines.

Lemma declines_DestroyOperation (E : Env) (p : nat) : declines (_IotMqtt_DestroyOperation E p).
Proof. unfold _IotMqtt_DestroyOperation. declines_tac; declines_store. Qed.

#[local] Hint Resolve declines_DestroyOperation : declines.

Lemma declines_DecrementOperationReferences (E : Env) (p : nat) (cancelJob : bool) :
  declines (_IotMqtt_DecrementOperationReferences E p cancelJob).
Proof. unfold _IotMqtt_DecrementOperationReferences. declines_tac. Qed.

#[local] Hint Resolve declines_DecrementOperationReferences : declines.

Lemma declines_tryDestroy (E : Env) (p : nat) : declines (_mqttOperation_tryDestroy E p).
Proof. unfold _mqttOperation_tryDestroy. declines_tac. Qed.

#[local] Hint Resolve declines_tryDestroy : declines.

Lemma declines_RemoveAll_loop (E : Env) (q : OperationList) (l : list nat) :
  declines (IotListDouble_RemoveAll_loop q (_mqttOperation_tryDestroy E) l).
Proof.
  induction l as [|p l IH]; simpl; declines_tac.
  apply declines_modifyConnection; intros c; destruct q; simpl; (split; [lia|]);
    intros [] x Hx; simpl in *; try assumption; apply elem_of_unlink in Hx; tauto.
Qed.

#[local] Hint Resolve declines_RemoveAll_loop : declines.

Lemma declines_RemoveAll (E : Env) (q : OperationList) :
  declines (IotListDouble_RemoveAll q (_mqttOperation_tryDestroy E)).
Proof. unfold IotListDouble_RemoveAll. declines_tac. Qed.

#[local] Hint Resolve declines_RemoveAll : declines.

Lemma declines_CloseNetworkConnection (E : Env) : declines (_IotMqtt_CloseNetworkConnection E).
Proof. unfold _IotMqtt_CloseNetworkConnection. declines_tac; declines_store. Qed.

#[local] Hint Resolve declines_CloseNetworkConnection : declines.

Lemma RemoveAll_loop_empties (E : Env) (q : OperationList) (l : list nat) :
  forall w, (forall x, x ∈ getList q (connection w) -> x ∈ l) ->
  getList q (connection (snd (IotListDouble_RemoveAll_loop q (_mqttOperation_tryDestroy E) l w))) = [].
Proof.
  induction l as [|p l IH]; intros w Hsub; simpl.
  - apply elem_of_nil_inv. intros x Hx. apply Hsub in Hx. apply elem_of_nil in Hx. exact Hx.
  - unfold bind at 1. simpl. unfold bind at 1.
    match goal with |- context [_mqttOperation_tryDestroy E p ?w0] =>
      pose proof (declines_tryDestroy E p w0) as [_ Hd];
      destruct (_mqttOperation_tryDestroy E p w0) as [u w1] eqn:Hrun end.
    simpl in Hd. apply IH. intros x Hx. apply Hd in Hx. simpl in Hx.
    assert (Hx' : x ∈ unlink p (getList q (connection w))) by (destruct q; exact Hx).
    apply elem_of_unlink in Hx'. destruct Hx' as [Hne Hin].
    apply Hsub in Hin. apply elem_of_cons in Hin. tauto.
Qed.

Lemma RemoveAll_empties (E : Env) (q : OperationList) (w : World) :
  getList q (connection (snd (IotListDouble_RemoveAll q (_mqttOperation_tryDestroy E) w))) = [].
Proof.
  unfold IotListDouble_RemoveAll, bind, getConnection. apply RemoveAll_loop_empties. auto.
Qed.

Lemma DecrementConnectionReferences_strict (E : Env) (w : World) :
  references (connection (snd (_IotMqtt_DecrementConnectionReferences E w)))
  <= references (connection w) - 1.
Proof.
  unfold _IotMqtt_DecrementConnectionReferences.
  unfold bind at 1. simpl.
  match goal with |- context [bind ?m ?k ?w0] =>
    assert (Hd : declines (bind m k)) by (declines_tac; declines_store);
    destruct (Hd w0) as [Hr _] end.
  simpl in Hr. exact Hr.
Qed.

Lemma CloseNetworkConnection_trace (E : Env) (w : World) :
  exists pre, trace (snd (_IotMqtt_CloseNetworkConnection E w)) = trace w ++ pre ++ [EvNetworkClose]
              /\ Forall teardownEvent pre.
Proof.
  unfold _IotMqtt_CloseNetworkConnection, bind, call, modifyConnection, getConnection, when. simpl.
  destruct (negb _); simpl.
  - exists [EvTaskPoolTryCancelKeepAlive; EvFreePacket].
    split; [|repeat constructor].
    destruct (bool_decide _); simpl; rewrite <- !app_assoc; reflexivity.
  - exists []. split; [|constructor]. destruct (bool_decide _); reflexivity.
Qed.

Lemma teardown_not_send (e : Event) : teardownEvent e -> ~ sendEvent e.
Proof. destruct e; simpl; tauto. Qed.

Lemma Disconnect_disconnected_eq (E : Env) (flags : Z) (w : World) :
  disconnected (connection w) = true ->
  IotMqtt_Disconnect E flags w = Disconnect_teardown E w.
Proof.
  intros Hd. unfold IotMqtt_Disconnect, Disconnect_teardown.
  unfold bind at 1. unfold getConnection at 1. cbv beta iota.
  rewrite Hd. cbn [negb when]. unfold bind at 1. unfold ret at 1. cbv beta iota.
  reflexivity.
Qed.

Lemma bind_run {A B : Type} (m : M A) (k : A -> M B) (w : World) :
  bind m k w = k (fst (m w)) (snd (m w)).
Proof. unfold bind. destruct (m w). reflexivity. Qed.



Lemma keeps_ret {X A : Type} (f : World -> X) (a : A) : keeps f (ret a).
Proof. intros w. reflexivity. Qed.

Lemma keeps_bind {X A B : Type} (f : World -> X) (m : M A) (k : A -> M B) :
  keeps f m -> (forall a, keeps f (k a)) -> keeps f (bind m k).
Proof.
  intros Hm Hk w. rewrite bind_run. rewrite Hk. apply Hm.
Qed.

Lemma keeps_when {X : Type} (f : World -> X) (b : bool) (m : M unit) :
  keeps f m -> keeps f (when b m).
Proof. intros H. destruct b; simpl; [assumption|apply keeps_ret]. Qed.

Lemma keeps_Assert {X : Type} (f : World -> X) (b : bool) :
  (forall w, f (emit EvAssertFailed w) = f w) -> keeps f (IotMqtt_Assert b).
Proof. intros H w. unfold IotMqtt_Assert. destruct b; simpl; auto. Qed.

Create HintDb keeps.

Ltac keeps_step :=
  lazymatch goal with
  | |- keeps _ (bind _ _) => apply keeps_bind; [|intros ?]
  | |- keeps _ (ret _) => apply keeps_ret
  | |- keeps _ (when (_ && false) _) => rewrite andb_false_r; apply keeps_ret
  | |- keeps _ (when _ _) => apply keeps_when
  | |- keeps _ (IotMqtt_Assert _) => apply keeps_Assert; intros ?; reflexivity
  | |- keeps _ (if ?b then _ else _) => destruct b
  | |- keeps _ (match ?x with _ => _ end) => destruct x
  | |- keeps _ _ => first [ solve [intros ?; reflexivity] | solve [eauto with keeps] ]
  end.

Ltac keeps_tac := repeat keeps_step.

Lemma keeps_operations_destroyMqttConnection (E : Env) :
  keeps operations (_destroyMqttConnection E).
Proof. unfold _destroyMqttConnection. keeps_tac. Qed.

#[local] Hint Resolve keeps_operations_destroyMqttConnection : keeps.

Lemma keeps_operations_DecrementConnectionReferences (E : Env) :
  keeps operations (_IotMqtt_DecrementConnectionReferences E).
Proof. unfold _IotMqtt_DecrementConnectionReferences. keeps_tac. Qed.

#[local] Hint Resolve keeps_operations_DecrementConnectionReferences : keeps.

Lemma readOperation_live (p : nat) (o : _mqttOperation_t) (w : World) :
  operations w !! p = Some o -> readOperation p w = (o, w).
Proof. intros H. unfold readOperation. rewrite H. reflexivity. Qed.

Lemma DecrementOperationReferences_run (E : Env) (p : nat) (o : _mqttOperation_t) (w : World) :
  operations w !! p = Some o ->
  _IotMqtt_DecrementOperationReferences E p false w
  = (o_references o - 1 =? 0,
     setOperations (<[p := set_o_references (o_references o - 1) o]> (operations w)) w).
Proof.
  intros Hp. unfold _IotMqtt_DecrementOperationReferences, bind, ret, modifyOperation,
    readOperation.
  cbn [bool_decide decide_rel fst snd setOperations operations].
  rewrite bool_decide_eq_true_2 by reflexivity.
  rewrite lookup_alter_eq, Hp. cbn [fmap option_fmap option_map default o_references set_o_references].
  f_equal. f_equal. apply map_eq. intros i. rewrite lookup_alter, lookup_insert.
  destruct (decide (p = i)) as [->|]; [rewrite Hp|]; reflexivity.
Qed.

Lemma DestroyOperation_effect (E : Env) (p : nat) (w : World) :
  operations (snd (_IotMqtt_DestroyOperation E p w)) = delete p (operations w) /\
  exists evs, trace (snd (_IotMqtt_DestroyOperation E p w))
              = trace w ++ EvDestroyOperation p :: evs.
Proof.
  unfold _IotMqtt_DestroyOperation, bind, modifyConnection, call.
  match goal with |- context [_IotMqtt_DecrementConnectionReferences E ?w0] =>
    pose proof (keeps_operations_DecrementConnectionReferences E w0) as Hk;
    destruct (emits_DecrementConnectionReferences E w0) as (evs & Hev & _);
    destruct (_IotMqtt_DecrementConnectionReferences E w0) as [u w1] end.
  cbn [snd] in *. split.
  - rewrite Hk. reflexivity.
  - exists evs. rewrite Hev. cbn [trace emit setOperations setConnection].
    rewrite <- app_assoc. reflexivity.
Qed.

Lemma Wait_release_effect (E : Env) (p : nat) (o : _mqttOperation_t) (w : World) :
  operations w !! p = Some o ->
  let w' := snd (Wait_release E p w) in
  (o_references o - 1 = 0 ->
     operations w' !! p = None /\
     exists evs, trace w' = trace w ++ EvDestroyOperation p :: evs) /\
  (o_references o - 1 <> 0 ->
     operations w' !! p = Some (set_o_references (o_references o - 1) o) /\
     trace w' = trace w).
Proof.
  intros Hp. unfold Wait_release, bind.
  rewrite (DecrementOperationReferences_run E p o w Hp).
  destruct (o_references o - 1 =? 0) eqn:Hz; cbn [when].
  - apply Z.eqb_eq in Hz. split; [intros _|intros Hn; contradiction].
    match goal with |- context [_IotMqtt_DestroyOperation E p ?w0] =>
      destruct (DestroyOperation_effect E p w0) as (Ho & evs & Hev) end.
    cbv zeta. rewrite Ho. split.
    + apply lookup_delete_eq.
    + exists evs. rewrite Hev. reflexivity.
  - apply Z.eqb_neq in Hz. split; [intros Hn; contradiction|intros _].
    cbn [ret snd setOperations operations trace]. split; [apply lookup_insert_eq|reflexivity].
Qed.

Lemma bind_assoc_run {A B C : Type} (m : M A) (k : A -> M B) (h : B -> M C) (w : World) :
  bind (bind m k) h w = bind m (fun a => bind (k a) h) w.
Proof. unfold bind. destruct (m w) as [a w1]. reflexivity. Qed.

Lemma bind_ext_run {A B : Type} (m : M A) (k k' : A -> M B) (w : World) :
  (forall a w1, k a w1 = k' a w1) -> bind m k w = bind m k' w.
Proof. intros H. unfold bind. destruct (m w) as [a w1]. apply H. Qed.

Lemma Wait_unfold (E : Env) (p : nat) (t : Z) (w : World) :
  IotMqtt_Wait E p t w
  = (o <- readOperation p ;;
     if negb (_IotMqtt_ValidateReference E o)
     then ret IOT_MQTT_BAD_PARAMETER
     else st <- Wait_pending E p t ;; Wait_release E p ;; ret st) w.
Proof.
  unfold IotMqtt_Wait, Wait_pending, Wait_release.
  apply bind_ext_run. intros o w0.
  destruct (negb (_IotMqtt_ValidateReference E o)); [reflexivity|].
  symmetry. etransitivity; [apply bind_assoc_run|].
  apply bind_ext_run. intros c w1.
  apply bind_ext_run. intros st w2.
  apply bind_assoc_run.
Qed.

Lemma Wait_pending_effect (E : Env) (p : nat) (t : Z) (w : World) (o : _mqttOperation_t) :
  operations w !! p = Some o ->
  fst (Wait_pending E p t w) = Wait_status E w o /\
  exists o2, operations (snd (Wait_pending E p t w)) !! p = Some o2 /\
             o_references o2 = Wait_heldReferences E p t w o.
Proof.
  intros Hp. unfold Wait_pending, Wait_status, Wait_heldReferences, bind, getConnection.
  destruct (disconnected (connection w)).
  - cbn [ret fst snd]. split; [reflexivity|]. exists o. split; [assumption|reflexivity].
  - unfold IotSemaphore_TimedWait_on.
    set (o1 := taskPool_progress E (trace w) o).
    set (w1 := emit _ _).
    assert (Hp1 : operations w1 !! p = Some o1).
    { unfold w1. cbn [emit operations setOperations]. rewrite lookup_alter_eq, Hp. reflexivity. }
    assert (Ht1 : trace w1 = trace w ++ [EvSemaphoreTimedWait p t]) by reflexivity.
    clearbody w1.
    destruct (IotSemaphore_TimedWait E (trace w)); cbn [negb].
    + rewrite (readOperation_live _ _ _ Hp1). cbn [ret fst snd].
      split; [reflexivity|]. exists o1. split; [assumption|reflexivity].
    + unfold _IotMqtt_DecrementOperationReferences, bind, call. rewrite Ht1.
      destruct (bool_decide _).
      * unfold modifyOperation, readOperation.
        cbn [fst snd operations setOperations emit ret].
        rewrite lookup_alter_eq, Hp1.
        cbn [fmap option_fmap option_map default].
        match goal with |- context [when ?b ?m ?w0] =>
          assert (Hk : operations (snd (when b m w0)) = operations w0)
            by (destruct b; reflexivity);
          destruct (when b m w0) as [u w2] end.
        cbn [fst snd ret] in *. split; [reflexivity|].
        rewrite Hk. cbn [operations setOperations]. rewrite lookup_alter_eq, Hp1.
        eexists. split; [reflexivity|]. reflexivity.
      * cbn [ret fst snd]. unfold readOperation.
        cbn [fst snd operations emit]. rewrite Hp1. cbn [default].
        match goal with |- context [when ?b ?m ?w0] =>
          assert (Hk : operations (snd (when b m w0)) = operations w0)
            by (destruct b; reflexivity);
          destruct (when b m w0) as [u w2] end.
        cbn [fst snd ret] in *. split; [reflexivity|].
        rewrite Hk. cbn [operations emit]. exists o1. split; [assumption|reflexivity].
Qed.

(** Claim C3, amended.  [IotMqtt_Wait] on a reference that fails validation
    answers BAD_PARAMETER and touches nothing.  On a valid reference,
    whatever the status (NETWORK_ERROR, TIMEOUT or the status of the
    completed operation), the reference of the caller is released exactly
    once: the operation is destroyed when that brings its count to 0, and
    otherwise stays with one reference fewer. *)
Theorem Wait_releases_caller_reference (E : Env) (p : nat) (t : Z) (w : World)
    (o : _mqttOperation_t) :
  operations w !! p = Some o ->
  (_IotMqtt_ValidateReference E o = false ->
     IotMqtt_Wait E p t w = (IOT_MQTT_BAD_PARAMETER, w)) /\
  (_IotMqtt_ValidateReference E o = true ->
     let w' := snd (IotMqtt_Wait E p t w) in
     let held := Wait_heldReferences E p t w o in
     fst (IotMqtt_Wait E p t w) = Wait_status E w o /\
     (held - 1 = 0 -> operations w' !! p = None /\ EvDestroyOperation p ∈ trace w') /\
     (held - 1 <> 0 ->
        exists o', operations w' !! p = Some o' /\ o_references o' = held - 1)).
Proof.
  intros Hp. split; intros Hv.
  { rewrite Wait_unfold. unfold bind. rewrite (readOperation_live _ _ _ Hp), Hv.
    reflexivity. }
  assert (Heq : IotMqtt_Wait E p t w
                = (fst (Wait_pending E p t w),
                   snd (Wait_release E p (snd (Wait_pending E p t w))))).
  { rewrite Wait_unfold. unfold bind. rewrite (readOperation_live _ _ _ Hp), Hv.
    cbn [negb]. destruct (Wait_pending E p t w) as [st w1]. cbn [fst snd].
    destruct (Wait_release E p w1) as [u w2]. reflexivity. }
  rewrite Heq. clear Heq. cbn [fst snd]. cbv zeta.
  destruct (Wait_pending_effect E p t w o Hp) as (Hst & o2 & Hp2 & Hr2).
  pose proof (Wait_release_effect E p o2 _ Hp2) as [Hz Hnz].
  rewrite <- Hr2. split; [exact Hst|]. split.
  - intros H0. destruct (Hz H0) as [Hn (evs & Hev)]. split; [exact Hn|].
    rewrite Hev. apply elem_of_app. right. apply list_elem_of_here.
  - intros H0. destruct (Hnz H0) as [Hs _]. eexists. split; [exact Hs|]. reflexivity.
Qed.

Lemma Wait_bad_reference_counterexample :
  operations callbackWorld !! 0%nat = Some (exampleOperation 0 1) /\
  fst (IotMqtt_Wait exampleEnv 0 100 callbackWorld) = IOT_MQTT_BAD_PARAMETER /\
  operations (snd (IotMqtt_Wait exampleEnv 0 100 callbackWorld)) !! 0%nat
  = Some (exampleOperation 0 1) /\
  o_references (exampleOperation 0 1) = 1 /\
  trace (snd (IotMqtt_Wait exampleEnv 0 100 callbackWorld)) = [].
Proof.
  assert (Hp : operations callbackWorld !! 0%nat = Some (exampleOperation 0 1))
    by (vm_compute; reflexivity).
  assert (Hw : IotMqtt_Wait exampleEnv 0 100 callbackWorld
               = (IOT_MQTT_BAD_PARAMETER, callbackWorld)).
  { rewrite Wait_unfold. unfold bind. rewrite (readOperation_live _ _ _ Hp). reflexivity. }
  rewrite Hw. cbn [fst snd]. repeat split; assumption || reflexivity.
Qed.

Lemma Wait_releases_caller_reference_witness :
  fst (IotMqtt_Wait exampleEnv 0 100 waitingWorld) = IOT_MQTT_SUCCESS /\
  operations (snd (IotMqtt_Wait exampleEnv 0 100 waitingWorld)) !! 0%nat = None.
Proof.
  assert (Hp : operations waitingWorld !! 0%nat = Some (exampleOperation IOT_MQTT_FLAG_WAITABLE 2))
    by (vm_compute; reflexivity).
  destruct (Wait_releases_caller_reference exampleEnv 0 100 waitingWorld _ Hp) as [_ H].
  destruct (H eq_refl) as (Hst & Hz & _).
  split; [exact Hst|]. apply Hz. reflexivity.
Defined.

Lemma emits_any_teardown {A : Type} (m : M A) : emits teardownEvent m -> emits anyEvent m.
Proof. apply emits_weaken. intros e _. exact I. Qed.

Ltac emits_any :=
  repeat first
    [ emits_step
    | solve [apply emits_any_teardown; eauto with emits] ];
  try exact I.

Lemma emits_AddSubscriptions (E : Env) (id : Z) (l : list IotMqttSubscription_t) (n : nat) :
  emits anyEvent (_IotMqtt_AddSubscriptions E id l n).
Proof. unfold _IotMqtt_AddSubscriptions. emits_any. Qed.

#[local] Hint Resolve emits_AddSubscriptions : emits.

Lemma emits_RemoveSubscriptionByTopicFilter (l : list IotMqttSubscription_t) (n : nat) :
  emits anyEvent (_IotMqtt_RemoveSubscriptionByTopicFilter l n).
Proof. unfold _IotMqtt_RemoveSubscriptionByTopicFilter. emits_any. Qed.

#[local] Hint Resolve emits_RemoveSubscriptionByTopicFilter : emits.

Lemma emits_RemoveSubscriptionByPacket (id order : Z) :
  emits anyEvent (_IotMqtt_RemoveSubscriptionByPacket id order).
Proof. unfold _IotMqtt_RemoveSubscriptionByPacket. emits_any. Qed.

#[local] Hint Resolve emits_RemoveSubscriptionByPacket : emits.

Lemma emits_CreateOperation (E : Env) (flags : Z) (cb : option IotMqttCallbackInfo_t) :
  emits anyEvent (_IotMqtt_CreateOperation E flags cb).
Proof. unfold _IotMqtt_CreateOperation. emits_any. Qed.

#[local] Hint Resolve emits_CreateOperation : emits.

Lemma emits_ScheduleOperation (E : Env) (p : nat) :
  emits anyEvent (_IotMqtt_ScheduleOperation E p).
Proof. unfold _IotMqtt_ScheduleOperation. emits_any. Qed.

#[local] Hint Resolve emits_ScheduleOperation : emits.

Lemma emits_createKeepAliveJob (E : Env) (ni : IotMqttNetworkInfo_t) (ks : Z) :
  emits anyEvent (_createKeepAliveJob E ni ks).
Proof. unfold _createKeepAliveJob. emits_any. Qed.

#[local] Hint Resolve emits_createKeepAliveJob : emits.

Lemma emits_createMqttConnection_cleanup (a b : bool) :
  emits anyEvent (_createMqttConnection_cleanup a b).
Proof. unfold _createMqttConnection_cleanup. emits_any. Qed.

#[local] Hint Resolve emits_createMqttConnection_cleanup : emits.

Lemma emits_createMqttConnection (E : Env) (aws : bool) (ni : IotMqttNetworkInfo_t) (ks : Z) :
  emits anyEvent (_createMqttConnection E aws ni ks).
Proof. unfold _createMqttConnection. emits_any. Qed.

#[local] Hint Resolve emits_createMqttConnection : emits.

Lemma emits_SemaphoreTimedWait (E : Env) (p : nat) (t : Z) :
  emits anyEvent (IotSemaphore_TimedWait_on E p t).
Proof. intros w. exists [EvSemaphoreTimedWait p t]. split; [reflexivity|]. repeat constructor. Qed.

#[local] Hint Resolve emits_SemaphoreTimedWait : emits.

Lemma emits_Wait (E : Env) (p : nat) (t : Z) : emits anyEvent (IotMqtt_Wait E p t).
Proof. unfold IotMqtt_Wait. emits_any. Qed.

#[local] Hint Resolve emits_Wait : emits.

Lemma emits_Connect_cleanup (E : Env) (st : IotMqttError_t) (n : bool) (p : option nat) (c : bool) :
  emits anyEvent (IotMqtt_Connect_cleanup E st n p c).
Proof. unfold IotMqtt_Connect_cleanup. emits_any. Qed.

#[local] Hint Resolve emits_Connect_cleanup : emits.

Lemma emits_Connect_establish (E : Env) (ni : IotMqttNetworkInfo_t) (ci : IotMqttConnectInfo_t)
    (t : Z) (a b : bool) (h : nat) :
  emits anyEvent (IotMqtt_Connect_establish E ni ci t a b h).
Proof. unfold IotMqtt_Connect_establish, IotMqtt_Connect_goto. emits_any. Qed.

#[local] Hint Resolve emits_Connect_establish : emits.

Lemma emits_subscriptionCommon_cleanup (E : Env) (st : IotMqttError_t) (p : option nat) :
  emits anyEvent (_subscriptionCommon_cleanup E st p).
Proof. unfold _subscriptionCommon_cleanup. emits_any. Qed.

#[local] Hint Resolve emits_subscriptionCommon_cleanup : emits.

Lemma emits_Publish_cleanup (E : Env) (i : IotMqttPublishInfo_t) (st : IotMqttError_t)
    (p : option nat) :
  emits anyEvent (IotMqtt_Publish_cleanup E i st p).
Proof. unfold IotMqtt_Publish_cleanup. emits_any. Qed.

#[local] Hint Resolve emits_Publish_cleanup : emits.

Lemma emits_first {A B : Type} (e : Event) (answer : list Event -> A) (k : A -> M B)
    (w : World) :
  (forall a, emits anyEvent (k a)) ->
  exists evs, trace (snd (bind (call e answer) k w)) = trace w ++ e :: evs.
Proof.
  intros Hk. unfold bind, call.
  destruct (Hk (answer (trace w)) (emit e w)) as (evs & Hev & _).
  exists evs. rewrite Hev. cbn [trace emit]. rewrite <- app_assoc. reflexivity.
Qed.

(** Claim C4.  With a will message, a payload longer than 65535 bytes makes
    [IotMqtt_Connect] answer BAD_PARAMETER with no effect at all; a payload
    of exactly 65535 bytes passes the check, and the call goes on to open the
    network connection (or, when the caller brings one, to allocate the
    connection object). *)
Theorem Connect_will_payload_limit (E : Env) (ni : option IotMqttNetworkInfo_t)
    (ci : IotMqttConnectInfo_t) (t : Z) (w : World) (will : IotMqttPublishInfo_t) :
  pWillInfo ci = Some will ->
  (payloadLength will > UINT16_MAX ->
     IotMqtt_Connect E ni ci t w = ((IOT_MQTT_BAD_PARAMETER, false), w)) /\
  (payloadLength will = UINT16_MAX ->
     forall n, ni = Some n ->
     _IotMqtt_ValidateConnect E ci = true ->
     _IotMqtt_ValidatePublish E (awsIotMqttMode ci) will = true ->
     previousSubscriptionsValid E ci ->
     exists evs,
       trace (snd (IotMqtt_Connect E ni ci t w))
       = trace w ++ (if createNetworkConnection n then EvNetworkCreate else EvMallocConnection)
                    :: evs).
Proof.
  intros Hwill. split.
  - intros Hlen. unfold IotMqtt_Connect, IotMqtt_Connect_body, IotMqtt_Connect_goto, bind.
    rewrite Hwill.
    assert (Hgt : (payloadLength will >? UINT16_MAX) = true) by (apply Z.gtb_lt; lia).
    rewrite Hgt.
    destruct ni as [n|]; [|reflexivity].
    destruct (negb (_IotMqtt_ValidateConnect E ci)); [reflexivity|].
    destruct (negb (_IotMqtt_ValidatePublish E (awsIotMqttMode ci) will)); reflexivity.
  - intros Hlen n -> Hvc Hvp Hprev.
    unfold IotMqtt_Connect, IotMqtt_Connect_body.
    rewrite Hwill, Hvc, Hvp.
    assert (Hgt : (payloadLength will >? UINT16_MAX) = false)
      by (rewrite Hlen; reflexivity).
    rewrite Hgt. cbn [negb].
    assert (Hp : negb (cleanSession ci)
                 && match pPreviousSubscriptions ci with
                    | Some previous =>
                        negb (_IotMqtt_ValidateSubscriptionList E IOT_MQTT_SUBSCRIBE
                                (awsIotMqttMode ci) previous (previousSubscriptionCount ci))
                    | None => false
                    end = false).
    { unfold previousSubscriptionsValid in Hprev.
      destruct (cleanSession ci); [reflexivity|]. cbn [negb andb].
      destruct (pPreviousSubscriptions ci) as [previous|]; [|reflexivity].
      rewrite (Hprev eq_refl previous eq_refl). reflexivity. }
    rewrite Hp.
    destruct (createNetworkConnection n).
    + rewrite bind_assoc_run. apply emits_first.
      intros [st h]. unfold IotMqtt_Connect_goto. emits_any.
    + unfold IotMqtt_Connect_establish. rewrite bind_assoc_run.
      unfold _createMqttConnection at 1. rewrite bind_assoc_run.
      apply emits_first.
      intros allocated. unfold IotMqtt_Connect_goto. emits_any.
Qed.

Lemma keeps_callerReference_destroyMqttConnection (E : Env) :
  keeps callerReference (_destroyMqttConnection E).
Proof. unfold _destroyMqttConnection. keeps_tac. Qed.

#[local] Hint Resolve keeps_callerReference_destroyMqttConnection : keeps.

Lemma keeps_callerReference_DecrementConnectionReferences (E : Env) :
  keeps callerReference (_IotMqtt_DecrementConnectionReferences E).
Proof. unfold _IotMqtt_DecrementConnectionReferences. keeps_tac. Qed.

#[local] Hint Resolve keeps_callerReference_DecrementConnectionReferences : keeps.

Lemma keeps_callerReference_DestroyOperation (E : Env) (p : nat) :
  keeps callerReference (_IotMqtt_DestroyOperation E p).
Proof. unfold _IotMqtt_DestroyOperation. keeps_tac. Qed.

#[local] Hint Resolve keeps_callerReference_DestroyOperation : keeps.

Lemma keeps_callerReference_CreateOperation (E : Env) (flags : Z)
    (cb : option IotMqttCallbackInfo_t) :
  keeps callerReference (_IotMqtt_CreateOperation E flags cb).
Proof. unfold _IotMqtt_CreateOperation. keeps_tac. Qed.

#[local] Hint Resolve keeps_callerReference_CreateOperation : keeps.

Lemma keeps_callerReference_Publish (E : Env) (info : IotMqttPublishInfo_t) (flags : Z)
    (cb : option IotMqttCallbackInfo_t) :
  keeps callerReference (IotMqtt_Publish E info flags cb false).
Proof.
  unfold IotMqtt_Publish, IotMqtt_Publish_body, IotMqtt_Publish_cleanup,
    _IotMqtt_ScheduleOperation.
  keeps_tac.
Qed.

Lemma bind_getConnection_run {B : Type} (k : _mqttConnection_t -> M B) (w : World) :
  bind getConnection k w = k (connection w) w.
Proof. reflexivity. Qed.

Lemma bind_when_run {B : Type} (b : bool) (m : M unit) (k : unit -> M B) (w : World) :
  bind (when b m) k w = k tt (if b then snd (m w) else w).
Proof.
  unfold bind, when. destruct b; [|reflexivity].
  destruct (m w) as [[] w1]. reflexivity.
Qed.

(** Claim C5.  For a QoS 0 publish, a callback or the waitable flag makes
    [IotMqtt_Publish] answer BAD_PARAMETER with no effect (no operation is
    created).  A reference pointer alone is no error: the call behaves as
    the call without the pointer made after the warning was logged, and the
    variable of the caller is not written. *)
Theorem Publish_qos0_notification (E : Env) (info : IotMqttPublishInfo_t) (flags : Z)
    (cb : option IotMqttCallbackInfo_t) (w : World) :
  qos info = IOT_MQTT_QOS_0 ->
  (cb <> None \/ Z.land flags IOT_MQTT_FLAG_WAITABLE <> 0 ->
     forall ref, IotMqtt_Publish E info flags cb ref w = (IOT_MQTT_BAD_PARAMETER, w)) /\
  (cb = None -> Z.land flags IOT_MQTT_FLAG_WAITABLE = 0 ->
     IotMqtt_Publish E info flags cb true w
     = (if _IotMqtt_ValidatePublish E (c_awsIotMqttMode (connection w)) info
        then IotMqtt_Publish E info flags cb false (snd (IotLogWarn qos0ReferenceWarning w))
        else IotMqtt_Publish E info flags cb false w) /\
     callerReference (snd (IotMqtt_Publish E info flags cb true w)) = callerReference w).
Proof.
  intros Hq. split.
  - intros Hn ref. unfold IotMqtt_Publish, IotMqtt_Publish_body, bind, getConnection.
    destruct (negb (_IotMqtt_ValidatePublish E _ info)); [reflexivity|].
    rewrite Hq. cbn [Z.eqb IOT_MQTT_QOS_0 andb].
    assert (Hb : bool_decide (cb <> None) || negb (Z.land flags IOT_MQTT_FLAG_WAITABLE =? 0)
                 = true).
    { destruct Hn as [Hn|Hn].
      - rewrite bool_decide_eq_true_2 by assumption. reflexivity.
      - apply orb_true_iff. right. apply negb_true_iff. apply Z.eqb_neq. assumption. }
    rewrite Hb. reflexivity.
  - intros -> Hl.
    assert (Heq : IotMqtt_Publish E info flags None true w
     = (if _IotMqtt_ValidatePublish E (c_awsIotMqttMode (connection w)) info
        then IotMqtt_Publish E info flags None false (snd (IotLogWarn qos0ReferenceWarning w))
        else IotMqtt_Publish E info flags None false w)).
    { assert (Hw : isWaitable flags = false).
      { unfold isWaitable. rewrite Hl. reflexivity. }
      destruct (_IotMqtt_ValidatePublish E (c_awsIotMqttMode (connection w)) info) eqn:HV;
        unfold IotMqtt_Publish, IotMqtt_Publish_body;
        rewrite !bind_assoc_run, !bind_getConnection_run;
        cbn [connection IotLogWarn snd]; rewrite HV; cbn [negb]; [|reflexivity].
      rewrite Hq, Hl, Hw. cbn [Z.eqb IOT_MQTT_QOS_0 andb negb orb].
      rewrite (bool_decide_eq_false_2 (None <> None)) by (intros H; apply H; reflexivity).
      cbn [orb]. rewrite !bind_assoc_run, !bind_when_run. reflexivity. }
    split; [exact Heq|]. rewrite Heq.
    destruct (_IotMqtt_ValidatePublish E _ info); rewrite keeps_callerReference_Publish;
      reflexivity.
Qed.

Lemma app_tail_neq {A : Type} (l pre : list A) (e : A) : l <> (l ++ pre) ++ [e].
Proof.
  intros H. apply (f_equal length) in H. rewrite !length_app in H. simpl in H. lia.
Qed.

Ltac run :=
  cbv beta iota zeta delta [bind call ret getConnection readOperation modifyOperation
                            modifyConnection IotMqtt_Assert when IotLogWarn];
  cbn [fst snd trace emit setOperations setConnection setCallerReference
       setConnectionAllocated operations connection callerReference warnings
       connectionAllocated].

Ltac not_scheduled :=
  let p := fresh "p" in let h := fresh "h" in let pre := fresh "pre" in
  let H1 := fresh "H" in let H2 := fresh "H" in let H3 := fresh "H" in
  intros (p & h & pre & H1 & H2 & H3);
  first [ subst h; exfalso; eapply app_tail_neq; exact H1
        | apply app_inj_tail in H1; destruct H1 as [H1 H2']; first [discriminate | subst h; contradiction] ].

Lemma Publish_body_status (E : Env) (info : IotMqttPublishInfo_t) (flags : Z)
    (cb : option IotMqttCallbackInfo_t) (ref : bool) (w : World) :
  let r := IotMqtt_Publish_body E info flags cb ref w in
  (fst (fst r) = IOT_MQTT_SUCCESS <-> scheduledLast E w (snd r)) /\
  (fst (fst r) = IOT_MQTT_BAD_PARAMETER
   \/ (exists h, fst (fst r) = createOperation_status E h)
   \/ (exists h b, fst (fst r)
         = fst (fst (chooseSerializer E (_IotMqtt_SerializePublish E)
                       (pSerializer (connection w)) serialize_publish h info b)))
   \/ (exists h, fst (fst r) = scheduleOperation_status E h)).
Proof.
  cbv zeta. unfold IotMqtt_Publish_body, scheduledLast, _IotMqtt_CreateOperation,
    _IotMqtt_ScheduleOperation.
  run.
  destruct (negb _); run.
  { split; [|left; reflexivity]. split; [discriminate|not_scheduled]. }
  destruct (_ && _); run.
  { split; [|left; reflexivity]. split; [discriminate|not_scheduled]. }
  destruct ref, (qos info =? IOT_MQTT_QOS_0); cbn [andb negb]; run;
  (destruct (isWaitable flags); cbn [andb negb]; run;
   try (split; [|left; reflexivity]; split; [discriminate|not_scheduled]);
   (destruct (bool_decide (createOperation_status E (trace w) = IOT_MQTT_SUCCESS)) eqn:Hcr;
    [apply bool_decide_eq_true in Hcr | apply bool_decide_eq_false in Hcr]; run;
    [| split; [|right; left; eexists; reflexivity]; split; [intros; contradiction|not_scheduled] ];
    rewrite bool_decide_eq_false_2 by (intros H; apply H; reflexivity); run;
    destruct (bool_decide (o_status _ = IOT_MQTT_STATUS_PENDING)); run;
    (match goal with |- context [chooseSerializer E ?a ?b ?c ?d ?e ?f] =>
       destruct (chooseSerializer E a b c d e f) as [[st packet] identifier] eqn:Hser end;
     run;
     destruct (bool_decide (st <> IOT_MQTT_SUCCESS)) eqn:Hst;
     [apply bool_decide_eq_true in Hst | apply bool_decide_eq_false in Hst]; run;
     [ split; [split; [intros; contradiction|not_scheduled]
              | right; right; left; eexists; eexists; rewrite Hser; reflexivity]
     | ]))).
  all: destruct (0 <? retryLimit info); cbn [andb negb]; run.
  all: destruct (0 <? packetSize packet), (bool_decide (packet <> None)); run.
  all: match goal with
       | |- context [bool_decide (scheduleOperation_status ?e ?h <> IOT_MQTT_SUCCESS)] =>
           destruct (bool_decide (scheduleOperation_status e h <> IOT_MQTT_SUCCESS)) eqn:Hsch;
           [apply bool_decide_eq_true in Hsch | apply bool_decide_eq_false in Hsch]; run
       end.
  all: (split; [|right; right; right; eexists; reflexivity]); split.
  all: try (intros; contradiction).
  all: try not_scheduled.
  all: try (intros _; eexists; eexists; eexists; split; [reflexivity|];
            split; [rewrite <- ?app_assoc; reflexivity|];
            match goal with |- ?x = _ =>
              destruct (decide (x = IOT_MQTT_SUCCESS)); [assumption|contradiction] end).
  all: intros _; match goal with |- ?x = _ =>
         destruct (decide (x = IOT_MQTT_SUCCESS)); [assumption|contradiction] end.
Qed.

Lemma Publish_cleanup_status (E : Env) (info : IotMqttPublishInfo_t) (s : IotMqttError_t)
    (p : option nat) (w : World) :
  fst (IotMqtt_Publish_cleanup E info s p w)
  = if bool_decide (s <> IOT_MQTT_SUCCESS) then s
    else if qos info >? IOT_MQTT_QOS_0 then IOT_MQTT_STATUS_PENDING else s.
Proof.
  unfold IotMqtt_Publish_cleanup. destruct (bool_decide _).
  - unfold bind. destruct p as [p|]; [destruct (_IotMqtt_DestroyOperation E p w)|]; reflexivity.
  - destruct (qos info >? IOT_MQTT_QOS_0); reflexivity.
Qed.


Lemma bind_Assert_run {B : Type} (b : bool) (k : unit -> M B) (w : World) :
  bind (IotMqtt_Assert b) k w = k tt (if b then w else emit EvAssertFailed w).
Proof. reflexivity. Qed.


(** ** The subscription table under a rolled-back SUBSCRIBE *)

Lemma tombstone_app (sel : _mqttSubscription_t -> bool) (l1 l2 : list _mqttSubscription_t) :
  tombstone sel (l1 ++ l2) = tombstone sel l1 ++ tombstone sel l2.
Proof.
  unfold tombstone. induction l1 as [|s l1 IH]; [reflexivity|].
  cbn [app IotListDouble_RemoveAllMatches]. rewrite IH.
  destruct (sel s); [destruct (s_references s =? 0)|]; reflexivity.
Qed.

Lemma tombstone_others (packetId : Z) (l : list _mqttSubscription_t) :
  Forall (fun s => s_packetIdentifier s <> packetId) l -> tombstone (carries packetId) l = l.
Proof.
  unfold tombstone. induction 1 as [|s l Hs Hl IH]; [reflexivity|].
  cbn [IotListDouble_RemoveAllMatches]. unfold carries at 1.
  apply Z.eqb_neq in Hs. rewrite Hs. cbn [andb]. rewrite IH. reflexivity.
Qed.

Lemma tombstone_added (packetId : Z) (l : list _mqttSubscription_t) :
  Forall (added packetId) l -> tombstone (carries packetId) l = [].
Proof.
  unfold tombstone. induction 1 as [|s l [Hid Hr] Hl IH]; [reflexivity|].
  cbn [IotListDouble_RemoveAllMatches]. unfold carries at 1.
  rewrite Hid, Z.eqb_refl, Hr. cbn. exact IH.
Qed.

Lemma addSubscription_added (packetId order : Z) (n : IotMqttSubscription_t)
    (l : list _mqttSubscription_t) :
  Forall (added packetId) l -> Forall (added packetId) (addSubscription packetId order n l).
Proof.
  induction 1 as [|s l Hs Hl IH]; cbn [addSubscription].
  - constructor; [split; reflexivity|constructor].
  - destruct (sameSubscription n s).
    + constructor; [|assumption]. destruct Hs as [H1 H2]. split; assumption.
    + constructor; assumption.
Qed.

Lemma addSubscription_app (packetId order : Z) (n : IotMqttSubscription_t)
    (l new : list _mqttSubscription_t) :
  Forall (fun s => sameSubscription n s = false) l ->
  addSubscription packetId order n (l ++ new) = l ++ addSubscription packetId order n new.
Proof.
  induction 1 as [|s l Hs Hl IH]; [reflexivity|].
  cbn [app addSubscription]. rewrite Hs, IH. reflexivity.
Qed.

Lemma addSubscriptions_app (packetId : Z) (ns : list IotMqttSubscription_t) :
  forall (order : Z) (l new : list _mqttSubscription_t),
  disjointFrom ns l -> Forall (added packetId) new ->
  exists new', addSubscriptions packetId order ns (l ++ new) = l ++ new'
               /\ Forall (added packetId) new'.
Proof.
  induction ns as [|n ns IH]; intros order l new Hd Hnew; cbn [addSubscriptions].
  - exists new. split; [reflexivity|assumption].
  - rewrite addSubscription_app.
    + apply IH.
      * unfold disjointFrom in *. eapply Forall_impl; [exact Hd|].
        intros s Hs. inversion Hs; assumption.
      * apply addSubscription_added. assumption.
    + unfold disjointFrom in Hd. eapply Forall_impl; [exact Hd|].
      intros s Hs. inversion Hs; assumption.
Qed.

Lemma rollback_restores (packetId : Z) (ns : list IotMqttSubscription_t)
    (l : list _mqttSubscription_t) :
  Forall (fun s => s_packetIdentifier s <> packetId) l -> disjointFrom ns l ->
  tombstone (carries packetId) (addSubscriptions packetId 0 ns l) = l.
Proof.
  intros Hid Hd.
  destruct (addSubscriptions_app packetId ns 0 l [] Hd (Forall_nil_2 _)) as (new' & Heq & Hnew).
  rewrite app_nil_r in Heq. rewrite Heq, tombstone_app.
  rewrite (tombstone_others _ _ Hid), (tombstone_added _ _ Hnew). apply app_nil_r.
Qed.

Lemma DecrementConnectionReferences_live (E : Env) (w : World) :
  references (connection w) - 1 <> 0 ->
  connection (snd (_IotMqtt_DecrementConnectionReferences E w))
  = set_references (references (connection w) - 1) (connection w).
Proof.
  intros Hn. unfold _IotMqtt_DecrementConnectionReferences. run.
  cbn [references set_references].
  apply Z.eqb_neq in Hn. rewrite Hn.
  destruct (0 <=? references (connection w) - 1); reflexivity.
Qed.

Lemma Subscribe_schedule_failure_run (E : Env) (l : list IotMqttSubscription_t)
    (n : nat) (flags : Z) (cb : option IotMqttCallbackInfo_t) (ref : bool) (w : World)
    (packet : Packet) (identifier : Z) (err : IotMqttError_t) :
  let p := fresh (dom (operations w)) in
  let packetId := identifier mod 2 ^ 16 in
  let serializeSubscribe :=
    chooseSerializer E (_IotMqtt_SerializeSubscribe E) (pSerializer (connection w))
      serialize_subscribe in
  let h := trace w ++ [EvCreateOperation; EvSerialize IOT_MQTT_SUBSCRIBE]
           ++ asserted (bool_decide (packet <> None)) ++ asserted (0 <? packetSize packet) in
  _IotMqtt_ValidateSubscriptionList E IOT_MQTT_SUBSCRIBE (c_awsIotMqttMode (connection w)) l n
  = true ->
  isWaitable flags && negb ref = false ->
  createOperation_status E (trace w) = IOT_MQTT_SUCCESS ->
  serializeSubscribe (trace w ++ [EvCreateOperation]) l n = (IOT_MQTT_SUCCESS, packet, identifier) ->
  addSubscriptions_status E h = IOT_MQTT_SUCCESS ->
  scheduleOperation_status E (h ++ [EvAddSubscriptions packetId]) = err ->
  err <> IOT_MQTT_SUCCESS ->
  references (connection w) <> 0 ->
  let r := IotMqtt_Subscribe E l n flags cb ref w in
  fst r = err /\
  operations (snd r) = operations w /\
  callerReference (snd r)
  = (if ref then IOT_MQTT_REFERENCE_INITIALIZER else callerReference w) /\
  subscriptionList (connection (snd r))
  = tombstone (carries packetId)
      (addSubscriptions packetId 0 (take n l) (subscriptionList (connection w))).
Proof.
  intros p packetId serializeSubscribe h Hv Hw Hc Hs Ha Hsch Herr Hrefs r.
  assert (Hp : operations w !! p = None).
  { apply not_elem_of_dom. apply is_fresh. }
  subst r. unfold IotMqtt_Subscribe, _subscriptionCommon, _subscriptionCommon_body,
    _subscriptionCommon_cleanup, _IotMqtt_CreateOperation, _IotMqtt_AddSubscriptions,
    _IotMqtt_ScheduleOperation, _IotMqtt_RemoveSubscriptionByPacket, _IotMqtt_DestroyOperation.
  rewrite !(bool_decide_eq_true_2 (IOT_MQTT_SUBSCRIBE = IOT_MQTT_SUBSCRIBE)) by reflexivity.
  rewrite !(bool_decide_eq_false_2 (IOT_MQTT_SUBSCRIBE = IOT_MQTT_UNSUBSCRIBE)) by discriminate.
  cbn [orb]. run.
  rewrite Hv. cbn [negb]. run. rewrite Hw. run. rewrite Hc.
  rewrite (bool_decide_eq_true_2 (IOT_MQTT_SUCCESS = IOT_MQTT_SUCCESS)) by reflexivity.
  rewrite (bool_decide_eq_false_2 (IOT_MQTT_SUCCESS <> IOT_MQTT_SUCCESS))
    by (intros H; apply H; reflexivity).
  run. fold p. rewrite !lookup_insert_eq. cbn [default o_status retry_limit].
  rewrite (bool_decide_eq_true_2 (IOT_MQTT_STATUS_PENDING = IOT_MQTT_STATUS_PENDING))
    by reflexivity.
  cbn [from_option id retry_limit Z.eqb]. run.
  fold serializeSubscribe. rewrite Hs. run.
  rewrite (bool_decide_eq_false_2 (IOT_MQTT_SUCCESS <> IOT_MQTT_SUCCESS))
    by (intros H; apply H; reflexivity).
  run. rewrite !lookup_alter_eq, !lookup_insert_eq.
  cbn [fmap option_fmap option_map default from_option id pMqttPacket set_pMqttPacket
       set_o_packetIdentifier set_o_operation o_packetIdentifier].
  fold packetId.
  unfold h, asserted in Ha, Hsch.
  assert (Herr' : bool_decide (err <> IOT_MQTT_SUCCESS) = true)
    by (apply bool_decide_eq_true_2; exact Herr).
  destruct (0 <? packetSize packet), (bool_decide (packet <> None));
    cbn [app] in Ha, Hsch; run; rewrite <- ?app_assoc; cbn [app];
    rewrite <- ?app_assoc in Ha; rewrite <- ?app_assoc in Hsch; cbn [app] in Ha, Hsch.
  all: rewrite Ha.
  all: rewrite (bool_decide_eq_true_2 (IOT_MQTT_SUCCESS = IOT_MQTT_SUCCESS)) by reflexivity.
  all: run.
  all: rewrite (bool_decide_eq_false_2 (IOT_MQTT_SUCCESS <> IOT_MQTT_SUCCESS))
    by (intros H; apply H; reflexivity).
  all: run.
  all: destruct ref; run; rewrite <- ?app_assoc; cbn [app].
  all: rewrite Hsch, Herr'; run;
    rewrite Herr'; run.
  all: match goal with |- context [_IotMqtt_DecrementConnectionReferences ?e ?W] =>
         pose proof (keeps_operations_DecrementConnectionReferences e W) as Ko;
         pose proof (keeps_callerReference_DecrementConnectionReferences e W) as Kc;
         pose proof (DecrementConnectionReferences_live e W) as Kl;
         destruct (_IotMqtt_DecrementConnectionReferences e W) as [u wf]
       end.
  all: cbn [fst snd] in *.
  all: rewrite Ko, Kc, Kl
         by (cbn [connection setOperations emit setConnection setCallerReference references
                  set_references set_pendingProcessing set_pendingResponse
                  set_subscriptionList]; lia).
  all: cbn [connection setOperations emit setConnection setCallerReference references
            set_references set_pendingProcessing set_pendingResponse set_subscriptionList
            subscriptionList operations callerReference fst snd].
  all: split; [reflexivity|]; split; [|split; reflexivity].
  all: apply map_eq; intros i; rewrite lookup_delete; destruct (decide (p = i)) as [<-|Hne];
    [symmetry; exact Hp|];
    rewrite !lookup_alter_ne, lookup_insert_ne by assumption; reflexivity.
Qed.

(** Claim C7, amended.  When a SUBSCRIBE has created its operation,
    serialized it and entered its subscriptions, and the task pool then
    refuses the job, the call answers the scheduling error, the operation is
    destroyed, a reference output is reset to the initializer, and the
    entries carrying the packet identifier are removed from the table.  The
    table is as it was before the call when no older entry carried that
    identifier and no listed subscription met an older entry. *)
Theorem Subscribe_schedule_failure_rollback (E : Env) (l : list IotMqttSubscription_t)
    (n : nat) (flags : Z) (cb : option IotMqttCallbackInfo_t) (ref : bool) (w : World)
    (packet : Packet) (identifier : Z) (err : IotMqttError_t) :
  let p := fresh (dom (operations w)) in
  let packetId := identifier mod 2 ^ 16 in
  let serializeSubscribe :=
    chooseSerializer E (_IotMqtt_SerializeSubscribe E) (pSerializer (connection w))
      serialize_subscribe in
  let h := trace w ++ [EvCreateOperation; EvSerialize IOT_MQTT_SUBSCRIBE]
           ++ asserted (bool_decide (packet <> None)) ++ asserted (0 <? packetSize packet) in
  _IotMqtt_ValidateSubscriptionList E IOT_MQTT_SUBSCRIBE (c_awsIotMqttMode (connection w)) l n
  = true ->
  isWaitable flags && negb ref = false ->
  createOperation_status E (trace w) = IOT_MQTT_SUCCESS ->
  serializeSubscribe (trace w ++ [EvCreateOperation]) l n = (IOT_MQTT_SUCCESS, packet, identifier) ->
  addSubscriptions_status E h = IOT_MQTT_SUCCESS ->
  scheduleOperation_status E (h ++ [EvAddSubscriptions packetId]) = err ->
  err <> IOT_MQTT_SUCCESS ->
  references (connection w) <> 0 ->
  let r := IotMqtt_Subscribe E l n flags cb ref w in
  fst r = err /\
  operations (snd r) = operations w /\
  callerReference (snd r)
  = (if ref then IOT_MQTT_REFERENCE_INITIALIZER else callerReference w) /\
  subscriptionList (connection (snd r))
  = tombstone (carries packetId)
      (addSubscriptions packetId 0 (take n l) (subscriptionList (connection w))) /\
  (Forall (fun s => s_packetIdentifier s <> packetId) (subscriptionList (connection w)) ->
   disjointFrom (take n l) (subscriptionList (connection w)) ->
   subscriptionList (connection (snd r)) = subscriptionList (connection w)).
Proof.
  intros p packetId serializeSubscribe h Hv Hw Hc Hs Ha Hsch Herr Hrefs r.
  destruct (Subscribe_schedule_failure_run E l n flags cb ref w packet identifier err
              Hv Hw Hc Hs Ha Hsch Herr Hrefs) as (H1 & H2 & H3 & H4).
  fold r in H1, H2, H3, H4. fold packetId in H4.
  split; [exact H1|]. split; [exact H2|]. split; [exact H3|]. split; [exact H4|].
  intros Hid Hd. rewrite H4. apply rollback_restores; assumption.
Qed.

Lemma Subscribe_rollback_counterexample :
  fst (IotMqtt_Subscribe noScheduleEnv [exampleSubscription "a" 1] 1 0 None false
         (subscribedWorld (exampleEntry "b" 0 7))) = IOT_MQTT_SCHEDULING_ERROR /\
  subscriptionList (connection (snd
    (IotMqtt_Subscribe noScheduleEnv [exampleSubscription "a" 1] 1 0 None false
       (subscribedWorld (exampleEntry "b" 0 7))))) = [] /\
  ~ Subscribe_restores_table noScheduleEnv [exampleSubscription "a" 1]
      (subscribedWorld (exampleEntry "b" 0 7)) /\
  subscriptionList (connection (snd
    (IotMqtt_Subscribe noScheduleEnv [exampleSubscription "a" 1] 1 0 None false
       (subscribedWorld (exampleEntry "a" 0 5))))) = [exampleEntry "a" 1 5] /\
  ~ Subscribe_restores_table noScheduleEnv [exampleSubscription "a" 1]
      (subscribedWorld (exampleEntry "a" 0 5)).
Proof.
  assert (H1 : subscriptionList (connection (snd
    (IotMqtt_Subscribe noScheduleEnv [exampleSubscription "a" 1] 1 0 None false
       (subscribedWorld (exampleEntry "b" 0 7))))) = []) by (vm_compute; reflexivity).
  assert (H2 : subscriptionList (connection (snd
    (IotMqtt_Subscribe noScheduleEnv [exampleSubscription "a" 1] 1 0 None false
       (subscribedWorld (exampleEntry "a" 0 5))))) = [exampleEntry "a" 1 5])
    by (vm_compute; reflexivity).
  split; [vm_compute; reflexivity|]. split; [exact H1|]. split.
  - unfold Subscribe_restores_table. cbn [length]. rewrite H1. discriminate.
  - split; [exact H2|]. unfold Subscribe_restores_table. cbn [length]. rewrite H2.
    intros H. discriminate H.
Qed.

Lemma Subscribe_schedule_failure_rollback_witness :
  fst (IotMqtt_Subscribe noScheduleEnv [exampleSubscription "a" 1] 1 0 None true
         (subscribedWorld (exampleEntry "b" 0 5))) = IOT_MQTT_SCHEDULING_ERROR /\
  subscriptionList (connection (snd
    (IotMqtt_Subscribe noScheduleEnv [exampleSubscription "a" 1] 1 0 None true
       (subscribedWorld (exampleEntry "b" 0 5))))) = [exampleEntry "b" 0 5].
Proof.
  pose proof (Subscribe_schedule_failure_rollback noScheduleEnv [exampleSubscription "a" 1]
                1 0 None true (subscribedWorld (exampleEntry "b" 0 5)) examplePacket 7
                IOT_MQTT_SCHEDULING_ERROR) as H.
  cbv zeta in H.
  destruct H as (H1 & _ & _ & _ & H5);
    [reflexivity|reflexivity|reflexivity|reflexivity|reflexivity|reflexivity
    |discriminate|discriminate|].
  split; [exact H1|]. apply H5.
  - repeat constructor. discriminate.
  - repeat constructor.
Defined.

(** ** Keep-alive *)

Lemma adjustKeepAlive_range (E : Env) (aws : bool) (ks : Z) :
  0 <= ks < 2 ^ 16 -> 0 <= adjustKeepAlive E aws ks < 2 ^ 16.
Proof.
  intros Hk. unfold adjustKeepAlive.
  destruct aws; [|assumption].
  destruct (ks <? _); [apply Z.mod_pos_bound; lia|].
  destruct (ks >? _); [apply Z.mod_pos_bound; lia|].
  destruct (ks =? 0); [apply Z.mod_pos_bound; lia|assumption].
Qed.

Lemma destroyMqttConnection_keepAlive (E : Env) (w : World) :
  let d := connection (snd (_destroyMqttConnection E w)) in
  references d = references (connection w) - (if keepAliveMs (connection w) =? 0 then 0 else 1) /\
  keepAliveMs d = 0 /\
  (keepAliveMs (connection w) <> 0 -> pPingreqPacket d = None /\ pingreqPacketSize d = 0).
Proof.
  cbv zeta. unfold _destroyMqttConnection. run.
  destruct (keepAliveMs (connection w) =? 0) eqn:Hk; cbn [negb]; run.
  - apply Z.eqb_eq in Hk.
    repeat match goal with |- context [if ?b then _ else _] => destruct b end;
      cbn; (split; [lia|]); (split; [assumption|]); intros Hn; contradiction.
  - repeat match goal with |- context [if ?b then _ else _] => destruct b end;
      cbn; (split; [lia|]); (split; [reflexivity|]); intros _; split; reflexivity.
Qed.

(** Claim C9.  A successful [_createKeepAliveJob] (it is only called with an
    interval that is not 0) adds exactly one reference and leaves
    [keepAliveMs] other than 0; [_destroyMqttConnection] takes exactly one
    reference away and clears the keep-alive members iff [keepAliveMs] is
    not 0 on entry; a connection that [_createMqttConnection] returns has two
    references when it has a keep-alive and one when it has none. *)
Theorem keepAlive_holds_one_reference (E : Env) (ni : IotMqttNetworkInfo_t) (ks : Z)
    (w : World) :
  0 < ks < 2 ^ 16 ->
  (fst (_createKeepAliveJob E ni ks w) = true ->
     references (connection (snd (_createKeepAliveJob E ni ks w)))
     = references (connection w) + 1 /\
     keepAliveMs (connection (snd (_createKeepAliveJob E ni ks w))) <> 0) /\
  (let d := connection (snd (_destroyMqttConnection E w)) in
   references d
   = references (connection w) - (if keepAliveMs (connection w) =? 0 then 0 else 1) /\
   keepAliveMs d = 0 /\
   (keepAliveMs (connection w) <> 0 -> pPingreqPacket d = None /\ pingreqPacketSize d = 0)) /\
  (forall aws ks0, 0 <= ks0 < 2 ^ 16 ->
     fst (_createMqttConnection E aws ni ks0 w) = true ->
     let c := connection (snd (_createMqttConnection E aws ni ks0 w)) in
     (keepAliveMs c <> 0 -> references c = 2) /\ (keepAliveMs c = 0 -> references c = 1)).
Proof.
  intros Hk. split; [|split].
  - intros Hs. destruct (createKeepAliveJob_effect E ni ks w Hs) as [Hr Hm].
    split; [exact Hr|]. rewrite Hm. rewrite Z.mod_small by lia. lia.
  - apply destroyMqttConnection_keepAlive.
  - intros aws ks0 Hk0 Hs. cbv zeta.
    destruct (createMqttConnection_keepAlive E aws ni ks0 w Hs) as [Hm Hr].
    pose proof (adjustKeepAlive_range E aws ks0 Hk0) as Ha.
    rewrite Hm, Hr. rewrite Z.mod_small by lia.
    destruct (adjustKeepAlive E aws ks0 =? 0) eqn:Hz;
      [apply Z.eqb_eq in Hz | apply Z.eqb_neq in Hz]; split; intros H; lia.
Qed.

Lemma keepAlive_holds_one_reference_witness :
  references (connection (snd (_createKeepAliveJob exampleEnv exampleNetworkInfo 60 idleWorld)))
  = 2.
Proof.
  assert (H : 0 < 60 < 2 ^ 16) by lia.
  destruct (keepAlive_holds_one_reference exampleEnv exampleNetworkInfo 60 idleWorld H)
    as [Hc _].
  destruct (Hc eq_refl) as [Hr _]. exact Hr.
Defined.

(** Claim C1, as the code behaves.  With the limits of the AWS IoT service
    (a minimum above 0 and below the maximum), a keep-alive interval of 0 in
    AWS IoT MQTT mode is raised to the minimum, not to the maximum: the
    first comparison of the clamp catches 0, and the branch that would give
    the maximum is never reached.  The connection that is created keeps
    1000 times the minimum as [keepAliveMs]. *)
Theorem keepAlive_zero_becomes_minimum (E : Env) (ni : IotMqttNetworkInfo_t) (w : World) :
  0 < _AWS_IOT_MQTT_SERVER_MIN_KEEPALIVE E < _AWS_IOT_MQTT_SERVER_MAX_KEEPALIVE E ->
  _AWS_IOT_MQTT_SERVER_MAX_KEEPALIVE E < 2 ^ 16 ->
  adjustKeepAlive E true 0 = _AWS_IOT_MQTT_SERVER_MIN_KEEPALIVE E /\
  adjustKeepAlive E true 0 <> _AWS_IOT_MQTT_SERVER_MAX_KEEPALIVE E /\
  (fst (_createMqttConnection E true ni 0 w) = true ->
   keepAliveMs (connection (snd (_createMqttConnection E true ni 0 w)))
   = _AWS_IOT_MQTT_SERVER_MIN_KEEPALIVE E * 1000).
Proof.
  intros Hmin Hmax.
  assert (Ha : adjustKeepAlive E true 0 = _AWS_IOT_MQTT_SERVER_MIN_KEEPALIVE E).
  { unfold adjustKeepAlive.
    assert (Hlt : (0 <? _AWS_IOT_MQTT_SERVER_MIN_KEEPALIVE E) = true) by (apply Z.ltb_lt; lia).
    rewrite Hlt. apply Z.mod_small. lia. }
  split; [exact Ha|]. split; [rewrite Ha; lia|].
  intros Hs. destruct (createMqttConnection_keepAlive E true ni 0 w Hs) as [Hm _].
  rewrite Hm, Ha. apply Z.mod_small. lia.
Qed.

Lemma keepAlive_zero_becomes_minimum_witness :
  adjustKeepAlive exampleEnv true 0 = 30 /\
  keepAliveMs (connection (snd (_createMqttConnection exampleEnv true exampleNetworkInfo 0
                                  freshWorld))) = 30000.
Proof.
  assert (H1 : 0 < _AWS_IOT_MQTT_SERVER_MIN_KEEPALIVE exampleEnv
               < _AWS_IOT_MQTT_SERVER_MAX_KEEPALIVE exampleEnv) by (cbn; lia).
  assert (H2 : _AWS_IOT_MQTT_SERVER_MAX_KEEPALIVE exampleEnv < 2 ^ 16) by (cbn; lia).
  destruct (keepAlive_zero_becomes_minimum exampleEnv exampleNetworkInfo freshWorld H1 H2)
    as (Ha & _ & Hc).
  split; [exact Ha|]. apply Hc. reflexivity.
Defined.

(** ** Static memory *)

Lemma FindFree_loop_spec (n : nat) : forall (i : Z) (pInUse : list bool),
  0 <= i -> (Z.to_nat i + n <= length pInUse)%nat ->
  (exists k, FindFree_loop n i pInUse = Some (k, <[Z.to_nat k := true]> pInUse) /\
     i <= k < i + Z.of_nat n /\ pInUse !! Z.to_nat k = Some false /\
     (forall j, i <= j < k -> pInUse !! Z.to_nat j = Some true)) \/
  (FindFree_loop n i pInUse = Some (-1, pInUse) /\
     forall j, i <= j < i + Z.of_nat n -> pInUse !! Z.to_nat j = Some true).
Proof.
  induction n as [|n IH]; intros i l Hi Hlen.
  - right. split; [reflexivity|]. intros j Hj. lia.
  - simpl. destruct (l !! Z.to_nat i) as [[|]|] eqn:Hl.
    + assert (Hi1 : 0 <= i + 1) by lia.
      assert (Hlen1 : (Z.to_nat (i + 1) + n <= length l)%nat) by lia.
      destruct (IH (i + 1) l Hi1 Hlen1) as [(k & Hk & Hr & Hf & Hb)|[Hk Hb]].
      * left. exists k. split; [assumption|]. split; [lia|]. split; [assumption|].
        intros j Hj. destruct (decide (j = i)) as [->|Hne]; [assumption|]. apply Hb. lia.
      * right. split; [assumption|]. intros j Hj.
        destruct (decide (j = i)) as [->|Hne]; [assumption|]. apply Hb. lia.
    + left. exists i. split; [reflexivity|]. split; [lia|]. split; [assumption|].
      intros j Hj. lia.
    + apply lookup_ge_None in Hl. lia.
Qed.

(** Claim C10.  For an array with at least [limit] flags,
    [IotStaticMemory_FindFree] answers the smallest index below [limit] whose
    flag is false and sets that flag, leaving every other flag as it was;
    when every flag below [limit] is true it answers -1 and leaves the array
    as it was. *)
Theorem FindFree_first_free (pInUse : list bool) (limit : Z) :
  0 <= limit -> (Z.to_nat limit <= length pInUse)%nat ->
  (exists i,
     IotStaticMemory_FindFree pInUse limit = Some (i, <[Z.to_nat i := true]> pInUse) /\
     0 <= i < limit /\ pInUse !! Z.to_nat i = Some false /\
     (forall j, 0 <= j < i -> pInUse !! Z.to_nat j = Some true) /\
     (<[Z.to_nat i := true]> pInUse) !! Z.to_nat i = Some true /\
     (forall k, k <> Z.to_nat i -> (<[Z.to_nat i := true]> pInUse) !! k = pInUse !! k)) \/
  (IotStaticMemory_FindFree pInUse limit = Some (-1, pInUse) /\
   forall j, 0 <= j < limit -> pInUse !! Z.to_nat j = Some true).
Proof.
  intros Hl Hlen. unfold IotStaticMemory_FindFree.
  assert (H0 : 0 <= 0) by lia.
  assert (Hn : (Z.to_nat 0 + Z.to_nat limit <= length pInUse)%nat) by lia.
  destruct (FindFree_loop_spec (Z.to_nat limit) 0 pInUse H0 Hn)
    as [(k & Hk & Hr & Hf & Hb)|[Hk Hb]].
  - left. exists k. split; [exact Hk|]. split; [lia|]. split; [exact Hf|].
    split; [intros j Hj; apply Hb; lia|]. split.
    + apply list_lookup_insert_eq. apply lookup_lt_Some in Hf. exact Hf.
    + intros i Hi. apply list_lookup_insert_ne. auto.
  - right. split; [exact Hk|]. intros j Hj. apply Hb. lia.
Qed.

Lemma FindFree_first_free_witness :
  exists r, IotStaticMemory_FindFree [true; false; false] 3 = Some r /\
            (0 <= 3 /\ (Z.to_nat 3 <= length [true; false; false])%nat).
Proof.
  assert (H1 : 0 <= 3) by lia.
  assert (H2 : (Z.to_nat 3 <= length [true; false; false])%nat) by (cbn; lia).
  destruct (FindFree_first_free [true; false; false] 3 H1 H2)
    as [(i & Hi & _)|[Hn _]]; eexists; (split; [eassumption|split; assumption]).
Defined.

(** ** Instances *)


Lemma Connect_will_payload_limit_witness :
  IotMqtt_Connect exampleEnv (Some exampleNetworkInfo)
    (exampleConnect (Some (examplePublish 0 65536))) 1000 freshWorld
  = ((IOT_MQTT_BAD_PARAMETER, false), freshWorld) /\
  exists evs,
    trace (snd (IotMqtt_Connect exampleEnv (Some exampleNetworkInfo)
                  (exampleConnect (Some (examplePublish 0 65535))) 1000 freshWorld))
    = trace freshWorld ++ EvNetworkCreate :: evs.
Proof.
  split.
  - apply (Connect_will_payload_limit exampleEnv (Some exampleNetworkInfo)
             (exampleConnect (Some (examplePublish 0 65536))) 1000 freshWorld
             (examplePublish 0 65536) eq_refl).
    reflexivity.
  - apply (proj2 (Connect_will_payload_limit exampleEnv (Some exampleNetworkInfo)
             (exampleConnect (Some (examplePublish 0 65535))) 1000 freshWorld
             (examplePublish 0 65535) eq_refl) eq_refl exampleNetworkInfo eq_refl eq_refl eq_refl).
    intros Hc. discriminate Hc.
Defined.

Lemma Publish_qos0_notification_witness :
  IotMqtt_Publish exampleEnv (examplePublish 0 10) IOT_MQTT_FLAG_WAITABLE None true idleWorld
  = (IOT_MQTT_BAD_PARAMETER, idleWorld) /\
  callerReference (snd (IotMqtt_Publish exampleEnv (examplePublish 0 10) 0 None true idleWorld))
  = callerReference idleWorld.
Proof.
  split.
  - apply (proj1 (Publish_qos0_notification exampleEnv (examplePublish 0 10)
                    IOT_MQTT_FLAG_WAITABLE None idleWorld eq_refl)).
    right. discriminate.
  - apply (proj2 (Publish_qos0_notification exampleEnv (examplePublish 0 10) 0 None
                    idleWorld eq_refl) eq_refl eq_refl).
Defined.


(** ** Static memory: returning buffers *)

Lemma ReturnInUse_loop_spec (ptr pPool elementSize : Z) (pInUse : list bool) (n : nat) :
  forall i : Z,
  0 <= i -> (Z.to_nat i + n <= length pInUse)%nat ->
  (exists k, i <= k < i + Z.of_nat n /\ ptr = pPool + elementSize * k /\
     pInUse !! Z.to_nat k = Some true /\
     (forall j, i <= j < k -> ptr = pPool + elementSize * j ->
                pInUse !! Z.to_nat j = Some false) /\
     ReturnInUse_loop n i ptr pPool pInUse elementSize
     = Some (<[Z.to_nat k := false]> pInUse)) \/
  ((forall j, i <= j < i + Z.of_nat n -> ptr = pPool + elementSize * j ->
              pInUse !! Z.to_nat j = Some false) /\
   ReturnInUse_loop n i ptr pPool pInUse elementSize = Some pInUse).
Proof.
  induction n as [|n IH]; intros i Hi Hlen.
  - right. split; [intros j Hj; lia|reflexivity].
  - assert (Hi1 : 0 <= i + 1) by lia.
    assert (Hlen1 : (Z.to_nat (i + 1) + n <= length pInUse)%nat) by lia.
    specialize (IH (i + 1) Hi1 Hlen1).
    cbn [ReturnInUse_loop].
    destruct (Z.eqb_spec (pPool + elementSize * i) ptr) as [Heq|Hne].
    + destruct (pInUse !! Z.to_nat i) as [[|]|] eqn:Hl.
      * left. exists i. split; [lia|]. split; [auto|]. split; [exact Hl|].
        split; [intros j Hj; lia|reflexivity].
      * destruct IH as [(k & Hk & Hp & Ht & Hb & Hr)|[Hb Hr]].
        -- left. exists k. split; [lia|]. split; [exact Hp|]. split; [exact Ht|].
           split; [|exact Hr]. intros j Hj Hpj.
           destruct (decide (j = i)) as [->|Hji]; [exact Hl|]. apply Hb; [lia|exact Hpj].
        -- right. split; [|exact Hr]. intros j Hj Hpj.
           destruct (decide (j = i)) as [->|Hji]; [exact Hl|]. apply Hb; [lia|exact Hpj].
      * apply lookup_ge_None in Hl. lia.
    + destruct IH as [(k & Hk & Hp & Ht & Hb & Hr)|[Hb Hr]].
      * left. exists k. split; [lia|]. split; [exact Hp|]. split; [exact Ht|].
        split; [|exact Hr]. intros j Hj Hpj.
        destruct (decide (j = i)) as [->|Hji]; [congruence|]. apply Hb; [lia|exact Hpj].
      * right. split; [|exact Hr]. intros j Hj Hpj.
        destruct (decide (j = i)) as [->|Hji]; [congruence|]. apply Hb; [lia|exact Hpj].
Qed.

Lemma ReturnInUse_loop_foreign (ptr pPool elementSize : Z) (pInUse : list bool) (n : nat) :
  forall i : Z,
  (forall j, i <= j < i + Z.of_nat n -> ptr <> pPool + elementSize * j) ->
  ReturnInUse_loop n i ptr pPool pInUse elementSize = Some pInUse.
Proof.
  induction n as [|n IH]; intros i Hf; [reflexivity|].
  cbn [ReturnInUse_loop].
  destruct (Z.eqb_spec (pPool + elementSize * i) ptr) as [Heq|Hne].
  - exfalso. apply (Hf i); [lia|auto].
  - apply IH. intros j Hj. apply Hf. lia.
Qed.

Lemma ReturnInUse_slot (pPool elementSize limit i : Z) (pInUse : list bool) (m : Memory) :
  0 < elementSize -> 0 <= i < limit -> (Z.to_nat limit <= length pInUse)%nat ->
  IotStaticMemory_ReturnInUse (pPool + elementSize * i) pPool pInUse limit elementSize m
  = Some (<[Z.to_nat i := false]> pInUse, memset m (pPool + elementSize * i) x00 elementSize).
Proof.
  intros Hs Hi Hlen. unfold IotStaticMemory_ReturnInUse.
  assert (H0 : 0 <= 0) by lia.
  assert (Hn : (Z.to_nat 0 + Z.to_nat limit <= length pInUse)%nat) by lia.
  destruct (ReturnInUse_loop_spec (pPool + elementSize * i) pPool elementSize pInUse
              (Z.to_nat limit) 0 H0 Hn) as [(k & Hk & Hp & Ht & Hb & Hr)|[Hb Hr]].
  - assert (k = i) by nia. subst k. rewrite Hr. reflexivity.
  - rewrite Hr. rewrite list_insert_id; [reflexivity|]. apply Hb; [lia|reflexivity].
Qed.

(** Property X1.  Returning the address of element [i] of a pool of elements
    of a size above 0 leaves flag [i] clear and every other flag as it was,
    whether or not the element was in use (returning a free element changes
    no flag).  The bytes of the element are 0 afterwards and every other
    byte is as it was. *)
Theorem ReturnInUse_releases_slot (pPool elementSize limit i : Z) (pInUse : list bool)
    (m : Memory) :
  0 < elementSize -> 0 <= i < limit -> (Z.to_nat limit <= length pInUse)%nat ->
  let ptr := pPool + elementSize * i in
  exists pInUse' m',
    IotStaticMemory_ReturnInUse ptr pPool pInUse limit elementSize m = Some (pInUse', m') /\
    pInUse' !! Z.to_nat i = Some false /\
    (forall k, k <> Z.to_nat i -> pInUse' !! k = pInUse !! k) /\
    (forall a, m' a = if (ptr <=? a) && (a <? ptr + elementSize) then x00 else m a).
Proof.
  intros Hs Hi Hlen. cbv zeta. eexists _, _.
  split; [apply ReturnInUse_slot; assumption|]. split; [|split].
  - apply list_lookup_insert_eq. lia.
  - intros k Hk. apply list_lookup_insert_ne. auto.
  - intros a. reflexivity.
Qed.

Lemma ReturnInUse_releases_slot_witness :
  exists pInUse' m',
    IotStaticMemory_ReturnInUse (4096 + 1024 * 1) 4096 [true; true; false] 3 1024
      (fun _ => x01) = Some (pInUse', m') /\
    pInUse' !! Z.to_nat 1 = Some false.
Proof.
  assert (H1 : 0 < 1024) by lia.
  assert (H2 : 0 <= 1 < 3) by lia.
  assert (H3 : (Z.to_nat 3 <= length [true; true; false])%nat) by (cbn; lia).
  destruct (ReturnInUse_releases_slot 4096 1024 3 1 [true; true; false] (fun _ => x01)
              H1 H2 H3) as (l & m & Hr & Hf & _).
  exists l, m. split; [exact Hr|exact Hf].
Defined.

(** Property X2.  A pointer that is not the address of one of the first
    [limit] elements (a pointer into another pool, or into the middle of an
    element) releases nothing; its bytes are cleared all the same, since the
    search comes after the [memset]. *)
Theorem ReturnInUse_foreign_pointer (ptr pPool elementSize limit : Z) (pInUse : list bool)
    (m : Memory) :
  (forall j, 0 <= j < limit -> ptr <> pPool + elementSize * j) ->
  IotStaticMemory_ReturnInUse ptr pPool pInUse limit elementSize m
  = Some (pInUse, memset m ptr x00 elementSize).
Proof.
  intros Hf. unfold IotStaticMemory_ReturnInUse.
  rewrite ReturnInUse_loop_foreign; [reflexivity|]. intros j Hj. apply Hf. lia.
Qed.

Lemma ReturnInUse_foreign_pointer_witness :
  fst <$> IotStaticMemory_ReturnInUse 4100 4096 [true; true] 2 1024 (fun _ => x01)
  = Some [true; true].
Proof.
  rewrite (ReturnInUse_foreign_pointer 4100 4096 1024 2 [true; true] (fun _ => x01));
    [reflexivity|]. intros j Hj. lia.
Defined.

(** Property X3.  Round trip: the index that [IotStaticMemory_FindFree]
    hands out, returned through [IotStaticMemory_ReturnInUse], leaves the
    flags as they were before the two calls. *)
Theorem FindFree_ReturnInUse_round_trip (pPool elementSize limit i : Z)
    (pInUse pInUse' : list bool) (m : Memory) :
  0 < elementSize -> 0 <= limit -> (Z.to_nat limit <= length pInUse)%nat ->
  IotStaticMemory_FindFree pInUse limit = Some (i, pInUse') -> i <> -1 ->
  IotStaticMemory_ReturnInUse (pPool + elementSize * i) pPool pInUse' limit elementSize m
  = Some (pInUse, memset m (pPool + elementSize * i) x00 elementSize).
Proof.
  intros Hs Hl Hlen Hf Hi. unfold IotStaticMemory_FindFree in Hf.
  assert (H0 : 0 <= 0) by lia.
  assert (Hn : (Z.to_nat 0 + Z.to_nat limit <= length pInUse)%nat) by lia.
  destruct (FindFree_loop_spec (Z.to_nat limit) 0 pInUse H0 Hn)
    as [(k & Hk & Hr & Hfree & Hb)|[Hk Hb]]; rewrite Hk in Hf; inversion Hf; subst; [|lia].
  rewrite ReturnInUse_slot; [|lia|lia|rewrite length_insert; lia].
  rewrite list_insert_insert_eq. rewrite list_insert_id; [reflexivity|exact Hfree].
Qed.

Lemma FindFree_ReturnInUse_round_trip_witness :
  fst <$> IotStaticMemory_ReturnInUse (4096 + 1024 * 1) 4096 [true; true; false] 3 1024
            (fun _ => x01)
  = Some [true; false; false].
Proof.
  rewrite (FindFree_ReturnInUse_round_trip 4096 1024 3 1 [true; false; false]
             [true; true; false] (fun _ => x01));
    [reflexivity|lia|lia|cbn; lia|reflexivity|lia].
Defined.

(** ** Static memory: message buffers *)

Lemma MallocMessageBuffer_cases (cfg : MessageBufferConfig) (size : Z) (s : MessageBuffers) :
  messageBuffersDeclared cfg s ->
  (Iot_MallocMessageBuffer cfg size s = Some (None, s) /\
   (IOT_MESSAGE_BUFFER_SIZE cfg < size \/
    forall j, 0 <= j < IOT_MESSAGE_BUFFERS cfg ->
              _pInUseMessageBuffers s !! Z.to_nat j = Some true)) \/
  (exists i,
     size <= IOT_MESSAGE_BUFFER_SIZE cfg /\ 0 <= i < IOT_MESSAGE_BUFFERS cfg /\
     _pInUseMessageBuffers s !! Z.to_nat i = Some false /\
     (forall j, 0 <= j < i -> _pInUseMessageBuffers s !! Z.to_nat j = Some true) /\
     Iot_MallocMessageBuffer cfg size s
     = Some (Some (messageBuffer cfg i),
             {| _pInUseMessageBuffers := <[Z.to_nat i := true]> (_pInUseMessageBuffers s);
                messageMemory := messageMemory s |})).
Proof.
  intros (Hb & Hs & Hlen). unfold Iot_MallocMessageBuffer, IotStaticMemory_FindFree.
  destruct (Z.leb_spec size (IOT_MESSAGE_BUFFER_SIZE cfg)) as [Hle|Hgt].
  - assert (H0 : 0 <= 0) by lia.
    assert (Hn : (Z.to_nat 0 + Z.to_nat (IOT_MESSAGE_BUFFERS cfg)
                  <= length (_pInUseMessageBuffers s))%nat) by lia.
    destruct (FindFree_loop_spec (Z.to_nat (IOT_MESSAGE_BUFFERS cfg)) 0
                (_pInUseMessageBuffers s) H0 Hn)
      as [(k & Hk & Hr & Hfree & Hbelow)|[Hk Hall]]; rewrite Hk.
    + right. exists k. split; [exact Hle|]. split; [lia|]. split; [exact Hfree|].
      split; [intros j Hj; apply Hbelow; lia|].
      destruct (Z.eqb_spec k (-1)) as [Hm|_]; [lia|]. unfold messageBuffer. reflexivity.
    + left. cbn. split; [destruct s; reflexivity|]. right. intros j Hj. apply Hall. lia.
  - left. split; [reflexivity|]. left. exact Hgt.
Qed.

(** Property X4.  [Iot_MallocMessageBuffer] answers [NULL] exactly when the
    size is above the buffer size or every buffer is in use, and then
    changes nothing.  Otherwise it hands out the lowest free buffer: it sets
    the flag of that buffer, no other flag, and writes no byte of the
    buffers. *)
Theorem MallocMessageBuffer_result (cfg : MessageBufferConfig) (size : Z) (s : MessageBuffers) :
  messageBuffersDeclared cfg s ->
  exists r s',
    Iot_MallocMessageBuffer cfg size s = Some (r, s') /\
    messageBuffersDeclared cfg s' /\
    messageMemory s' = messageMemory s /\
    (r = None <->
     IOT_MESSAGE_BUFFER_SIZE cfg < size \/
     forall j, 0 <= j < IOT_MESSAGE_BUFFERS cfg ->
               _pInUseMessageBuffers s !! Z.to_nat j = Some true) /\
    (r = None -> s' = s) /\
    (forall p, r = Some p ->
       exists i, 0 <= i < IOT_MESSAGE_BUFFERS cfg /\ p = messageBuffer cfg i /\
         _pInUseMessageBuffers s !! Z.to_nat i = Some false /\
         (forall j, 0 <= j < i -> _pInUseMessageBuffers s !! Z.to_nat j = Some true) /\
         _pInUseMessageBuffers s' = <[Z.to_nat i := true]> (_pInUseMessageBuffers s)).
Proof.
  intros Hd.
  destruct (MallocMessageBuffer_cases cfg size s Hd)
    as [[Hm Hwhy]|(i & Hle & Hi & Hfree & Hbelow & Hm)]; rewrite Hm.
  - exists None, s. split; [reflexivity|]. split; [exact Hd|]. split; [reflexivity|].
    split; [tauto|]. split; [reflexivity|]. intros p Hp. discriminate.
  - eexists _, _. split; [reflexivity|]. cbn [_pInUseMessageBuffers messageMemory].
    split; [|split; [reflexivity|split; [|split]]].
    + destruct Hd as (Hb & Hs & Hlen). repeat split; try assumption.
      cbn. rewrite length_insert. exact Hlen.
    + split; [discriminate|]. intros [Hgt|Hall]; [lia|].
      specialize (Hall i Hi). congruence.
    + discriminate.
    + intros p Hp. inversion Hp; subst p. exists i. auto.
Qed.

Lemma MallocMessageBuffer_result_witness :
  exists r s',
    Iot_MallocMessageBuffer exampleBuffers 100 (exampleBuffersState [true; false; false])
    = Some (r, s').
Proof.
  assert (Hd : messageBuffersDeclared exampleBuffers (exampleBuffersState [true; false; false]))
    by (repeat split; cbn; lia).
  destruct (MallocMessageBuffer_result exampleBuffers 100 _ Hd) as (r & s' & Hm & _).
  exists r, s'. exact Hm.
Defined.

(** Property X5.  Two buffers handed out one after the other, with no buffer
    returned in between, do not overlap. *)
Theorem MallocMessageBuffer_disjoint (cfg : MessageBufferConfig) (size1 size2 p1 p2 : Z)
    (s s1 s2 : MessageBuffers) :
  messageBuffersDeclared cfg s ->
  Iot_MallocMessageBuffer cfg size1 s = Some (Some p1, s1) ->
  Iot_MallocMessageBuffer cfg size2 s1 = Some (Some p2, s2) ->
  p1 + IOT_MESSAGE_BUFFER_SIZE cfg <= p2 \/ p2 + IOT_MESSAGE_BUFFER_SIZE cfg <= p1.
Proof.
  intros Hd H1 H2.
  destruct (MallocMessageBuffer_cases cfg size1 s Hd)
    as [[Hm _]|(i & _ & Hi & Hfree & _ & Hm)]; rewrite Hm in H1; [discriminate|].
  inversion H1; subst p1 s1; clear H1.
  assert (Hd1 : messageBuffersDeclared cfg
                  {| _pInUseMessageBuffers := <[Z.to_nat i := true]> (_pInUseMessageBuffers s);
                     messageMemory := messageMemory s |}).
  { destruct Hd as (Hb & Hs & Hlen). repeat split; try assumption.
    cbn. rewrite length_insert. exact Hlen. }
  destruct (MallocMessageBuffer_cases cfg size2 _ Hd1)
    as [[Hm2 _]|(k & _ & Hk & Hfree2 & _ & Hm2)]; rewrite Hm2 in H2; [discriminate|].
  inversion H2; subst p2 s2; clear H2. cbn [_pInUseMessageBuffers] in Hfree2.
  assert (Hne : k <> i).
  { intros ->. rewrite list_lookup_insert_eq in Hfree2; [discriminate|].
    apply lookup_lt_Some in Hfree. exact Hfree. }
  destruct Hd as (_ & Hs & _). unfold messageBuffer. nia.
Qed.

Lemma MallocMessageBuffer_disjoint_witness :
  4096 + 1024 <= 5120 \/ 5120 + 1024 <= 4096.
Proof.
  apply (MallocMessageBuffer_disjoint exampleBuffers 100 200 4096 5120
           (exampleBuffersState [false; false; false])
           (exampleBuffersState [true; false; false])
           (exampleBuffersState [true; true; false]));
    [repeat split; cbn; lia|reflexivity|reflexivity].
Defined.

(** Property X6.  Round trip: a buffer that [Iot_MallocMessageBuffer] handed
    out, given to [Iot_FreeMessageBuffer], leaves the in-use flags as they
    were before the two calls; the bytes of that buffer are 0 and every
    other byte is as it was. *)
Theorem MallocMessageBuffer_Free_round_trip (cfg : MessageBufferConfig) (size p : Z)
    (s s' : MessageBuffers) :
  messageBuffersDeclared cfg s ->
  Iot_MallocMessageBuffer cfg size s = Some (Some p, s') ->
  exists s'',
    Iot_FreeMessageBuffer cfg p s' = Some s'' /\
    _pInUseMessageBuffers s'' = _pInUseMessageBuffers s /\
    forall a, messageMemory s'' a
              = if (p <=? a) && (a <? p + IOT_MESSAGE_BUFFER_SIZE cfg)
                then x00 else messageMemory s a.
Proof.
  intros Hd Hm.
  destruct (MallocMessageBuffer_cases cfg size s Hd)
    as [[Hn _]|(i & _ & Hi & Hfree & _ & Hs)]; rewrite Hm in *; [discriminate|].
  inversion Hs; subst p s'; clear Hs. destruct Hd as (Hb & Hsz & Hlen).
  unfold Iot_FreeMessageBuffer, messageBuffer. cbn [_pInUseMessageBuffers messageMemory].
  replace (_pMessageBuffers cfg + i * IOT_MESSAGE_BUFFER_SIZE cfg)
    with (_pMessageBuffers cfg + IOT_MESSAGE_BUFFER_SIZE cfg * i) by lia.
  rewrite ReturnInUse_slot; [|lia|lia|rewrite length_insert; lia].
  eexists. split; [reflexivity|]. cbn [_pInUseMessageBuffers messageMemory]. split.
  - rewrite list_insert_insert_eq. apply list_insert_id. exact Hfree.
  - intros a. reflexivity.
Qed.

Lemma MallocMessageBuffer_Free_round_trip_witness :
  exists s'',
    Iot_FreeMessageBuffer exampleBuffers 5120 (exampleBuffersState [true; true; false])
    = Some s'' /\
    _pInUseMessageBuffers s'' = [true; false; false].
Proof.
  assert (Hd : messageBuffersDeclared exampleBuffers (exampleBuffersState [true; false; false]))
    by (repeat split; cbn; lia).
  destruct (MallocMessageBuffer_Free_round_trip exampleBuffers 100 5120
              (exampleBuffersState [true; false; false])
              (exampleBuffersState [true; true; false]) Hd eq_refl)
    as (s'' & Hf & Hflags & _).
  exists s''. split; [exact Hf|exact Hflags].
Defined.

(** ** Lifetime of the connection object *)

Lemma RemoveAllMatches_all {A : Type} (isMatch : A -> A * bool) (freeElement : A -> bool)
    (l : list A) :
  (forall x, snd (isMatch x) = true) ->
  IotListDouble_RemoveAllMatches isMatch freeElement l = [].
Proof.
  intros Hall. induction l as [|x l IH]; [reflexivity|].
  cbn [IotListDouble_RemoveAllMatches]. specialize (Hall x).
  destruct (isMatch x) as [x' m]. cbn in Hall. subst m. exact IH.
Qed.

Lemma destroyMqttConnection_trace (E : Env) (w : World) :
  trace (snd (_destroyMqttConnection E w))
  = trace w ++ destroyMqttConnection_events (connection w) ++ [EvFreeConnection].
Proof.
  unfold _destroyMqttConnection, destroyMqttConnection_events, asserted. run.
  destruct (keepAliveMs (connection w) =? 0) eqn:Hk; cbn [negb]; run;
    cbn [references set_references keepAliveMs set_keepAliveMs set_pPingreqPacket
         set_pingreqPacketSize pPingreqPacket pingreqPacketSize ownNetworkConnection
         set_subscriptionList];
    rewrite ?Hk, ?Z.sub_0_r; cbn [Z.eqb];
    rewrite ?(bool_decide_eq_true_2 (@None (list byte) = None)) by reflexivity;
    repeat (match goal with |- context [if ?b then _ else _] => destruct b eqn:? end; run);
    rewrite <- ?app_assoc;
    first [ reflexivity
          | exfalso;
            repeat match goal with
                   | H : bool_decide _ = true |- _ => apply bool_decide_eq_true in H
                   | H : bool_decide _ = false |- _ => apply bool_decide_eq_false in H
                   end; contradiction ].
Qed.

Lemma destroyMqttConnection_state (E : Env) (w : World) :
  let w' := snd (_destroyMqttConnection E w) in
  connectionAllocated w' = false /\ subscriptionList (connection w') = [] /\
  operations w' = operations w /\ callerReference w' = callerReference w /\
  disconnected (connection w') = disconnected (connection w).
Proof.
  cbv zeta. unfold _destroyMqttConnection. run.
  destruct (keepAliveMs (connection w) =? 0) eqn:Hk; cbn [negb]; run;
    repeat (match goal with |- context [if ?b then _ else _] => destruct b eqn:? end; run);
    cbn [connection subscriptionList set_subscriptionList disconnected set_references
         set_pingreqPacketSize set_pPingreqPacket set_keepAliveMs];
    rewrite ?RemoveAllMatches_all by reflexivity; repeat split; reflexivity.
Qed.

(** Property X9.  [_destroyMqttConnection] frees the connection object as
    its last step, after it destroyed both mutexes and emptied the
    subscription list.  It destroys the network connection iff the
    connection owns it, releases the PINGREQ packet iff a keep-alive is set
    up, never closes the network connection and touches no operation. *)
Theorem destroyMqttConnection_effect (E : Env) (w : World) :
  let w' := snd (_destroyMqttConnection E w) in
  connectionAllocated w' = false /\
  subscriptionList (connection w') = [] /\
  operations w' = operations w /\
  exists evs,
    trace w' = trace w ++ evs ++ [EvFreeConnection] /\
    EvMutexDestroy true ∈ evs /\ EvMutexDestroy false ∈ evs /\
    (EvNetworkDestroy ∈ evs <-> ownNetworkConnection (connection w) = true) /\
    (EvFreePacket ∈ evs <-> keepAliveMs (connection w) <> 0) /\
    (EvNetworkClose ∉ evs) /\ (EvFreeConnection ∉ evs).
Proof.
  cbv zeta. destruct (destroyMqttConnection_state E w) as (Ha & Hs & Ho & _).
  split; [exact Ha|]. split; [exact Hs|]. split; [exact Ho|].
  exists (destroyMqttConnection_events (connection w)).
  split; [apply destroyMqttConnection_trace|].
  unfold destroyMqttConnection_events, asserted.
  destruct (keepAliveMs (connection w) =? 0) eqn:Hk;
    [apply Z.eqb_eq in Hk | apply Z.eqb_neq in Hk]; cbn [negb];
    repeat match goal with |- context [if ?b then _ else _] => destruct b eqn:? end;
    rewrite ?elem_of_app, ?elem_of_cons, ?elem_of_nil;
    repeat split; intros; try tauto; try congruence;
    repeat match goal with H : _ \/ _ |- _ => destruct H end;
    try discriminate; try contradiction; try congruence.
  all: intros H; repeat match goal with H : _ \/ _ |- _ => destruct H end;
    first [discriminate | contradiction].
Qed.

Lemma set_references_same (c : _mqttConnection_t) (n : Z) :
  n = references c -> set_references n c = c.
Proof. intros ->. destruct c. reflexivity. Qed.

Lemma setConnection_same (w : World) (c : _mqttConnection_t) :
  c = connection w -> setConnection c w = w.
Proof. intros ->. destruct w. reflexivity. Qed.

(** Property X11.  Releasing a reference that is not the last one changes
    the count and nothing else, and makes no call.  Releasing the last
    reference destroys the connection: the subscription list is emptied, the
    network connection is destroyed iff the connection owns it, and the
    object is freed. *)
Theorem DecrementConnectionReferences_last_reference (E : Env) (w : World) :
  let c := connection w in
  let w' := snd (_IotMqtt_DecrementConnectionReferences E w) in
  (1 < references c -> w' = setConnection (set_references (references c - 1) c) w) /\
  (references c = 1 ->
   connectionAllocated w' = false /\ subscriptionList (connection w') = [] /\
   exists evs, trace w' = trace w ++ evs ++ [EvFreeConnection] /\
               (EvNetworkDestroy ∈ evs <-> ownNetworkConnection c = true)).
Proof.
  cbv zeta. unfold _IotMqtt_DecrementConnectionReferences. run.
  cbn [references set_references]. split.
  - intros Hr.
    assert (H0 : (0 <=? references (connection w) - 1) = true) by (apply Z.leb_le; lia).
    assert (Hz : (references (connection w) - 1 =? 0) = false) by (apply Z.eqb_neq; lia).
    rewrite H0, Hz. reflexivity.
  - intros Hr. rewrite Hr. change (1 - 1) with 0. cbn [Z.leb Z.compare Z.eqb].
    match goal with |- context [_destroyMqttConnection E ?w0] =>
      pose proof (destroyMqttConnection_state E w0) as (Ha & Hs & _);
      pose proof (destroyMqttConnection_trace E w0) as Ht
    end.
    split; [exact Ha|]. split; [exact Hs|].
    eexists. split; [exact Ht|].
    unfold destroyMqttConnection_events, asserted.
    cbn [connection setConnection ownNetworkConnection set_references].
    repeat match goal with |- context [if ?b then _ else _] => destruct b eqn:? end;
      rewrite ?elem_of_app, ?elem_of_cons, ?elem_of_nil;
      split; intros H; try reflexivity; try tauto;
      repeat match goal with H : _ \/ _ |- _ => destruct H end;
      first [discriminate | contradiction].
Qed.

(** Property X10.  On a connection that is not disconnected and holds a
    reference, taking a reference and releasing it again leaves the world
    exactly as it was.  A disconnected connection gives no reference: the
    count stays, and only a warning is logged. *)
Theorem Increment_Decrement_round_trip (E : Env) (w : World) :
  0 < references (connection w) ->
  let r := _IotMqtt_IncrementConnectionReferences w in
  fst r = negb (disconnected (connection w)) /\
  (disconnected (connection w) = false ->
   snd (_IotMqtt_DecrementConnectionReferences E (snd r)) = w) /\
  (disconnected (connection w) = true ->
   connection (snd r) = connection w /\ trace (snd r) = trace w /\
   warnings (snd r) = warnings w ++ ["Attempt to use closed connection."]).
Proof.
  intros Hr. cbv zeta.
  unfold _IotMqtt_IncrementConnectionReferences, _IotMqtt_DecrementConnectionReferences. run.
  assert (H0 : (0 <=? references (connection w)) = true) by (apply Z.leb_le; lia).
  rewrite H0.
  destruct (disconnected (connection w)) eqn:Hd; cbn [negb]; run.
  - split; [reflexivity|]. split; [discriminate|]. intros _. repeat split.
  - split; [reflexivity|]. split; [|discriminate]. intros _.
    cbn [references set_references].
    replace (references (connection w) + 1 - 1) with (references (connection w)) by lia.
    rewrite H0.
    assert (Hz : (references (connection w) =? 0) = false) by (apply Z.eqb_neq; lia).
    rewrite Hz. cbn [snd].
    destruct w as [c a o r t wn]. cbn [connection]. unfold setConnection. cbn.
    f_equal. destruct c. reflexivity.
Qed.

Lemma Increment_Decrement_round_trip_witness :
  snd (_IotMqtt_DecrementConnectionReferences exampleEnv
         (snd (_IotMqtt_IncrementConnectionReferences idleWorld))) = idleWorld.
Proof.
  assert (H : 0 < references (connection idleWorld)) by (cbn; lia).
  destruct (Increment_Decrement_round_trip exampleEnv idleWorld H) as (_ & Hl & _).
  apply Hl. reflexivity.
Defined.

(** ** Creation of the connection object *)

Ltac split_history H :=
  repeat match type of H with
         | _ :: _ = ?pre ++ _ :: _ =>
             destruct pre; cbn [app] in H;
             [ injection H as H ?; subst | injection H as ? H; subst ]
         | [] = ?pre ++ _ :: _ => destruct pre; discriminate H
         | _ = _ => try discriminate H
         end.

Ltac member :=
  intros; rewrite ?elem_of_app, ?elem_of_cons, ?elem_of_nil;
  solve [intuition (try discriminate; try congruence)].

Lemma createMqttConnection_run (E : Env) (aws : bool) (ni : IotMqttNetworkInfo_t) (ks : Z)
    (w : World) :
  let r := _createMqttConnection E aws ni ks w in
  let c' := connection (snd r) in
  exists evs, trace (snd r) = trace w ++ evs /\
  operations (snd r) = operations w /\ callerReference (snd r) = callerReference w /\
  (fst r = true ->
   connectionAllocated (snd r) = true /\
   c_awsIotMqttMode c' = aws /\ disconnected c' = false /\ ownNetworkConnection c' = false /\
   subscriptionList c' = [] /\ pendingProcessing c' = [] /\ pendingResponse c' = [] /\
   nextKeepAliveMs c' = keepAliveMs c' /\
   (EvFreeConnection ∉ evs) /\ forall b, EvMutexDestroy b ∉ evs) /\
  (fst r = false ->
   (IotMqtt_MallocConnection E (trace w) = false -> snd r = emit EvMallocConnection w) /\
   (IotMqtt_MallocConnection E (trace w) = true ->
    connectionAllocated (snd r) = false /\ last evs = Some EvFreeConnection /\
    forall b pre post, evs = pre ++ EvMutexCreate b :: post ->
      (EvMutexDestroy b ∈ post <-> IotMutex_Create E (trace w ++ pre) = true))).
Proof.
  cbv zeta. unfold _createMqttConnection, _createMqttConnection_cleanup, _createKeepAliveJob.
  run.
  destruct (IotMqtt_MallocConnection E (trace w)) eqn:Hm; cbn [negb]; run.
  2:{ eexists. split; [reflexivity|]. split; [reflexivity|]. split; [reflexivity|].
      split; [discriminate|]. intros _. split; [reflexivity|discriminate]. }
  destruct (IotMutex_Create E (trace w ++ [EvMallocConnection])) eqn:H1; cbn [negb]; run;
    rewrite ?H1; cbn [negb]; run.
  2:{ eexists. split; [rewrite <- ?app_assoc; reflexivity|].
      split; [reflexivity|]. split; [reflexivity|].
      split; [discriminate|]. intros _. split; [discriminate|]. intros _.
      split; [reflexivity|]. split; [reflexivity|].
      intros b pre post Hs. cbn [app] in Hs. split_history Hs.
      rewrite H1. member. }
  destruct (IotMutex_Create E ((trace w ++ [EvMallocConnection]) ++ [EvMutexCreate true])) eqn:H2;
    cbn [negb]; run; rewrite ?H2; cbn [negb]; run.
  2:{ eexists. split; [rewrite <- ?app_assoc; reflexivity|].
      split; [reflexivity|]. split; [reflexivity|].
      split; [discriminate|]. intros _. split; [discriminate|]. intros _.
      split; [reflexivity|]. split; [reflexivity|].
      rewrite <- ?app_assoc in H2. cbn [app] in H2.
      intros b pre post Hs. cbn [app] in Hs. split_history Hs;
        rewrite ?H1, ?H2; member. }
  rewrite <- ?app_assoc in H2. cbn [app] in H2.
  destruct (adjustKeepAlive E aws ks =? 0) eqn:Hk; cbn [negb]; run.
  { eexists. split; [rewrite <- ?app_assoc; reflexivity|].
    split; [reflexivity|]. split; [reflexivity|].
    split; [|discriminate]. intros _. cbn.
    repeat split; try reflexivity; member. }
  match goal with |- context [chooseSerializer E ?a ?b ?c ?h] =>
    destruct (chooseSerializer E a b c h) as [serializeStatus packet] eqn:Hser end.
  run.
  destruct (bool_decide (serializeStatus <> IOT_MQTT_SUCCESS)) eqn:Hst; run; cbn [negb]; run.
  { eexists. split; [rewrite <- ?app_assoc; reflexivity|].
    split; [reflexivity|]. split; [reflexivity|].
    split; [discriminate|]. intros _. split; [discriminate|]. intros _.
    split; [reflexivity|]. split; [reflexivity|].
    intros b pre post Hs. cbn [app] in Hs. split_history Hs;
      rewrite ?H1, ?H2; member. }
  destruct (bool_decide (IotTaskPool_CreateJob E _ = IOT_TASKPOOL_SUCCESS)); run; cbn [negb]; run.
  all: eexists; (split; [rewrite <- ?app_assoc; reflexivity|]);
    (split; [reflexivity|]); (split; [reflexivity|]);
    (split; [|discriminate]); intros _; cbn;
    repeat split; try reflexivity; member.
Qed.

(** Property X7.  [_createMqttConnection] gives all or nothing.  When it
    answers a connection, the object is allocated, in the mode that was
    asked for, not disconnected, with empty subscription and operation
    lists, and nothing was released.  When it answers [NULL] after the
    allocation succeeded, the object is freed as the last step and each
    mutex whose creation succeeded is destroyed, while no mutex whose
    creation failed is.  When the allocation itself fails, nothing but that
    call happens. *)
Theorem createMqttConnection_all_or_nothing (E : Env) (aws : bool)
    (ni : IotMqttNetworkInfo_t) (ks : Z) (w : World) :
  let r := _createMqttConnection E aws ni ks w in
  let c' := connection (snd r) in
  exists evs, trace (snd r) = trace w ++ evs /\
  (fst r = true ->
   connectionAllocated (snd r) = true /\
   c_awsIotMqttMode c' = aws /\ disconnected c' = false /\
   subscriptionList c' = [] /\ pendingProcessing c' = [] /\ pendingResponse c' = [] /\
   (EvFreeConnection ∉ evs) /\ forall b, EvMutexDestroy b ∉ evs) /\
  (fst r = false ->
   (IotMqtt_MallocConnection E (trace w) = false -> snd r = emit EvMallocConnection w) /\
   (IotMqtt_MallocConnection E (trace w) = true ->
    connectionAllocated (snd r) = false /\ last evs = Some EvFreeConnection /\
    forall b pre post, evs = pre ++ EvMutexCreate b :: post ->
      (EvMutexDestroy b ∈ post <-> IotMutex_Create E (trace w ++ pre) = true))).
Proof.
  cbv zeta. destruct (createMqttConnection_run E aws ni ks w) as (evs & Ht & _ & _ & Hs & Hf).
  exists evs. split; [exact Ht|]. split; [|exact Hf].
  intros Hr. destruct (Hs Hr) as (H1 & H2 & H3 & _ & H4 & H5 & H6 & _ & H7 & H8).
  repeat split; assumption.
Qed.

(** Property X8.  In AWS IoT MQTT mode, with service limits [0 < MIN <= MAX
    < 2^16], the keep-alive interval that [_createMqttConnection] uses is
    within the limits whatever the caller asked for, and is the interval of
    the caller when that was within the limits; outside AWS IoT MQTT mode it
    is the interval of the caller.  A connection created in AWS IoT MQTT
    mode thus always has a keep-alive: its period in milliseconds is 1000
    times that interval, the next period equals it, and the keep-alive holds
    the second reference. *)
Theorem createMqttConnection_keepAlive_limits (E : Env) (ni : IotMqttNetworkInfo_t)
    (ks : Z) (w : World) :
  0 < _AWS_IOT_MQTT_SERVER_MIN_KEEPALIVE E <= _AWS_IOT_MQTT_SERVER_MAX_KEEPALIVE E ->
  _AWS_IOT_MQTT_SERVER_MAX_KEEPALIVE E < 2 ^ 16 ->
  0 <= ks < 2 ^ 16 ->
  _AWS_IOT_MQTT_SERVER_MIN_KEEPALIVE E <= adjustKeepAlive E true ks
    <= _AWS_IOT_MQTT_SERVER_MAX_KEEPALIVE E /\
  (_AWS_IOT_MQTT_SERVER_MIN_KEEPALIVE E <= ks <= _AWS_IOT_MQTT_SERVER_MAX_KEEPALIVE E ->
   adjustKeepAlive E true ks = ks) /\
  adjustKeepAlive E false ks = ks /\
  (fst (_createMqttConnection E true ni ks w) = true ->
   let c := connection (snd (_createMqttConnection E true ni ks w)) in
   keepAliveMs c = adjustKeepAlive E true ks * 1000 /\
   nextKeepAliveMs c = keepAliveMs c /\ references c = 2).
Proof.
  intros Hmin Hmax Hks.
  assert (Hadj : _AWS_IOT_MQTT_SERVER_MIN_KEEPALIVE E <= adjustKeepAlive E true ks
                 <= _AWS_IOT_MQTT_SERVER_MAX_KEEPALIVE E /\
                 (_AWS_IOT_MQTT_SERVER_MIN_KEEPALIVE E <= ks
                  <= _AWS_IOT_MQTT_SERVER_MAX_KEEPALIVE E -> adjustKeepAlive E true ks = ks)).
  { unfold adjustKeepAlive.
    destruct (Z.ltb_spec ks (_AWS_IOT_MQTT_SERVER_MIN_KEEPALIVE E)) as [Hlt|Hge].
    - rewrite Z.mod_small by lia. lia.
    - destruct (ks >? _AWS_IOT_MQTT_SERVER_MAX_KEEPALIVE E) eqn:Hgt.
      + apply Z.gtb_lt in Hgt. rewrite Z.mod_small by lia. lia.
      + assert (Hle : ks <= _AWS_IOT_MQTT_SERVER_MAX_KEEPALIVE E).
        { destruct (Z.gtb_spec ks (_AWS_IOT_MQTT_SERVER_MAX_KEEPALIVE E)); [discriminate|lia]. }
        assert (Hz : (ks =? 0) = false) by (apply Z.eqb_neq; lia).
        rewrite Hz. lia. }
  destruct Hadj as [Hrange Hid].
  split; [exact Hrange|]. split; [exact Hid|]. split; [reflexivity|].
  intros Hs. cbv zeta.
  destruct (createMqttConnection_keepAlive E true ni ks w Hs) as [Hm Hr].
  destruct (createMqttConnection_run E true ni ks w) as (evs & _ & _ & _ & Hok & _).
  destruct (Hok Hs) as (_ & _ & _ & _ & _ & _ & _ & Hn & _).
  rewrite Hn, Hm, Hr. rewrite Z.mod_small by lia.
  assert (Hz : (adjustKeepAlive E true ks =? 0) = false) by (apply Z.eqb_neq; lia).
  rewrite Hz. repeat split.
Qed.

Lemma createMqttConnection_keepAlive_limits_witness :
  30 <= adjustKeepAlive exampleEnv true 5000 <= 1200 /\
  keepAliveMs (connection (snd (_createMqttConnection exampleEnv true exampleNetworkInfo 5000
                                  freshWorld))) = 1200000.
Proof.
  assert (H1 : 0 < _AWS_IOT_MQTT_SERVER_MIN_KEEPALIVE exampleEnv
               <= _AWS_IOT_MQTT_SERVER_MAX_KEEPALIVE exampleEnv) by (cbn; lia).
  assert (H2 : _AWS_IOT_MQTT_SERVER_MAX_KEEPALIVE exampleEnv < 2 ^ 16) by (cbn; lia).
  assert (H3 : 0 <= 5000 < 2 ^ 16) by lia.
  destruct (createMqttConnection_keepAlive_limits exampleEnv exampleNetworkInfo 5000
              freshWorld H1 H2 H3) as (Ha & _ & _ & Hc).
  split; [exact Ha|]. destruct (Hc eq_refl) as (Hk & _). exact Hk.
Defined.

(** ** Refused parameters *)

(** Property X12.  A subscription list that fails validation, or the
    waitable flag without a reference pointer, makes [IotMqtt_Subscribe] and
    [IotMqtt_Unsubscribe] answer BAD_PARAMETER with no effect at all: in
    particular UNSUBSCRIBE removes nothing from the subscription table.
    [IotMqtt_Publish] refuses publish information that fails validation and
    the waitable flag without a reference pointer in the same way. *)
Theorem bad_parameter_no_effect (E : Env) (l : list IotMqttSubscription_t) (n : nat)
    (info : IotMqttPublishInfo_t) (flags : Z) (cb : option IotMqttCallbackInfo_t)
    (ref : bool) (w : World) :
  let mode := c_awsIotMqttMode (connection w) in
  (forall operation,
     operation = IOT_MQTT_SUBSCRIBE \/ operation = IOT_MQTT_UNSUBSCRIBE ->
     _IotMqtt_ValidateSubscriptionList E operation mode l n = false
     \/ (isWaitable flags = true /\ ref = false) ->
     _subscriptionCommon E operation l n flags cb ref w = (IOT_MQTT_BAD_PARAMETER, w)) /\
  (_IotMqtt_ValidatePublish E mode info = false \/ (isWaitable flags = true /\ ref = false) ->
   IotMqtt_Publish E info flags cb ref w = (IOT_MQTT_BAD_PARAMETER, w)).
Proof.
  cbv zeta. split.
  - intros operation Hop Hbad.
    unfold _subscriptionCommon, _subscriptionCommon_body, _subscriptionCommon_cleanup. run.
    assert (Ha : bool_decide (operation = IOT_MQTT_SUBSCRIBE)
                 || bool_decide (operation = IOT_MQTT_UNSUBSCRIBE) = true)
      by (destruct Hop as [->| ->]; reflexivity).
    rewrite Ha.
    destruct (_IotMqtt_ValidateSubscriptionList E operation _ l n) eqn:Hv; cbn [negb]; run.
    + destruct Hbad as [Hbad|[Hw ->]]; [discriminate|]. rewrite Hw. cbn [negb andb]. run.
      reflexivity.
    + reflexivity.
  - intros Hbad.
    unfold IotMqtt_Publish, IotMqtt_Publish_body, IotMqtt_Publish_cleanup. run.
    destruct (_IotMqtt_ValidatePublish E _ info) eqn:Hv; cbn [negb]; run; [|reflexivity].
    destruct Hbad as [Hbad|[Hw ->]]; [discriminate|].
    assert (Hl : (Z.land flags IOT_MQTT_FLAG_WAITABLE =? 0) = false).
    { unfold isWaitable in Hw. apply Z.eqb_eq in Hw. apply Z.eqb_neq. rewrite Hw.
      discriminate. }
    rewrite Hl, Hw. cbn [negb andb orb].
    rewrite orb_true_r, !andb_false_r.
    destruct (qos info =? IOT_MQTT_QOS_0); cbn [andb]; run; reflexivity.
Qed.

(** ** References handed to the caller *)

Lemma subscriptionCommon_body_cases (E : Env) (operation : IotMqttOperationType_t)
    (l : list IotMqttSubscription_t) (n : nat) (flags : Z)
    (cb : option IotMqttCallbackInfo_t) (w : World) :
  operation = IOT_MQTT_SUBSCRIBE \/ operation = IOT_MQTT_UNSUBSCRIBE ->
  let r := _subscriptionCommon_body E operation l n flags cb true w in
  let p := fresh (dom (operations w)) in
  (fst (fst r) = IOT_MQTT_SUCCESS /\ handedOut operation flags p (snd r) /\
   last (trace (snd r)) = Some (EvScheduleOperation p)) \/
  (fst (fst r) <> IOT_MQTT_SUCCESS /\
   (fst (fst r) = IOT_MQTT_BAD_PARAMETER
    \/ (exists h, fst (fst r) = createOperation_status E h)
    \/ (exists h, fst (fst r) = fst (fst (subscriptionSerializer E operation w h l n)))
    \/ (exists h, fst (fst r) = addSubscriptions_status E h)
    \/ (exists h, fst (fst r) = scheduleOperation_status E h))).
Proof.
  intros Hop. cbv zeta.
  unfold _subscriptionCommon_body, _IotMqtt_CreateOperation, _IotMqtt_AddSubscriptions,
    _IotMqtt_ScheduleOperation, _IotMqtt_RemoveSubscriptionByPacket,
    _IotMqtt_RemoveSubscriptionByTopicFilter, handedOut, subscriptionSerializer.
  destruct Hop as [-> | ->].
  all: rewrite ?(bool_decide_eq_true_2 (IOT_MQTT_SUBSCRIBE = IOT_MQTT_SUBSCRIBE)) by reflexivity.
  all: rewrite ?(bool_decide_eq_false_2 (IOT_MQTT_SUBSCRIBE = IOT_MQTT_UNSUBSCRIBE)) by discriminate.
  all: rewrite ?(bool_decide_eq_true_2 (IOT_MQTT_UNSUBSCRIBE = IOT_MQTT_UNSUBSCRIBE)) by reflexivity.
  all: rewrite ?(bool_decide_eq_false_2 (IOT_MQTT_UNSUBSCRIBE = IOT_MQTT_SUBSCRIBE)) by discriminate.
  all: cbn [orb]; run.
  all: match goal with |- context [_IotMqtt_ValidateSubscriptionList ?e ?o ?m ?a ?b] =>
         destruct (_IotMqtt_ValidateSubscriptionList e o m a b); cbn [negb]; run;
         [|right; split; [discriminate|left; reflexivity]]
       end.
  all: rewrite andb_false_r; run.
  all: match goal with |- context [bool_decide (createOperation_status ?e ?h = IOT_MQTT_SUCCESS)] =>
         destruct (bool_decide (createOperation_status e h = IOT_MQTT_SUCCESS)) eqn:Hcr;
         [apply bool_decide_eq_true in Hcr | apply bool_decide_eq_false in Hcr]; run;
         [|right; split; [assumption|right; left; eexists; reflexivity]]
       end.
  all: rewrite (bool_decide_eq_false_2 (IOT_MQTT_SUCCESS <> IOT_MQTT_SUCCESS))
    by (intros H; apply H; reflexivity); run.
  all: rewrite ?lookup_insert_eq; cbn [default from_option id o_status retry_limit Z.eqb].
  all: rewrite ?(bool_decide_eq_true_2 (IOT_MQTT_STATUS_PENDING = IOT_MQTT_STATUS_PENDING))
    by reflexivity; run.
  all: match goal with |- context [chooseSerializer ?e ?d ?s ?m ?h ?a ?b] =>
         destruct (chooseSerializer e d s m h a b) as [[st packet] identifier] eqn:Hser
       end; run.
  all: match goal with |- context [bool_decide (?st <> IOT_MQTT_SUCCESS)] =>
    destruct (bool_decide (st <> IOT_MQTT_SUCCESS)) eqn:Hst;
    [apply bool_decide_eq_true in Hst | apply bool_decide_eq_false in Hst]; run;
    [right; split; [assumption|right; right; left; eexists; rewrite Hser; reflexivity]|] end.
  all: rewrite ?lookup_alter_eq, ?lookup_insert_eq;
    cbn [fmap option_fmap option_map default from_option id pMqttPacket set_pMqttPacket
         set_o_packetIdentifier set_o_operation o_packetIdentifier].
  all: match goal with |- context [0 <? packetSize ?pk] =>
         destruct (0 <? packetSize pk), (bool_decide (pk <> None)); run end.
  all: try match goal with |- context [bool_decide (addSubscriptions_status ?e ?h = IOT_MQTT_SUCCESS)] =>
         destruct (bool_decide (addSubscriptions_status e h = IOT_MQTT_SUCCESS)) eqn:Hadd;
         [apply bool_decide_eq_true in Hadd | apply bool_decide_eq_false in Hadd]; run;
         [|rewrite (bool_decide_eq_true_2 _ Hadd); run;
           right; split; [assumption|right; right; right; left; eexists; reflexivity]]
       end.
  all: rewrite ?(bool_decide_eq_false_2 (IOT_MQTT_SUCCESS <> IOT_MQTT_SUCCESS))
    by (intros H; apply H; reflexivity); run.
  all: rewrite ?(bool_decide_eq_false_2 _ Hst); run.
  all: match goal with |- context [bool_decide (scheduleOperation_status ?e ?h <> IOT_MQTT_SUCCESS)] =>
         destruct (bool_decide (scheduleOperation_status e h <> IOT_MQTT_SUCCESS)) eqn:Hsch;
         [apply bool_decide_eq_true in Hsch | apply bool_decide_eq_false in Hsch]; run;
         [right; split; [assumption|right; right; right; right; eexists; reflexivity]|]
       end.
  all: left; split;
    [match goal with |- ?x = _ =>
       destruct (decide (x = IOT_MQTT_SUCCESS)); [assumption|contradiction] end|].
  all: split; [|apply last_snoc].
  all: split; [reflexivity|]; split.
  all: try (cbn [pendingProcessing set_subscriptionList set_references set_pendingProcessing];
            apply elem_of_app; right; apply list_elem_of_singleton; reflexivity).
  all: eexists; split;
    [rewrite !lookup_alter_eq, lookup_insert_eq; reflexivity|]; cbn; repeat split.
Qed.

Lemma subscriptionCommon_cleanup_run (E : Env) (s : IotMqttError_t) (p : option nat)
    (w : World) :
  fst (_subscriptionCommon_cleanup E s p w)
  = (if bool_decide (s <> IOT_MQTT_SUCCESS) then s else IOT_MQTT_STATUS_PENDING) /\
  (s = IOT_MQTT_SUCCESS -> snd (_subscriptionCommon_cleanup E s p w) = w).
Proof.
  unfold _subscriptionCommon_cleanup. destruct (bool_decide _) eqn:Hs.
  - apply bool_decide_eq_true in Hs. split; [|intros; contradiction].
    unfold bind. destruct p as [p|]; [destruct (_IotMqtt_DestroyOperation E p w)|]; reflexivity.
  - split; reflexivity.
Qed.

Lemma subscriptionCommon_outcome (E : Env) (operation : IotMqttOperationType_t)
    (l : list IotMqttSubscription_t) (n : nat) (flags : Z)
    (cb : option IotMqttCallbackInfo_t) (w : World) :
  operation = IOT_MQTT_SUBSCRIBE \/ operation = IOT_MQTT_UNSUBSCRIBE ->
  let r := _subscriptionCommon E operation l n flags cb true w in
  let p := fresh (dom (operations w)) in
  (fst r = IOT_MQTT_STATUS_PENDING /\ handedOut operation flags p (snd r) /\
   last (trace (snd r)) = Some (EvScheduleOperation p)) \/
  (fst r <> IOT_MQTT_SUCCESS /\
   (fst r = IOT_MQTT_BAD_PARAMETER
    \/ (exists h, fst r = createOperation_status E h)
    \/ (exists h, fst r = fst (fst (subscriptionSerializer E operation w h l n)))
    \/ (exists h, fst r = addSubscriptions_status E h)
    \/ (exists h, fst r = scheduleOperation_status E h))).
Proof.
  intros Hop. cbv zeta. unfold _subscriptionCommon. rewrite bind_run.
  destruct (subscriptionCommon_cleanup_run E
              (fst (fst (_subscriptionCommon_body E operation l n flags cb true w)))
              (snd (fst (_subscriptionCommon_body E operation l n flags cb true w)))
              (snd (_subscriptionCommon_body E operation l n flags cb true w)))
    as [Hst Hw].
  destruct (subscriptionCommon_body_cases E operation l n flags cb w Hop)
    as [(Hs & Hh & Ht)|[Hne Hsrc]].
  - left. rewrite Hst, (Hw Hs), Hs.
    rewrite (bool_decide_eq_false_2 (IOT_MQTT_SUCCESS <> IOT_MQTT_SUCCESS))
      by (intros H; apply H; reflexivity).
    split; [reflexivity|]. split; assumption.
  - right. rewrite Hst, (bool_decide_eq_true_2 _ Hne). split; assumption.
Qed.

(** Property X13.  When [IotMqtt_Subscribe] or [IotMqtt_Unsubscribe] is
    given a reference pointer and answers PENDING, and no collaborator
    answered "pending" in place of an error, the variable of the caller
    holds the operation that the call created: a live operation, queued for
    processing, of the kind and with the flags of the call, holding one
    reference for its job and one more when it is waitable; handing it to
    the task pool was the last call made. *)
Theorem subscription_pending_reference (E : Env) (operation : IotMqttOperationType_t)
    (l : list IotMqttSubscription_t) (n : nat) (flags : Z)
    (cb : option IotMqttCallbackInfo_t) (w : World) :
  operation = IOT_MQTT_SUBSCRIBE \/ operation = IOT_MQTT_UNSUBSCRIBE ->
  neverPendingSubscription E operation l n w ->
  let r := _subscriptionCommon E operation l n flags cb true w in
  fst r = IOT_MQTT_STATUS_PENDING ->
  handedOut operation flags (fresh (dom (operations w))) (snd r) /\
  last (trace (snd r)) = Some (EvScheduleOperation (fresh (dom (operations w)))).
Proof.
  intros Hop (Hc & Hz & Ha & Hd). cbv zeta. intros Hp.
  destruct (subscriptionCommon_outcome E operation l n flags cb w Hop)
    as [(_ & Hh & Ht)|[Hne Hsrc]]; [split; assumption|].
  exfalso. rewrite Hp in Hsrc.
  destruct Hsrc as [H|[(h & H)|[(h & H)|[(h & H)|(h & H)]]]];
    [discriminate|eapply Hc|eapply Hz|eapply Ha|eapply Hd]; symmetry; exact H.
Qed.

Lemma Publish_body_cases (E : Env) (info : IotMqttPublishInfo_t) (flags : Z)
    (cb : option IotMqttCallbackInfo_t) (w : World) :
  (qos info =? IOT_MQTT_QOS_0) = false ->
  let r := IotMqtt_Publish_body E info flags cb true w in
  let p := fresh (dom (operations w)) in
  (fst (fst r) = IOT_MQTT_SUCCESS /\ handedOut IOT_MQTT_PUBLISH_TO_SERVER flags p (snd r) /\
   (exists o, operations (snd r) !! p = Some o /\
      retry_limit o = (if 0 <? retryLimit info then retryLimit info else 0) /\
      retry_nextPeriod o = (if 0 <? retryLimit info then retryMs info else 0)) /\
   last (trace (snd r)) = Some (EvScheduleOperation p)) \/
  (fst (fst r) <> IOT_MQTT_SUCCESS /\
   (fst (fst r) = IOT_MQTT_BAD_PARAMETER
    \/ (exists h, fst (fst r) = createOperation_status E h)
    \/ (exists h b, fst (fst r)
          = fst (fst (chooseSerializer E (_IotMqtt_SerializePublish E)
                        (pSerializer (connection w)) serialize_publish h info b)))
    \/ (exists h, fst (fst r) = scheduleOperation_status E h))).
Proof.
  intros Hq. cbv zeta.
  unfold IotMqtt_Publish_body, _IotMqtt_CreateOperation, _IotMqtt_ScheduleOperation, handedOut.
  run. rewrite Hq. cbn [andb negb]. run.
  destruct (_IotMqtt_ValidatePublish E _ info); cbn [negb]; run;
    [|right; split; [discriminate|left; reflexivity]].
  rewrite andb_false_r. run.
  destruct (bool_decide (createOperation_status E (trace w) = IOT_MQTT_SUCCESS)) eqn:Hcr;
    [apply bool_decide_eq_true in Hcr | apply bool_decide_eq_false in Hcr]; run;
    [|right; split; [assumption|right; left; eexists; reflexivity]].
  rewrite (bool_decide_eq_false_2 (IOT_MQTT_SUCCESS <> IOT_MQTT_SUCCESS))
    by (intros H; apply H; reflexivity); run.
  rewrite ?lookup_insert_eq; cbn [default from_option id o_status].
  rewrite ?(bool_decide_eq_true_2 (IOT_MQTT_STATUS_PENDING = IOT_MQTT_STATUS_PENDING))
    by reflexivity; run.
  match goal with |- context [chooseSerializer E ?d ?s ?m ?h ?a ?b] =>
    destruct (chooseSerializer E d s m h a b) as [[st packet] identifier] eqn:Hser
  end; run.
  destruct (bool_decide (st <> IOT_MQTT_SUCCESS)) eqn:Hst;
    [apply bool_decide_eq_true in Hst | apply bool_decide_eq_false in Hst]; run;
    [right; split; [assumption|right; right; left; eexists; eexists; rewrite Hser; reflexivity]|].
  destruct (0 <? packetSize packet), (bool_decide (packet <> None)); run.
  all: destruct (0 <? retryLimit info); cbn [andb]; run.
  all: match goal with |- context [bool_decide (scheduleOperation_status ?e ?h <> IOT_MQTT_SUCCESS)] =>
         destruct (bool_decide (scheduleOperation_status e h <> IOT_MQTT_SUCCESS)) eqn:Hsch;
         [apply bool_decide_eq_true in Hsch | apply bool_decide_eq_false in Hsch]; run;
         [right; split; [assumption|right; right; right; eexists; reflexivity]|]
       end.
  all: left; split;
    [match goal with |- ?x = _ =>
       destruct (decide (x = IOT_MQTT_SUCCESS)); [assumption|contradiction] end|].
  all: split; [|split; [|apply last_snoc]].
  all: try (split; [reflexivity|]; split;
            [cbn [pendingProcessing set_references set_pendingProcessing];
             apply elem_of_app; right; apply list_elem_of_singleton; reflexivity|]).
  all: eexists; split;
    [rewrite ?lookup_alter_eq, lookup_insert_eq; reflexivity|]; cbn; repeat split.
Qed.

Lemma Publish_outcome (E : Env) (info : IotMqttPublishInfo_t) (flags : Z)
    (cb : option IotMqttCallbackInfo_t) (w : World) :
  (qos info =? IOT_MQTT_QOS_0) = false ->
  let r := IotMqtt_Publish E info flags cb true w in
  let p := fresh (dom (operations w)) in
  ((fst r = if qos info >? IOT_MQTT_QOS_0 then IOT_MQTT_STATUS_PENDING else IOT_MQTT_SUCCESS) /\
   handedOut IOT_MQTT_PUBLISH_TO_SERVER flags p (snd r) /\
   (exists o, operations (snd r) !! p = Some o /\
      retry_limit o = (if 0 <? retryLimit info then retryLimit info else 0) /\
      retry_nextPeriod o = (if 0 <? retryLimit info then retryMs info else 0)) /\
   last (trace (snd r)) = Some (EvScheduleOperation p)) \/
  (fst r <> IOT_MQTT_SUCCESS /\
   (fst r = IOT_MQTT_BAD_PARAMETER
    \/ (exists h, fst r = createOperation_status E h)
    \/ (exists h b, fst r
          = fst (fst (chooseSerializer E (_IotMqtt_SerializePublish E)
                        (pSerializer (connection w)) serialize_publish h info b)))
    \/ (exists h, fst r = scheduleOperation_status E h))).
Proof.
  intros Hq. cbv zeta. unfold IotMqtt_Publish. rewrite bind_run, Publish_cleanup_status.
  destruct (Publish_body_cases E info flags cb w Hq) as [(Hs & Hh & Hr & Ht)|[Hne Hsrc]].
  - left.
    assert (Hw : snd (IotMqtt_Publish_cleanup E info
                        (fst (fst (IotMqtt_Publish_body E info flags cb true w)))
                        (snd (fst (IotMqtt_Publish_body E info flags cb true w)))
                        (snd (IotMqtt_Publish_body E info flags cb true w)))
                 = snd (IotMqtt_Publish_body E info flags cb true w)).
    { unfold IotMqtt_Publish_cleanup. rewrite Hs.
      rewrite (bool_decide_eq_false_2 (IOT_MQTT_SUCCESS <> IOT_MQTT_SUCCESS))
        by (intros H; apply H; reflexivity).
      destruct (qos info >? IOT_MQTT_QOS_0); reflexivity. }
    rewrite Hw, Hs.
    rewrite (bool_decide_eq_false_2 (IOT_MQTT_SUCCESS <> IOT_MQTT_SUCCESS))
      by (intros H; apply H; reflexivity).
    split; [reflexivity|]. split; [exact Hh|]. split; [exact Hr|exact Ht].
  - right. rewrite (bool_decide_eq_true_2 _ Hne). split; assumption.
Qed.

(** Property X14.  When [IotMqtt_Publish] with a QoS above 0 is given a
    reference pointer and answers PENDING, and no collaborator answered
    "pending" in place of an error, the variable of the caller holds the
    operation that the call created: a live PUBLISH operation, queued for
    processing, with the flags of the call and the references of its
    creation.  The operation carries the retry limit and period of the
    publish information when the limit is above 0, and none otherwise. *)
Theorem Publish_pending_reference (E : Env) (info : IotMqttPublishInfo_t) (flags : Z)
    (cb : option IotMqttCallbackInfo_t) (w : World) :
  IOT_MQTT_QOS_0 < qos info ->
  neverPending E info w ->
  let r := IotMqtt_Publish E info flags cb true w in
  let p := fresh (dom (operations w)) in
  fst r = IOT_MQTT_STATUS_PENDING ->
  handedOut IOT_MQTT_PUBLISH_TO_SERVER flags p (snd r) /\
  (exists o, operations (snd r) !! p = Some o /\
     retry_limit o = (if 0 <? retryLimit info then retryLimit info else 0) /\
     retry_nextPeriod o = (if 0 <? retryLimit info then retryMs info else 0)) /\
  last (trace (snd r)) = Some (EvScheduleOperation p).
Proof.
  intros Hq (Hc & Hz & Hd). cbv zeta. intros Hp.
  assert (Hq0 : (qos info =? IOT_MQTT_QOS_0) = false) by (apply Z.eqb_neq; lia).
  destruct (Publish_outcome E info flags cb w Hq0) as [(_ & Hh & Hr & Ht)|[Hne Hsrc]];
    [split; [exact Hh|]; split; [exact Hr|exact Ht]|].
  exfalso. rewrite Hp in Hsrc.
  destruct Hsrc as [H|[(h & H)|[(h & b & H)|(h & H)]]];
    [discriminate|eapply Hc|eapply Hz|eapply Hd]; symmetry; exact H.
Qed.

Lemma subscription_pending_reference_witness :
  callerReference
    (snd (IotMqtt_Subscribe exampleEnv [exampleSubscription "a" 1] 1 IOT_MQTT_FLAG_WAITABLE
            None true idleWorld)) = Some 0%nat.
Proof.
  assert (Hn : neverPendingSubscription exampleEnv IOT_MQTT_SUBSCRIBE
                 [exampleSubscription "a" 1] 1 idleWorld)
    by (repeat split; intros; discriminate).
  destruct (subscription_pending_reference exampleEnv IOT_MQTT_SUBSCRIBE
              [exampleSubscription "a" 1] 1 IOT_MQTT_FLAG_WAITABLE None idleWorld
              (or_introl eq_refl) Hn eq_refl) as ((Hr & _) & _).
  exact Hr.
Defined.

Lemma Publish_pending_reference_witness :
  callerReference
    (snd (IotMqtt_Publish exampleEnv (examplePublish 1 10) IOT_MQTT_FLAG_WAITABLE None true
            idleWorld)) = Some 0%nat.
Proof.
  assert (Hq : IOT_MQTT_QOS_0 < qos (examplePublish 1 10)) by reflexivity.
  assert (Hn : neverPending exampleEnv (examplePublish 1 10) idleWorld)
    by (repeat split; intros; discriminate).
  destruct (Publish_pending_reference exampleEnv (examplePublish 1 10)
              IOT_MQTT_FLAG_WAITABLE None idleWorld Hq Hn eq_refl) as ((Hr & _) & _).
  exact Hr.
Defined.

(** ** Blocking variants *)

Lemma timedSubscriptionCommon_run (E : Env) (operation : IotMqttOperationType_t)
    (l : list IotMqttSubscription_t) (n : nat) (flags timeoutMs : Z) (w : World) :
  operation = IOT_MQTT_SUBSCRIBE \/ operation = IOT_MQTT_UNSUBSCRIBE ->
  neverPendingSubscription E operation l n w ->
  timedSubscriptionCommon E (_subscriptionCommon E operation) l n flags timeoutMs w
  = subscribeThenWait E operation l n timeoutMs w.
Proof.
  intros Hop (Hc & Hz & Ha & Hd).
  unfold timedSubscriptionCommon, subscribeThenWait, declareReference, readReference,
    IotMqtt_Wait_on.
  rewrite bind_run. cbn [fst snd]. rewrite bind_run.
  pose proof (subscriptionCommon_outcome E operation l n IOT_MQTT_FLAG_WAITABLE None
                (setCallerReference IOT_MQTT_REFERENCE_INITIALIZER w) Hop) as Hout.
  cbv zeta in Hout. cbn [operations setCallerReference] in Hout.
  destruct (_subscriptionCommon E operation l n IOT_MQTT_FLAG_WAITABLE None true
              (setCallerReference IOT_MQTT_REFERENCE_INITIALIZER w)) as [st w1].
  cbn [fst snd] in *.
  destruct Hout as [(Hs & (Hr & _) & _)|[Hne Hsrc]].
  - subst st.
    rewrite !(bool_decide_eq_true_2 (IOT_MQTT_STATUS_PENDING = IOT_MQTT_STATUS_PENDING))
      by reflexivity.
    run. rewrite Hr.
    destruct (IotMqtt_Wait E (fresh (dom (operations w))) timeoutMs w1) as [sw w2].
    reflexivity.
  - assert (Hp : st <> IOT_MQTT_STATUS_PENDING).
    { intros ->.
      destruct Hsrc as [H|[(h & H)|[(h & H)|[(h & H)|(h & H)]]]];
        [discriminate|eapply Hc|eapply Hz|eapply Ha|eapply Hd]; symmetry; exact H. }
    rewrite !(bool_decide_eq_false_2 _ Hp). run.
    rewrite (bool_decide_eq_true_2 _ Hp). reflexivity.
Qed.

(** Property X16.  [IotMqtt_TimedSubscribe] and [IotMqtt_TimedUnsubscribe]
    behave as the waitable asynchronous call without a callback, followed,
    when that call is pending, by [IotMqtt_Wait] on the operation the call
    created: the wait never gets the initializer.  The [flags] argument has
    no part in it, and a status other than PENDING is passed on without a
    wait. *)
Theorem TimedSubscribe_waits_on_its_operation (E : Env) (l : list IotMqttSubscription_t)
    (n : nat) (flags timeoutMs : Z) (w : World) :
  (neverPendingSubscription E IOT_MQTT_SUBSCRIBE l n w ->
   IotMqtt_TimedSubscribe E l n flags timeoutMs w
   = subscribeThenWait E IOT_MQTT_SUBSCRIBE l n timeoutMs w) /\
  (neverPendingSubscription E IOT_MQTT_UNSUBSCRIBE l n w ->
   IotMqtt_TimedUnsubscribe E l n flags timeoutMs w
   = subscribeThenWait E IOT_MQTT_UNSUBSCRIBE l n timeoutMs w).
Proof.
  split; intros Hn; apply timedSubscriptionCommon_run; auto.
Qed.

(** Property X17.  [IotMqtt_TimedPublish] overwrites its [flags] argument.
    For QoS 1 it behaves as the waitable [IotMqtt_Publish] followed, when
    that is pending, by [IotMqtt_Wait] on the operation the call created;
    for any other QoS it is [IotMqtt_Publish] without flags, and it does not
    wait. *)
Theorem TimedPublish_waits_on_its_operation (E : Env) (info : IotMqttPublishInfo_t)
    (flags timeoutMs : Z) (w : World) :
  neverPending E info w ->
  IotMqtt_TimedPublish E info flags timeoutMs w = publishThenWait E info timeoutMs w.
Proof.
  intros (Hc & Hz & Hd).
  unfold IotMqtt_TimedPublish, publishThenWait, declareReference, readReference,
    IotMqtt_Wait_on.
  rewrite bind_run. cbn [fst snd].
  destruct (qos info =? IOT_MQTT_QOS_1) eqn:Hq; rewrite bind_run.
  - assert (Hq0 : (qos info =? IOT_MQTT_QOS_0) = false).
    { apply Z.eqb_eq in Hq. rewrite Hq. reflexivity. }
    pose proof (Publish_outcome E info IOT_MQTT_FLAG_WAITABLE None
                  (setCallerReference IOT_MQTT_REFERENCE_INITIALIZER w) Hq0) as Hout.
    cbv zeta in Hout. cbn [operations setCallerReference] in Hout.
    destruct (IotMqtt_Publish E info IOT_MQTT_FLAG_WAITABLE None true
                (setCallerReference IOT_MQTT_REFERENCE_INITIALIZER w)) as [st w1].
    cbn [fst snd] in *.
    destruct Hout as [(Hs & (Hr & _) & _)|[Hne Hsrc]].
    + assert (Hgt : (qos info >? IOT_MQTT_QOS_0) = true).
      { apply Z.eqb_eq in Hq. rewrite Hq. reflexivity. }
      rewrite Hgt in Hs. subst st.
      rewrite !(bool_decide_eq_true_2 (IOT_MQTT_STATUS_PENDING = IOT_MQTT_STATUS_PENDING))
        by reflexivity.
      run. rewrite Hr.
      destruct (IotMqtt_Wait E (fresh (dom (operations w))) timeoutMs w1) as [sw w2].
      reflexivity.
    + assert (Hp : st <> IOT_MQTT_STATUS_PENDING).
      { intros ->.
        destruct Hsrc as [H|[(h & H)|[(h & b & H)|(h & H)]]];
          [discriminate|eapply Hc|eapply Hz|eapply Hd]; symmetry; exact H. }
      rewrite !(bool_decide_eq_false_2 _ Hp). reflexivity.
  - destruct (IotMqtt_Publish E info 0 None false
                (setCallerReference IOT_MQTT_REFERENCE_INITIALIZER w)) as [st w1].
    reflexivity.
Qed.

Lemma TimedPublish_waits_on_its_operation_witness :
  fst (IotMqtt_TimedPublish exampleEnv (examplePublish 1 10) 0 1000 idleWorld)
  = Some IOT_MQTT_SUCCESS.
Proof.
  assert (Hn : neverPending exampleEnv (examplePublish 1 10) idleWorld)
    by (repeat split; intros; discriminate).
  rewrite (TimedPublish_waits_on_its_operation exampleEnv (examplePublish 1 10) 0 1000
             idleWorld Hn).
  reflexivity.
Defined.

(** ** Failure of [IotMqtt_Connect] *)

Lemma returns_ret {A : Type} (P : A -> Prop) (a : A) : P a -> returns P (ret a).
Proof. intros H w. exact H. Qed.

Lemma returns_bind {A B : Type} (P : B -> Prop) (m : M A) (k : A -> M B) :
  (forall a, returns P (k a)) -> returns P (bind m k).
Proof. intros Hk w. unfold bind. destruct (m w) as [a w1]. apply Hk. Qed.

Ltac returns_step :=
  lazymatch goal with
  | |- returns _ (bind _ _) => apply returns_bind; intros ?
  | |- returns _ (IotMqtt_Connect_goto _ _ _ _) => apply returns_ret; reflexivity
  | |- returns _ (ret _) => apply returns_ret; reflexivity
  | |- returns _ (if ?b then _ else _) => destruct b
  | |- returns _ (match ?x with _ => _ end) => destruct x
  | |- returns _ (let (_, _) := ?x in _) => destruct x
  end.

Lemma Connect_establish_networkCreated (E : Env) (ni : IotMqttNetworkInfo_t)
    (ci : IotMqttConnectInfo_t) (t : Z) (nc own : bool) (h : nat) :
  returns (fun l => l_networkCreated l = nc) (IotMqtt_Connect_establish E ni ci t nc own h).
Proof. unfold IotMqtt_Connect_establish. repeat returns_step. Qed.

Lemma Connect_establish_new (E : Env) (ni : IotMqttNetworkInfo_t)
    (ci : IotMqttConnectInfo_t) (t : Z) (nc own : bool) (h : nat) (w : World) :
  connectionAllocated w = false ->
  let r := IotMqtt_Connect_establish E ni ci t nc own h w in
  l_pNewMqttConnection (fst r) = false ->
  connectionAllocated (snd r) = false /\ l_pConnectOperation (fst r) = None.
Proof.
  intros Hw. cbv zeta. unfold IotMqtt_Connect_establish. rewrite bind_run.
  destruct (createMqttConnection_run E (awsIotMqttMode ci) ni (keepAliveSeconds ci) w)
    as (evs & _ & _ & _ & _ & Hf).
  destruct (fst (_createMqttConnection E (awsIotMqttMode ci) ni (keepAliveSeconds ci) w));
    cbn [negb].
  - intros Hn. exfalso. revert Hn.
    match goal with |- l_pNewMqttConnection (fst (?m ?w0)) = false -> False =>
      assert (Hr : returns (fun l => l_pNewMqttConnection l = true) m)
        by (repeat returns_step);
      rewrite (Hr w0) end.
    discriminate.
  - intros _. unfold IotMqtt_Connect_goto, ret. cbn [fst snd l_pConnectOperation].
    split; [|reflexivity].
    destruct (Hf eq_refl) as [Hno Hyes].
    destruct (IotMqtt_MallocConnection E (trace w)).
    + apply Hyes. reflexivity.
    + rewrite (Hno eq_refl). exact Hw.
Qed.

Lemma Connect_body_new (E : Env) (ni : option IotMqttNetworkInfo_t)
    (ci : IotMqttConnectInfo_t) (t : Z) (w : World) :
  connectionAllocated w = false ->
  let r := IotMqtt_Connect_body E ni ci t w in
  l_pNewMqttConnection (fst r) = false ->
  connectionAllocated (snd r) = false /\ l_pConnectOperation (fst r) = None.
Proof.
  intros Hw. cbv zeta. unfold IotMqtt_Connect_body.
  destruct ni as [ni|]; [|intros _; split; [exact Hw|reflexivity]].
  destruct (negb _); [intros _; split; [exact Hw|reflexivity]|].
  destruct (match pWillInfo ci with Some _ => _ | None => _ end);
    [intros _; split; [exact Hw|reflexivity]|].
  destruct (_ && _); [intros _; split; [exact Hw|reflexivity]|].
  destruct (createNetworkConnection ni).
  - rewrite bind_run. unfold call. cbn [fst snd].
    destruct (network_create E (trace w)) as [networkStatus pNetworkConnection].
    destruct (bool_decide _).
    + apply Connect_establish_new. exact Hw.
    + intros _. split; [exact Hw|reflexivity].
  - apply Connect_establish_new. exact Hw.
Qed.

Lemma Connect_body_networkCreated (E : Env) (ni : option IotMqttNetworkInfo_t)
    (ci : IotMqttConnectInfo_t) (t : Z) (w : World) :
  let r := IotMqtt_Connect_body E ni ci t w in
  exists evs, trace (snd r) = trace w ++ evs /\
    (EvMallocConnection ∈ evs -> l_networkCreated (fst r) = true).
Proof.
  cbv zeta. unfold IotMqtt_Connect_body.
  assert (Hnone : forall st, exists evs,
            trace (snd (IotMqtt_Connect_goto st false None false w)) = trace w ++ evs /\
            (EvMallocConnection ∈ evs ->
             l_networkCreated (fst (IotMqtt_Connect_goto st false None false w)) = true)).
  { intros st. exists []. split; [cbn; rewrite app_nil_r; reflexivity|].
    intros H. apply elem_of_nil in H. contradiction. }
  assert (Hest : forall own h w0 pre, trace w0 = trace w ++ pre -> exists evs,
            trace (snd (IotMqtt_Connect_establish E (default exampleNetworkInfo ni) ci t true
                          own h w0)) = trace w ++ evs /\
            (EvMallocConnection ∈ evs ->
             l_networkCreated (fst (IotMqtt_Connect_establish E (default exampleNetworkInfo ni)
                                      ci t true own h w0)) = true)).
  { intros own h w0 pre Hpre.
    destruct (emits_Connect_establish E (default exampleNetworkInfo ni) ci t true own h w0)
      as (evs & Ht & _).
    exists (pre ++ evs). rewrite Ht, Hpre, app_assoc. split; [reflexivity|].
    intros _. apply Connect_establish_networkCreated. }
  destruct ni as [ni|]; [|apply Hnone]. cbn [default from_option id] in Hest.
  destruct (negb _); [apply Hnone|].
  destruct (match pWillInfo ci with Some _ => _ | None => _ end); [apply Hnone|].
  destruct (_ && _); [apply Hnone|].
  destruct (createNetworkConnection ni).
  - rewrite bind_run. unfold call. cbn [fst snd].
    destruct (network_create E (trace w)) as [networkStatus pNetworkConnection].
    destruct (bool_decide _).
    + apply (Hest true pNetworkConnection _ [EvNetworkCreate]). reflexivity.
    + exists [EvNetworkCreate]. split; [reflexivity|].
      intros H. apply list_elem_of_singleton in H. discriminate.
  - apply (Hest false (pNetworkConnection ni) w []). rewrite app_nil_r. reflexivity.
Qed.

Lemma Connect_cleanup_failure (E : Env) (status : IotMqttError_t) (nc : bool)
    (op : option nat) (pNew : bool) (w : World) :
  status <> IOT_MQTT_SUCCESS ->
  let r := IotMqtt_Connect_cleanup E status nc op pNew w in
  fst r = (status, false) /\
  (pNew = true -> connectionAllocated (snd r) = false) /\
  (pNew = false -> op = None -> connectionAllocated (snd r) = connectionAllocated w) /\
  exists evs, trace (snd r) = trace w ++ evs /\ Forall teardownEvent evs /\
              (nc = true -> EvNetworkClose ∈ evs).
Proof.
  intros Hs. cbv zeta. unfold IotMqtt_Connect_cleanup.
  rewrite (bool_decide_eq_true_2 _ Hs).
  set (close := when nc _).
  set (destroyOperation := match op with Some p => _ | None => _ end).
  rewrite !bind_run.
  assert (Hclose : connectionAllocated (snd (close w)) = connectionAllocated w /\
                   exists e1, trace (snd (close w)) = trace w ++ e1 /\ Forall teardownEvent e1 /\
                              (nc = true -> EvNetworkClose ∈ e1)).
  { subst close. destruct nc; cbn [when].
    - rewrite bind_run. unfold call. cbn [fst snd].
      destruct (bool_decide _); cbn [when]; (split; [reflexivity|]);
        exists [EvNetworkClose]; (split; [reflexivity|]);
        (split; [repeat constructor|]); intros _; apply list_elem_of_singleton; reflexivity.
    - split; [reflexivity|]. exists []. split; [cbn; rewrite app_nil_r; reflexivity|].
      split; [constructor|discriminate]. }
  destruct Hclose as (Ha1 & e1 & Ht1 & F1 & Hin).
  assert (Hop : emits teardownEvent destroyOperation)
    by (subst destroyOperation; destruct op; [apply emits_DestroyOperation|apply emits_ret]).
  destruct (Hop (snd (close w))) as (e2 & Ht2 & F2).
  assert (Hd : emits teardownEvent (when pNew (_destroyMqttConnection E)))
    by (apply emits_when, emits_destroyMqttConnection).
  destruct (Hd (snd (destroyOperation (snd (close w))))) as (e3 & Ht3 & F3).
  cbn [ret fst snd]. split; [reflexivity|]. split; [|split].
  - intros ->. cbn [when]. apply destroyMqttConnection_state.
  - intros -> ->. subst destroyOperation. cbn [when ret snd]. exact Ha1.
  - exists (e1 ++ e2 ++ e3). split; [rewrite Ht3, Ht2, Ht1, <- !app_assoc; reflexivity|].
    split; [repeat (apply Forall_app; split); assumption|].
    intros Hn. apply elem_of_app. left. apply Hin. exact Hn.
Qed.



(** ** Disconnecting without a DISCONNECT packet *)

Lemma keeps_isDisconnected_destroyMqttConnection (E : Env) :
  keeps isDisconnected (_destroyMqttConnection E).
Proof. unfold _destroyMqttConnection. keeps_tac. Qed.

#[local] Hint Resolve keeps_isDisconnected_destroyMqttConnection : keeps.

Lemma keeps_isDisconnected_DecrementConnectionReferences (E : Env) :
  keeps isDisconnected (_IotMqtt_DecrementConnectionReferences E).
Proof. unfold _IotMqtt_DecrementConnectionReferences. keeps_tac. Qed.

#[local] Hint Resolve keeps_isDisconnected_DecrementConnectionReferences : keeps.

Lemma keeps_isDisconnected_tryDestroy (E : Env) (p : nat) :
  keeps isDisconnected (_mqttOperation_tryDestroy E p).
Proof.
  unfold _mqttOperation_tryDestroy, _IotMqtt_DecrementOperationReferences,
    _IotMqtt_DestroyOperation.
  keeps_tac.
Qed.

#[local] Hint Resolve keeps_isDisconnected_tryDestroy : keeps.

Lemma keeps_isDisconnected_RemoveAll_loop (E : Env) (q : OperationList) (l : list nat) :
  keeps isDisconnected (IotListDouble_RemoveAll_loop q (_mqttOperation_tryDestroy E) l).
Proof.
  induction l as [|p l IH]; cbn [IotListDouble_RemoveAll_loop]; keeps_tac.
  intros w. destruct q; reflexivity.
Qed.

#[local] Hint Resolve keeps_isDisconnected_RemoveAll_loop : keeps.

Lemma keeps_isDisconnected_RemoveAll (E : Env) (q : OperationList) :
  keeps isDisconnected (IotListDouble_RemoveAll q (_mqttOperation_tryDestroy E)).
Proof. unfold IotListDouble_RemoveAll. keeps_tac. Qed.

Lemma CloseNetworkConnection_disconnected (E : Env) (w : World) :
  isDisconnected (snd (_IotMqtt_CloseNetworkConnection E w)) = true.
Proof.
  unfold _IotMqtt_CloseNetworkConnection, isDisconnected. run.
  repeat (match goal with |- context [if ?b then _ else _] => destruct b end; run);
    reflexivity.
Qed.

Lemma Disconnect_teardown_effect (E : Env) (w : World) :
  let w' := snd (Disconnect_teardown E w) in
  (exists evs, trace w' = trace w ++ evs /\ Forall (fun e => ~ sendEvent e) evs
               /\ EvNetworkClose ∈ evs) /\
  disconnected (connection w') = true /\
  pendingProcessing (connection w') = [] /\
  pendingResponse (connection w') = [] /\
  references (connection w') <= references (connection w) - 1.
Proof.
  pose (w1 := snd (_IotMqtt_CloseNetworkConnection E w)).
  pose (b := bool_decide (disconnected (connection w1) = true)).
  pose (wa := snd (IotMqtt_Assert b w1)).
  pose (w2 := snd (IotListDouble_RemoveAll PendingProcessing (_mqttOperation_tryDestroy E) wa)).
  pose (w3 := snd (IotListDouble_RemoveAll PendingResponse (_mqttOperation_tryDestroy E) w2)).
  pose (w4 := snd (_IotMqtt_DecrementConnectionReferences E w3)).
  assert (Hw : snd (Disconnect_teardown E w) = w4)
    by (unfold Disconnect_teardown; rewrite !bind_run; reflexivity).
  rewrite Hw. clear Hw. cbv zeta.
  destruct (CloseNetworkConnection_trace E w) as (pre & Ht1 & Fpre).
  pose proof (declines_CloseNetworkConnection E w) as [Hr1 _].
  pose proof (CloseNetworkConnection_disconnected E w) as Hd1.
  pose proof (emits_Assert teardownEvent b I w1) as (ea & Hta & Fa).
  assert (Hca : connection wa = connection w1)
    by (unfold wa, IotMqtt_Assert; destruct b; reflexivity).
  pose proof (emits_RemoveAll E PendingProcessing wa) as (e2 & Ht2 & F2).
  pose proof (declines_RemoveAll E PendingProcessing wa) as [Hr2 _].
  pose proof (RemoveAll_empties E PendingProcessing wa) as Hq2.
  pose proof (keeps_isDisconnected_RemoveAll E PendingProcessing wa) as Hd2.
  pose proof (emits_RemoveAll E PendingResponse w2) as (e3 & Ht3 & F3).
  pose proof (declines_RemoveAll E PendingResponse w2) as [Hr3 Hl3].
  pose proof (RemoveAll_empties E PendingResponse w2) as Hq3.
  pose proof (keeps_isDisconnected_RemoveAll E PendingResponse w2) as Hd3.
  pose proof (emits_DecrementConnectionReferences E w3) as (e4 & Ht4 & F4).
  pose proof (declines_DecrementConnectionReferences E w3) as [_ Hl4].
  pose proof (DecrementConnectionReferences_strict E w3) as Hr4.
  pose proof (keeps_isDisconnected_DecrementConnectionReferences E w3) as Hd4.
  fold w1 in Ht1, Hr1, Hd1. fold wa in Hta, Hd2. fold w2 in Ht2, Hr2, Hq2, Hd2, Hd3.
  fold w3 in Ht3, Hr3, Hl3, Hq3, Hd3, Hd4. fold w4 in Ht4, Hl4, Hr4, Hd4.
  clearbody w1 wa w2 w3 w4.
  split; [|split; [|split; [|split]]].
  - exists ((pre ++ [EvNetworkClose]) ++ ea ++ e2 ++ e3 ++ e4).
    split; [|split].
    + rewrite Ht4, Ht3, Ht2, Hta, Ht1. rewrite <- !app_assoc. reflexivity.
    + eapply Forall_impl; [|exact teardown_not_send].
      repeat (apply Forall_app; split); auto. repeat constructor.
    + apply elem_of_app. left. apply elem_of_app. right. apply list_elem_of_singleton. reflexivity.
  - unfold isDisconnected in *. rewrite Hd4, Hd3, Hd2, Hca. exact Hd1.
  - apply elem_of_nil_inv. intros x Hx.
    apply (Hl4 PendingProcessing) in Hx. apply (Hl3 PendingProcessing) in Hx.
    cbn [getList] in Hx, Hq2. rewrite Hq2 in Hx. apply elem_of_nil in Hx. exact Hx.
  - apply elem_of_nil_inv. intros x Hx.
    apply (Hl4 PendingResponse) in Hx. cbn [getList] in Hx, Hq3. rewrite Hq3 in Hx.
    apply elem_of_nil in Hx. exact Hx.
  - rewrite Hca in Hr2. lia.
Qed.

(** Property X21.  With the flag CLEANUP_ONLY, [IotMqtt_Disconnect] sends no
    DISCONNECT packet whatever the state of the connection: it makes no call
    that creates, serializes, schedules or waits for an operation.  It
    closes the network connection, leaves the connection disconnected with
    both operation lists empty, and releases at least one reference. *)
Theorem Disconnect_cleanup_only (E : Env) (flags : Z) (w : World) :
  Z.land flags IOT_MQTT_FLAG_CLEANUP_ONLY <> 0 ->
  let w' := snd (IotMqtt_Disconnect E flags w) in
  (exists evs, trace w' = trace w ++ evs /\ Forall (fun e => ~ sendEvent e) evs
               /\ EvNetworkClose ∈ evs) /\
  disconnected (connection w') = true /\
  pendingProcessing (connection w') = [] /\
  pendingResponse (connection w') = [] /\
  references (connection w') <= references (connection w) - 1.
Proof.
  intros Hf.
  assert (Heq : IotMqtt_Disconnect E flags w = Disconnect_teardown E w).
  { unfold IotMqtt_Disconnect, Disconnect_teardown.
    unfold bind at 1. unfold getConnection at 1. cbv beta iota.
    apply Z.eqb_neq in Hf. rewrite Hf.
    destruct (negb (disconnected (connection w))); cbn [when];
      unfold bind at 1; unfold ret at 1; cbv beta iota; reflexivity. }
  rewrite Heq. apply Disconnect_teardown_effect.
Qed.

Lemma Disconnect_cleanup_only_witness :
  disconnected
    (connection (snd (IotMqtt_Disconnect exampleEnv IOT_MQTT_FLAG_CLEANUP_ONLY idleWorld)))
  = true.
Proof.
  assert (Hf : Z.land IOT_MQTT_FLAG_CLEANUP_ONLY IOT_MQTT_FLAG_CLEANUP_ONLY <> 0)
    by (vm_compute; discriminate).
  destruct (Disconnect_cleanup_only exampleEnv IOT_MQTT_FLAG_CLEANUP_ONLY idleWorld Hf)
    as (_ & Hd & _).
  exact Hd.
Defined.

(** ** Failed calls leave no operation behind *)

Lemma delete_fresh_insert (ops : gmap nat _mqttOperation_t) (o : _mqttOperation_t) :
  delete (fresh (dom ops)) (<[fresh (dom ops) := o]> ops) = ops.
Proof. apply delete_insert_id. apply not_elem_of_dom. apply is_fresh. Qed.

Ltac undone :=
  unfold operationUndone, noDanglingReference;
  cbn [operations connection references setOperations setConnection emit setCallerReference
       set_references set_pendingProcessing set_subscriptionList callerReference];
  rewrite ?delete_alter_eq, ?delete_fresh_insert;
  split; [split; reflexivity|first [left; reflexivity|right; reflexivity]].

Lemma subscriptionCommon_body_failure (E : Env) (operation : IotMqttOperationType_t)
    (l : list IotMqttSubscription_t) (n : nat) (flags : Z)
    (cb : option IotMqttCallbackInfo_t) (ref : bool) (w : World) :
  operation = IOT_MQTT_SUBSCRIBE \/ operation = IOT_MQTT_UNSUBSCRIBE ->
  let r := _subscriptionCommon_body E operation l n flags cb ref w in
  fst (fst r) = IOT_MQTT_SUCCESS \/
  (operationUndone w (snd (fst r)) (snd r) /\ noDanglingReference w (snd r)).
Proof.
  intros Hop. cbv zeta.
  unfold _subscriptionCommon_body, _IotMqtt_CreateOperation, _IotMqtt_AddSubscriptions,
    _IotMqtt_ScheduleOperation, _IotMqtt_RemoveSubscriptionByPacket,
    _IotMqtt_RemoveSubscriptionByTopicFilter.
  destruct Hop as [-> | ->].
  all: rewrite ?(bool_decide_eq_true_2 (IOT_MQTT_SUBSCRIBE = IOT_MQTT_SUBSCRIBE)) by reflexivity.
  all: rewrite ?(bool_decide_eq_false_2 (IOT_MQTT_SUBSCRIBE = IOT_MQTT_UNSUBSCRIBE)) by discriminate.
  all: rewrite ?(bool_decide_eq_true_2 (IOT_MQTT_UNSUBSCRIBE = IOT_MQTT_UNSUBSCRIBE)) by reflexivity.
  all: rewrite ?(bool_decide_eq_false_2 (IOT_MQTT_UNSUBSCRIBE = IOT_MQTT_SUBSCRIBE)) by discriminate.
  all: cbn [orb]; run.
  all: match goal with |- context [_IotMqtt_ValidateSubscriptionList ?e ?o ?m ?a ?b] =>
         destruct (_IotMqtt_ValidateSubscriptionList e o m a b); cbn [negb]; run;
         [|right; undone]
       end.
  all: match goal with |- context [isWaitable ?f && negb ?r] =>
         destruct (isWaitable f && negb r) eqn:Hwr; run; [right; undone|] end.
  all: match goal with |- context [bool_decide (createOperation_status ?e ?h = IOT_MQTT_SUCCESS)] =>
         destruct (bool_decide (createOperation_status e h = IOT_MQTT_SUCCESS)) eqn:Hcr;
         [apply bool_decide_eq_true in Hcr | apply bool_decide_eq_false in Hcr]; run;
         [|right; undone]
       end.
  all: rewrite (bool_decide_eq_false_2 (IOT_MQTT_SUCCESS <> IOT_MQTT_SUCCESS))
    by (intros H; apply H; reflexivity); run.
  all: rewrite ?lookup_insert_eq; cbn [default from_option id o_status retry_limit Z.eqb].
  all: rewrite ?(bool_decide_eq_true_2 (IOT_MQTT_STATUS_PENDING = IOT_MQTT_STATUS_PENDING))
    by reflexivity; run.
  all: match goal with |- context [chooseSerializer ?e ?d ?s ?m ?h ?a ?b] =>
         destruct (chooseSerializer e d s m h a b) as [[st packet] identifier] eqn:Hser
       end; run.
  all: match goal with |- context [bool_decide (?st <> IOT_MQTT_SUCCESS)] =>
    destruct (bool_decide (st <> IOT_MQTT_SUCCESS)) eqn:Hst;
    [apply bool_decide_eq_true in Hst | apply bool_decide_eq_false in Hst]; run;
    [right; undone|] end.
  all: rewrite ?lookup_alter_eq, ?lookup_insert_eq;
    cbn [fmap option_fmap option_map default from_option id pMqttPacket set_pMqttPacket
         set_o_packetIdentifier set_o_operation o_packetIdentifier].
  all: match goal with |- context [0 <? packetSize ?pk] =>
         destruct (0 <? packetSize pk), (bool_decide (pk <> None)); run end.
  all: try match goal with |- context [bool_decide (addSubscriptions_status ?e ?h = IOT_MQTT_SUCCESS)] =>
         destruct (bool_decide (addSubscriptions_status e h = IOT_MQTT_SUCCESS)) eqn:Hadd;
         [apply bool_decide_eq_true in Hadd | apply bool_decide_eq_false in Hadd]; run;
         [|rewrite (bool_decide_eq_true_2 _ Hadd); run; right; undone]
       end.
  all: rewrite ?(bool_decide_eq_false_2 (IOT_MQTT_SUCCESS <> IOT_MQTT_SUCCESS))
    by (intros H; apply H; reflexivity); run.
  all: rewrite ?(bool_decide_eq_false_2 _ Hst); run.
  all: destruct ref; run.
  all: match goal with |- context [bool_decide (scheduleOperation_status ?e ?h <> IOT_MQTT_SUCCESS)] =>
         destruct (bool_decide (scheduleOperation_status e h <> IOT_MQTT_SUCCESS)) eqn:Hsch;
         [apply bool_decide_eq_true in Hsch | apply bool_decide_eq_false in Hsch]; run;
         [right; undone|]
       end.
  all: left; match goal with |- ?x = _ =>
         destruct (decide (x = IOT_MQTT_SUCCESS)); [assumption|contradiction] end.
Qed.

Lemma Publish_body_failure (E : Env) (info : IotMqttPublishInfo_t) (flags : Z)
    (cb : option IotMqttCallbackInfo_t) (ref : bool) (w : World) :
  let r := IotMqtt_Publish_body E info flags cb ref w in
  fst (fst r) = IOT_MQTT_SUCCESS \/
  (operationUndone w (snd (fst r)) (snd r) /\ noDanglingReference w (snd r)).
Proof.
  cbv zeta.
  unfold IotMqtt_Publish_body, _IotMqtt_CreateOperation, _IotMqtt_ScheduleOperation.
  run.
  destruct (_IotMqtt_ValidatePublish E _ info); cbn [negb]; run; [|right; undone].
  destruct (_ && _); run; [right; undone|].
  destruct ((qos info =? IOT_MQTT_QOS_0) && ref); run.
  all: destruct (isWaitable flags && negb ref); run; [right; undone|].
  all: match goal with |- context [bool_decide (createOperation_status ?e ?h = IOT_MQTT_SUCCESS)] =>
         destruct (bool_decide (createOperation_status e h = IOT_MQTT_SUCCESS)) eqn:Hcr;
         [apply bool_decide_eq_true in Hcr | apply bool_decide_eq_false in Hcr]; run;
         [|right; undone]
       end.
  all: rewrite (bool_decide_eq_false_2 (IOT_MQTT_SUCCESS <> IOT_MQTT_SUCCESS))
    by (intros H; apply H; reflexivity); run.
  all: rewrite ?lookup_insert_eq; cbn [default from_option id o_status].
  all: rewrite ?(bool_decide_eq_true_2 (IOT_MQTT_STATUS_PENDING = IOT_MQTT_STATUS_PENDING))
    by reflexivity; run.
  all: match goal with |- context [chooseSerializer ?e ?d ?s ?m ?h ?a ?b] =>
         destruct (chooseSerializer e d s m h a b) as [[st packet] identifier] eqn:Hser
       end; run.
  all: match goal with |- context [bool_decide (?st <> IOT_MQTT_SUCCESS)] =>
    destruct (bool_decide (st <> IOT_MQTT_SUCCESS)) eqn:Hst;
    [apply bool_decide_eq_true in Hst | apply bool_decide_eq_false in Hst]; run;
    [right; undone|] end.
  all: match goal with |- context [0 <? packetSize ?pk] =>
         destruct (0 <? packetSize pk), (bool_decide (pk <> None)); run end.
  all: match goal with |- context [(0 <? retryLimit ?i) && ?b] =>
         destruct ((0 <? retryLimit i) && b); run end.
  all: match goal with |- context [negb ?q && ?r] =>
         destruct (negb q && r); run end.
  all: match goal with |- context [bool_decide (scheduleOperation_status ?e ?h <> IOT_MQTT_SUCCESS)] =>
         destruct (bool_decide (scheduleOperation_status e h <> IOT_MQTT_SUCCESS)) eqn:Hsch;
         [apply bool_decide_eq_true in Hsch | apply bool_decide_eq_false in Hsch]; run;
         [right; undone|]
       end.
  all: left; match goal with |- ?x = _ =>
         destruct (decide (x = IOT_MQTT_SUCCESS)); [assumption|contradiction] end.
Qed.

Lemma DestroyOperation_undo (E : Env) (p : nat) (w w1 : World) :
  operationUndone w (Some p) w1 ->
  let w' := snd (_IotMqtt_DestroyOperation E p w1) in
  operations w' = operations w /\ callerReference w' = callerReference w1 /\
  (references (connection w) <> 0 ->
   references (connection w') = references (connection w)).
Proof.
  intros [Ho Hr]. cbv zeta.
  destruct (DestroyOperation_effect E p w1) as [Hops _].
  split; [rewrite Hops; exact Ho|].
  split; [apply keeps_callerReference_DestroyOperation|].
  intros Hn. unfold _IotMqtt_DestroyOperation. rewrite !bind_run.
  rewrite DecrementConnectionReferences_live;
    unfold modifyConnection, call;
    cbn [fst snd connection setConnection setOperations emit references set_references
         set_pendingResponse set_pendingProcessing]; lia.
Qed.

Lemma cleanup_undo (E : Env) (op : option nat) (w w1 : World) :
  operationUndone w op w1 ->
  let w' := snd (match op with
                 | Some p => _IotMqtt_DestroyOperation E p
                 | None => ret tt
                 end w1) in
  operations w' = operations w /\ callerReference w' = callerReference w1 /\
  (references (connection w) <> 0 ->
   references (connection w') = references (connection w)).
Proof.
  intros Hu. destruct op as [p|]; [apply DestroyOperation_undo; exact Hu|].
  destruct Hu as [Ho Hr]. cbv zeta. cbn [ret snd]. auto.
Qed.

(** Property X15.  A call that fails leaves no operation behind.  When
    [IotMqtt_Subscribe] or [IotMqtt_Unsubscribe] answers anything but
    PENDING, and when [IotMqtt_Publish] answers neither SUCCESS nor PENDING,
    the live operations are those of before the call; the reference count of
    a connection that held a reference is as before; and the variable behind
    the reference pointer is untouched or reset to the initializer, never
    left with the operation that was destroyed. *)
Theorem failed_call_leaves_no_operation (E : Env) (l : list IotMqttSubscription_t) (n : nat)
    (info : IotMqttPublishInfo_t) (flags : Z) (cb : option IotMqttCallbackInfo_t)
    (ref : bool) (w : World) :
  let unchanged (w' : World) :=
    operations w' = operations w /\ noDanglingReference w w' /\
    (references (connection w) <> 0 ->
     references (connection w') = references (connection w)) in
  (forall operation,
     operation = IOT_MQTT_SUBSCRIBE \/ operation = IOT_MQTT_UNSUBSCRIBE ->
     let r := _subscriptionCommon E operation l n flags cb ref w in
     fst r <> IOT_MQTT_STATUS_PENDING -> unchanged (snd r)) /\
  (let r := IotMqtt_Publish E info flags cb ref w in
   fst r <> IOT_MQTT_SUCCESS -> fst r <> IOT_MQTT_STATUS_PENDING -> unchanged (snd r)).
Proof.
  cbv zeta. split.
  - intros operation Hop. unfold _subscriptionCommon. rewrite bind_run.
    destruct (subscriptionCommon_body_failure E operation l n flags cb ref w Hop)
      as [Hs|[Hu Hc]].
    + intros Hp. exfalso. apply Hp. unfold _subscriptionCommon_cleanup. rewrite Hs.
      rewrite (bool_decide_eq_false_2 (IOT_MQTT_SUCCESS <> IOT_MQTT_SUCCESS))
        by (intros H; apply H; reflexivity).
      reflexivity.
    + intros Hp. unfold _subscriptionCommon_cleanup.
      destruct (bool_decide _) eqn:Hne.
      * rewrite bind_run. cbn [ret snd].
        destruct (cleanup_undo E _ w _ Hu) as (Ho & Hk & Hr).
        split; [exact Ho|]. split; [|exact Hr].
        unfold noDanglingReference in *. rewrite Hk. exact Hc.
      * exfalso. apply Hp. unfold _subscriptionCommon_cleanup. rewrite Hne. reflexivity.
  - unfold IotMqtt_Publish. rewrite bind_run.
    destruct (Publish_body_failure E info flags cb ref w) as [Hs|[Hu Hc]].
    + intros Hn Hp. exfalso. unfold IotMqtt_Publish_cleanup in Hn, Hp. rewrite Hs in Hn, Hp.
      rewrite (bool_decide_eq_false_2 (IOT_MQTT_SUCCESS <> IOT_MQTT_SUCCESS)) in Hn, Hp
        by (intros H; apply H; reflexivity).
      destruct (qos info >? IOT_MQTT_QOS_0); [apply Hp|apply Hn]; reflexivity.
    + intros Hn Hp. unfold IotMqtt_Publish_cleanup in *.
      destruct (bool_decide _) eqn:Hne.
      * rewrite bind_run. cbn [ret snd].
        destruct (cleanup_undo E _ w _ Hu) as (Ho & Hk & Hr).
        split; [exact Ho|]. split; [|exact Hr].
        unfold noDanglingReference in *. rewrite Hk. exact Hc.
      * exfalso. apply bool_decide_eq_false in Hne.
        destruct (qos info >? IOT_MQTT_QOS_0); [apply Hp; reflexivity|].
        apply Hn. cbn [ret fst].
        match goal with |- ?x = _ =>
          destruct (decide (x = IOT_MQTT_SUCCESS)); [assumption|contradiction] end.
Qed.

(** ** Early failures of [IotMqtt_Connect] *)

Lemma Connect_body_valid (E : Env) (ni : IotMqttNetworkInfo_t) (ci : IotMqttConnectInfo_t)
    (t : Z) :
  connectParametersValid E ci ->
  IotMqtt_Connect_body E (Some ni) ci t
  = if createNetworkConnection ni
    then
      bind (call EvNetworkCreate (network_create E))
        (fun networkCreate =>
           let (networkStatus, pNetworkConnection) :=
             networkCreate : IotNetworkError_t * nat in
           if bool_decide (networkStatus = IOT_NETWORK_SUCCESS)
           then IotMqtt_Connect_establish E ni ci t true true pNetworkConnection
           else IotMqtt_Connect_goto IOT_MQTT_NETWORK_ERROR false None false)
    else IotMqtt_Connect_establish E ni ci t true false (pNetworkConnection ni).
Proof.
  intros (Hvc & Hwill & Hprev). unfold IotMqtt_Connect_body. rewrite Hvc. cbn [negb].
  assert (Hw : match pWillInfo ci with
               | Some will =>
                   if negb (_IotMqtt_ValidatePublish E (awsIotMqttMode ci) will)
                   then true
                   else payloadLength will >? UINT16_MAX
               | None => false
               end = false).
  { destruct (pWillInfo ci) as [will|]; [|reflexivity].
    destruct (Hwill will eq_refl) as [Hv Hl]. rewrite Hv. cbn [negb].
    destruct (Z.gtb_spec (payloadLength will) UINT16_MAX); [lia|reflexivity]. }
  rewrite Hw.
  assert (Hp : negb (cleanSession ci)
               && match pPreviousSubscriptions ci with
                  | Some previous =>
                      negb (_IotMqtt_ValidateSubscriptionList E IOT_MQTT_SUBSCRIBE
                              (awsIotMqttMode ci) previous (previousSubscriptionCount ci))
                  | None => false
                  end = false).
  { unfold previousSubscriptionsValid in Hprev.
    destruct (cleanSession ci); [reflexivity|]. cbn [negb andb].
    destruct (pPreviousSubscriptions ci) as [previous|]; [|reflexivity].
    rewrite (Hprev eq_refl previous eq_refl). reflexivity. }
  rewrite Hp. reflexivity.
Qed.

(** Property X19.  With parameters that pass the checks, [IotMqtt_Connect]
    fails early in two ways.  When the network connection it was asked to
    create cannot be created, it answers NETWORK_ERROR and makes no other
    call.  When the connection object cannot be allocated, it answers
    NO_MEMORY and its only further call closes the network connection: a
    network connection that it created is closed but not destroyed.  In both
    cases the output parameter is not set and nothing else changes. *)
Theorem Connect_early_failures (E : Env) (ni : IotMqttNetworkInfo_t)
    (ci : IotMqttConnectInfo_t) (t : Z) (w : World) :
  connectParametersValid E ci ->
  let r := IotMqtt_Connect E (Some ni) ci t w in
  let unchanged (w' : World) :=
    connection w' = connection w /\ connectionAllocated w' = connectionAllocated w /\
    operations w' = operations w /\ callerReference w' = callerReference w in
  (createNetworkConnection ni = true ->
   fst (network_create E (trace w)) <> IOT_NETWORK_SUCCESS ->
   fst r = (IOT_MQTT_NETWORK_ERROR, false) /\
   trace (snd r) = trace w ++ [EvNetworkCreate] /\ unchanged (snd r)) /\
  (let h := trace w ++ (if createNetworkConnection ni then [EvNetworkCreate] else []) in
   (createNetworkConnection ni = true ->
    fst (network_create E (trace w)) = IOT_NETWORK_SUCCESS) ->
   IotMqtt_MallocConnection E h = false ->
   fst r = (IOT_MQTT_NO_MEMORY, false) /\
   trace (snd r) = h ++ [EvMallocConnection; EvNetworkClose] /\ unchanged (snd r)).
Proof.
  intros Hv. cbv zeta. unfold IotMqtt_Connect. rewrite (Connect_body_valid E ni ci t Hv).
  split.
  - intros Hc Hn. rewrite Hc. unfold IotMqtt_Connect_goto, IotMqtt_Connect_cleanup. run.
    destruct (network_create E (trace w)) as [networkStatus pNetworkConnection].
    cbn [fst] in Hn. rewrite (bool_decide_eq_false_2 _ Hn). run.
    rewrite (bool_decide_eq_true_2 (IOT_MQTT_NETWORK_ERROR <> IOT_MQTT_SUCCESS)) by discriminate.
    run. cbn [l_status l_networkCreated l_pConnectOperation l_pNewMqttConnection]. run.
    repeat split.
  - intros Hn Hm.
    unfold IotMqtt_Connect_establish, _createMqttConnection, IotMqtt_Connect_goto,
      IotMqtt_Connect_cleanup.
    destruct (createNetworkConnection ni); run.
    + specialize (Hn eq_refl).
      destruct (network_create E (trace w)) as [networkStatus pNetworkConnection].
      cbn [fst] in Hn. rewrite (bool_decide_eq_true_2 _ Hn). run.
      rewrite Hm. cbn [negb]. run.
      rewrite (bool_decide_eq_true_2 (IOT_MQTT_NO_MEMORY <> IOT_MQTT_SUCCESS)) by discriminate.
      run. cbn [l_status l_networkCreated l_pConnectOperation l_pNewMqttConnection]. run.
      match goal with |- context [bool_decide ?P] => destruct (bool_decide P) end;
        run; rewrite <- ?app_assoc; repeat split.
    + rewrite app_nil_r in Hm. rewrite Hm. cbn [negb]. run.
      rewrite (bool_decide_eq_true_2 (IOT_MQTT_NO_MEMORY <> IOT_MQTT_SUCCESS)) by discriminate.
      run. cbn [l_status l_networkCreated l_pConnectOperation l_pNewMqttConnection]. run.
      match goal with |- context [bool_decide ?P] => destruct (bool_decide P) end;
        run; rewrite <- ?app_assoc; repeat split.
Qed.

Lemma Connect_early_failures_witness :
  trace (snd (IotMqtt_Connect noMemoryEnv (Some exampleNetworkInfo) (exampleConnect None) 1000
                freshWorld))
  = [EvNetworkCreate; EvMallocConnection; EvNetworkClose].
Proof.
  assert (Hv : connectParametersValid noMemoryEnv (exampleConnect None)).
  { split; [reflexivity|]. split; [intros will Hw; discriminate Hw|].
    intros Hc. discriminate Hc. }
  destruct (Connect_early_failures noMemoryEnv exampleNetworkInfo (exampleConnect None) 1000
              freshWorld Hv) as [_ Hm].
  destruct (Hm (fun _ => eq_refl) eq_refl) as (_ & Ht & _).
  exact Ht.
Defined.

(** ** Descriptions *)

(** Property X22.  [IotMqtt_strerror] and [IotMqtt_OperationType] give each
    status and each operation type a description of its own: the description
    identifies the value. *)
Theorem descriptions_distinct :
  (forall s s', IotMqtt_strerror s = IotMqtt_strerror s' -> s = s') /\
  (forall o o', IotMqtt_OperationType o = IotMqtt_OperationType o' -> o = o').
Proof.
  split.
  - intros s s' H. destruct s, s'; first [reflexivity | discriminate H].
  - intros o o' H. destruct o, o'; first [reflexivity | discriminate H].
Qed.

(** ** The calls of [IotMqtt_Wait] *)

Lemma emits_Wait_release (E : Env) (p : nat) : emits teardownEvent (Wait_release E p).
Proof.
  unfold Wait_release. apply emits_bind; [apply emits_DecrementOperationReferences|].
  intros destroy. apply emits_when, emits_DestroyOperation.
Qed.

Lemma Wait_pending_trace (E : Env) (p : nat) (t : Z) (w : World) (o : _mqttOperation_t) :
  operations w !! p = Some o ->
  let o1 := taskPool_progress E (trace w) o in
  trace (snd (Wait_pending E p t w))
  = trace w ++
    (if disconnected (connection w) then []
     else EvSemaphoreTimedWait p t ::
          (if IotSemaphore_TimedWait E (trace w) then []
           else EvTaskPoolTryCancel p ::
                (if bool_decide (o_operation o1 = IOT_MQTT_SUBSCRIBE)
                 then [EvRemoveSubscriptionByPacket (o_packetIdentifier o1) (-1)]
                 else []))).
Proof.
  intros Hp. cbv zeta.
  unfold Wait_pending, IotSemaphore_TimedWait_on, _IotMqtt_DecrementOperationReferences,
    _IotMqtt_RemoveSubscriptionByPacket.
  run.
  destruct (disconnected (connection w)); run; [rewrite app_nil_r; reflexivity|].
  destruct (IotSemaphore_TimedWait E (trace w)); cbn [negb]; run; [reflexivity|].
  match goal with |- context [bool_decide (?x = IOT_TASKPOOL_SUCCESS)] =>
    destruct (bool_decide (x = IOT_TASKPOOL_SUCCESS)) end; run;
    rewrite ?lookup_alter_eq, Hp;
    cbn [fmap option_fmap option_map default from_option id o_operation o_packetIdentifier
         set_o_references];
    match goal with |- context [bool_decide (?x = IOT_MQTT_SUBSCRIBE)] =>
      destruct (bool_decide (x = IOT_MQTT_SUBSCRIBE)) end; run;
    rewrite <- ?app_assoc; reflexivity.
Qed.

(** Property X18.  On a valid reference, [IotMqtt_Wait] does not block when
    the connection is disconnected: it makes no call but those that release
    the reference.  Otherwise its first call is the wait on the semaphore of
    the operation.  When that wait times out, the next call asks the task
    pool to cancel the job of the operation, and the subscriptions of the
    packet are withdrawn from the table exactly when the operation is a
    SUBSCRIBE; when the wait is signalled, only the release of the reference
    follows. *)
Theorem Wait_calls (E : Env) (p : nat) (t : Z) (w : World) (o : _mqttOperation_t) :
  operations w !! p = Some o ->
  _IotMqtt_ValidateReference E o = true ->
  let o1 := taskPool_progress E (trace w) o in
  let withdrawn := EvRemoveSubscriptionByPacket (o_packetIdentifier o1) (-1) in
  exists evs, trace (snd (IotMqtt_Wait E p t w)) = trace w ++ evs /\
  (disconnected (connection w) = true -> Forall teardownEvent evs) /\
  (disconnected (connection w) = false ->
   exists post, evs = EvSemaphoreTimedWait p t :: post /\
     (IotSemaphore_TimedWait E (trace w) = true -> Forall teardownEvent post) /\
     (IotSemaphore_TimedWait E (trace w) = false ->
      exists post', post = EvTaskPoolTryCancel p :: post' /\
        (withdrawn ∈ post' <-> o_operation o1 = IOT_MQTT_SUBSCRIBE))).
Proof.
  intros Hp Hv. cbv zeta.
  assert (Heq : snd (IotMqtt_Wait E p t w)
                = snd (Wait_release E p (snd (Wait_pending E p t w)))).
  { rewrite Wait_unfold. unfold bind. rewrite (readOperation_live _ _ _ Hp), Hv.
    cbn [negb]. destruct (Wait_pending E p t w) as [st w1]. cbn [fst snd].
    destruct (Wait_release E p w1) as [u w2]. reflexivity. }
  rewrite Heq. clear Heq.
  destruct (emits_Wait_release E p (snd (Wait_pending E p t w))) as (rel & Hrel & Frel).
  rewrite Hrel, (Wait_pending_trace E p t w o Hp).
  assert (Hnot : forall id order, EvRemoveSubscriptionByPacket id order ∉ rel).
  { intros id order Hin. rewrite Forall_forall in Frel. apply (Frel _ Hin). }
  destruct (disconnected (connection w)).
  - exists rel. rewrite app_nil_r. split; [reflexivity|]. split; [auto|discriminate].
  - eexists. split; [rewrite <- app_assoc; reflexivity|]. split; [discriminate|].
    intros _. eexists. split; [reflexivity|].
    destruct (IotSemaphore_TimedWait E (trace w)).
    + split; [intros _; exact Frel|discriminate].
    + split; [discriminate|]. intros _. eexists. split; [reflexivity|].
      destruct (bool_decide _) eqn:Hs;
        [apply bool_decide_eq_true in Hs | apply bool_decide_eq_false in Hs].
      * split; [intros _; exact Hs|]. intros _. apply list_elem_of_here.
      * split; [|intros; contradiction]. cbn [app]. intros Hin. exfalso.
        exact (Hnot _ _ Hin).
Qed.

Lemma Wait_calls_witness :
  exists evs, trace (snd (IotMqtt_Wait exampleEnv 0 1000 waitingWorld))
              = trace waitingWorld ++ evs.
Proof.
  destruct (Wait_calls exampleEnv 0 1000 waitingWorld (exampleOperation 1 2)
              eq_refl eq_refl) as (evs & Ht & _).
  exists evs. exact Ht.
Defined.

(** ** Instances of the properties above *)

Lemma DecrementConnectionReferences_last_reference_witness :
  connectionAllocated (snd (_IotMqtt_DecrementConnectionReferences exampleEnv idleWorld))
  = false.
Proof.
  destruct (DecrementConnectionReferences_last_reference exampleEnv idleWorld) as [_ Hlast].
  destruct (Hlast eq_refl) as (Ha & _). exact Ha.
Defined.

Lemma createMqttConnection_all_or_nothing_witness :
  connectionAllocated
    (snd (_createMqttConnection exampleEnv true exampleNetworkInfo 60 freshWorld)) = true.
Proof.
  destruct (createMqttConnection_all_or_nothing exampleEnv true exampleNetworkInfo 60
              freshWorld) as (evs & _ & Hs & _).
  destruct (Hs eq_refl) as (Ha & _). exact Ha.
Defined.

Lemma bad_parameter_no_effect_witness :
  IotMqtt_Unsubscribe exampleEnv [exampleSubscription "a" 1] 1 IOT_MQTT_FLAG_WAITABLE None
    false (subscribedWorld (exampleEntry "a" 1 5))
  = (IOT_MQTT_BAD_PARAMETER, subscribedWorld (exampleEntry "a" 1 5)).
Proof.
  destruct (bad_parameter_no_effect exampleEnv [exampleSubscription "a" 1] 1
              (examplePublish 1 10) IOT_MQTT_FLAG_WAITABLE None false
              (subscribedWorld (exampleEntry "a" 1 5))) as [Hs _].
  apply Hs; [right; reflexivity|right; split; reflexivity].
Defined.

Lemma TimedSubscribe_waits_on_its_operation_witness :
  fst (IotMqtt_TimedSubscribe exampleEnv [exampleSubscription "a" 1] 1 0 1000 idleWorld)
  = Some IOT_MQTT_SUCCESS.
Proof.
  assert (Hn : neverPendingSubscription exampleEnv IOT_MQTT_SUBSCRIBE
                 [exampleSubscription "a" 1] 1 idleWorld)
    by (repeat split; intros; discriminate).
  destruct (TimedSubscribe_waits_on_its_operation exampleEnv [exampleSubscription "a" 1] 1 0
              1000 idleWorld) as [Hs _].
  rewrite (Hs Hn). reflexivity.
Defined.

Lemma failed_call_leaves_no_operation_witness :
  operations (snd (IotMqtt_Publish noScheduleEnv (examplePublish 1 10) 0 None false idleWorld))
  = operations idleWorld.
Proof.
  destruct (failed_call_leaves_no_operation noScheduleEnv [exampleSubscription "a" 1] 1
              (examplePublish 1 10) 0 None false idleWorld) as [_ Hp].
  destruct Hp as (Ho & _); [discriminate|discriminate|exact Ho].
Defined.
